(** * PySeas buoy-camera gallery: a model of [gallery_v4.py] and [gallery_v2.py]

    The scripts fetch one frame per buoy, discard blank frames, split each
    remaining frame into six horizontal panels, level every panel, stitch the
    panels back together and stack all frames into one gallery.
    [gallery_v4.py] is the latest script; [gallery_v2.py] is an older one,
    with a blank test for white frames only and without the test on the
    frame height; the code that combines the gallery is the same in
    [gallery.py], [gallery_v2.py] and [gallery_v4.py].

    The development follows the code:
    - Python numbers: [int] is [Z]; [float] is IEEE 754 binary64, taken from
      the standard library's [SpecFloat] (precision 53, emax 1024), so
      [0.95 * total_pixels] is the rounded product the interpreter computes;
    - a PIL image is an object in a store; the store is a list of image
      values, a reference is an index, and every PIL call that returns a new
      image allocates at the end of the store; [paste] updates in place;
    - a Python exception is the [Raise] outcome of a computation;
    - OpenCV, NumPy's floating point helpers, PIL's rotation, the luminance
      conversion, the network and the file system are parameters of the
      gallery; [fetch_buoy_image] is modelled on its own, over the answers of
      the web and a finite map of files. *)

From Stdlib Require Import ZArith NArith Lia List Bool Floats Ascii.
From stdpp Require Import base option list strings pretty gmap.

Open Scope Z_scope.

(** ** Python numbers *)

Module Py.

(** A Python [float]. *)
Definition float64 : Type := spec_float.

Definition prec : Z := 53.
Definition emax : Z := 1024.

(** The literal [0.95]: the binary64 number nearest to 95/100, that is
    [0x1.e666666666666p-1]. *)
Definition lit_0_95 : float64 := S754_finite false 8556839292003942 (-53).

(** The literal [0.1]: [0x1.999999999999ap-4]. *)
Definition lit_0_1 : float64 := S754_finite false 7205759403792794 (-56).

(** [float(n)] for a Python [int]: conversion rounds to nearest, ties to
    even (exact below [2^53]). *)
Definition float_of_int (n : Z) : float64 := binary_normalize prec emax n 0 false.

(** [x * y] on floats. *)
Definition float_mul (x y : float64) : float64 := SFmul prec emax x y.

(** [f * n] with a float [f] and an int [n]: the int is converted first. *)
Definition float_mul_int (f : float64) (n : Z) : float64 :=
  float_mul f (float_of_int n).

(** [n > f] with an int [n] and a float [f]. CPython compares the two
    numbers exactly (no rounding of [n]); a NaN compares false. *)
Definition int_gt_float (n : Z) (f : float64) : bool :=
  match f with
  | S754_nan => false
  | S754_infinity s => s
  | S754_zero _ => 0 <? n
  | S754_finite s m e =>
      let v := if s then Z.neg m else Z.pos m in
      if 0 <=? e then v * 2 ^ e <? n else v <? n * 2 ^ (- e)
  end.

(** [sum(l)] and [max(l)] on lists of ints. [max] of an empty list raises
    in Python; every list it is applied to below is non-empty. *)
Definition sum (l : list Z) : Z := fold_left Z.add l 0.

Definition max (l : list Z) : Z :=
  match l with
  | [] => 0
  | x :: l' => fold_left Z.max l' x
  end.

(** [l[0]] and [l[-1]] (the lists indexed below have 256 entries). *)
Definition first (l : list Z) : Z := default 0 (head l).
Definition final (l : list Z) : Z := default 0 (last l).

(** [range(n)]. *)
Definition range (n : nat) : list Z := map Z.of_nat (seq 0 n).

End Py.

(** ** Outcomes of Python computations *)

Inductive exn : Type :=
| ValueError
| IndexError
| OSError
| CvError
| OtherError.

Inductive outcome (A : Type) : Type :=
| Return (a : A)
| Raise (e : exn).

Arguments Return {A} a.
Arguments Raise {A} e.

(** ** Raster images (PIL) *)

Module PIL.

(** An RGB pixel. *)
Definition pixel : Type := (Z * Z * Z)%type.

Definition black : pixel := (0, 0, 0).

(** The value of an image object: its size and its raster. Only
    [getpixel x y] with [0 <= x < width] and [0 <= y < height] is image
    content. Sizes are natural numbers: PIL has no image of negative size. *)
Record image : Type := Image {
  width : N;
  height : N;
  getpixel : Z -> Z -> pixel
}.

Definition in_bounds (img : image) (x y : Z) : bool :=
  (0 <=? x) && (x <? Z.of_N (width img)) && (0 <=? y) && (y <? Z.of_N (height img)).

(** A crop box [(left, upper, right, lower)]. *)
Definition box : Type := (Z * Z * Z * Z)%type.

(** The raster of a box: the pixels of the image inside it, black outside
    the image. *)
Definition region (img : image) (b : box) : image :=
  let '(x0, y0, x1, y1) := b in
  Image (Z.to_N (x1 - x0)) (Z.to_N (y1 - y0))
    (fun x y =>
       if in_bounds img (x + x0) (y + y0)
       then getpixel img (x + x0) (y + y0)
       else black).

(** [Image.new("RGB", (w, h))]: a black canvas; a negative size raises. *)
Definition new_value (w h : Z) : outcome image :=
  if (w <? 0) || (h <? 0) then Raise ValueError
  else Return (Image (Z.to_N w) (Z.to_N h) (fun _ _ => black)).

(** [im.crop(box)]: the region of the box; a box whose right is left of its
    left, or whose lower is above its upper, raises. *)
Definition crop_value (img : image) (b : box) : outcome image :=
  let '(x0, y0, x1, y1) := b in
  if (x1 <? x0) || (y1 <? y0) then Raise ValueError
  else Return (region img b).

(** [canvas.paste(src, (x0, y0))]: [src] is copied with its top-left
    corner at [(x0, y0)]; the part falling outside the canvas is clipped. *)
Definition paste_value (canvas src : image) (x0 y0 : Z) : image :=
  Image (width canvas) (height canvas)
    (fun x y =>
       if in_bounds src (x - x0) (y - y0)
       then getpixel src (x - x0) (y - y0)
       else getpixel canvas x y).

(** A luminance raster (mode "L"), row by row. *)
Definition gray : Type := list (list Z).

Section Luminance.
(** The luminance of one pixel, as [convert("L")] computes it. *)
Variable luma : pixel -> Z.

(** [im.convert("L")]. *)
Definition convert_L (img : image) : gray :=
  map (fun y => map (fun x => luma (getpixel img x y))
                  (Py.range (N.to_nat (width img))))
      (Py.range (N.to_nat (height img))).
End Luminance.

(** [gray.histogram()]: 256 buckets, bucket [k] counts the pixels of
    luminance [k]. *)
Definition bucket (g : gray) (k : Z) : Z :=
  Z.of_nat (length (List.filter (fun v => v =? k) (concat g))).

Definition histogram (g : gray) : list Z := map (bucket g) (Py.range 256).

End PIL.

(** ** The object store *)

(** A reference to an image object. *)
Definition ref : Type := nat.

(** The store: the image objects created so far, the newest last. *)
Abbreviation store := (list PIL.image) (only parsing).

(** A computation reads and updates the store and returns or raises. An
    exception leaves the store as it was when it was raised. *)
Definition M (A : Type) : Type := store -> outcome A * store.

Definition ret {A} (a : A) : M A := fun s => (Return a, s).

Definition raise {A} (e : exn) : M A := fun s => (Raise e, s).

Definition bind {A B} (m : M A) (k : A -> M B) : M B :=
  fun s =>
    match m s with
    | (Return a, s') => k a s'
    | (Raise e, s') => (Raise e, s')
    end.

Notation "'let*' x ':=' m 'in' k" := (bind m (fun x => k))
  (at level 10, x pattern, m at level 100, k at level 200).

Definition lift {A} (o : outcome A) : M A := fun s => (o, s).

(** Reading the object behind a reference. *)
Definition deref (r : ref) : M PIL.image :=
  fun s =>
    match s !! r with
    | Some v => (Return v, s)
    | None => (Raise OtherError, s)
    end.

(** A new object; its reference is the next free index. *)
Definition alloc (v : PIL.image) : M ref :=
  fun s => (Return (length s), s ++ [v]).

(** Overwriting an object in place. *)
Definition assign (r : ref) (v : PIL.image) : M unit :=
  fun s => (Return tt, <[r := v]> s).

(** [[f(x) for x in l]], left to right. *)
Fixpoint mapM {A B} (f : A -> M B) (l : list A) : M (list B) :=
  match l with
  | [] => ret []
  | x :: l' =>
      let* y := f x in
      let* ys := mapM f l' in
      ret (y :: ys)
  end.

(** A [for] loop that threads one local variable. *)
Fixpoint foldM {A B} (f : B -> A -> M B) (acc : B) (l : list A) : M B :=
  match l with
  | [] => ret acc
  | x :: l' =>
      let* acc' := f acc x in
      foldM f acc' l'
  end.

(** [l[i]] with Python's negative indices; out of range raises. *)
Definition index {A} (l : list A) (i : Z) : M A :=
  let j := if i <? 0 then Z.of_nat (length l) + i else i in
  if j <? 0 then raise IndexError
  else match l !! Z.to_nat j with
       | Some a => ret a
       | None => raise IndexError
       end.

(** *** PIL calls on stored objects *)

(** [im.width], [im.height]. *)
Definition Image_width (im : ref) : M Z :=
  let* v := deref im in ret (Z.of_N (PIL.width v)).

Definition Image_height (im : ref) : M Z :=
  let* v := deref im in ret (Z.of_N (PIL.height v)).

(** [Image.new("RGB", (w, h))]. *)
Definition Image_new (w h : Z) : M ref :=
  let* v := lift (PIL.new_value w h) in alloc v.

(** [im.crop(box)]: a new object. *)
Definition Image_crop (im : ref) (b : PIL.box) : M ref :=
  let* v := deref im in
  let* c := lift (PIL.crop_value v b) in
  alloc c.

(** [canvas.paste(src, (x0, y0))]: the canvas is modified in place. *)
Definition Image_paste (canvas src : ref) (x0 y0 : Z) : M unit :=
  let* s := deref src in
  let* c := deref canvas in
  assign canvas (PIL.paste_value c s x0 y0).

(** ** gallery_v4.py *)

Module gallery_v4.

Definition buoy_ids : list Z :=
  [45007; 45012; 46002; 46011; 46012; 46015; 46025; 46026; 46027; 46028;
   46042; 46047; 46053; 46054; 46059; 46066; 46069; 46071; 46072; 46078;
   46085; 46086; 46087; 46088; 46089; 51000; 51001; 51002; 51003; 51004;
   51101; 46084].

(** An angle is the Python int [0] or a NumPy floating point scalar. *)
Inductive number (scalar : Type) : Type :=
| PyInt (n : Z)
| NpFloat (x : scalar).

Arguments PyInt {scalar} n.
Arguments NpFloat {scalar} x.

(** NumPy, OpenCV and PIL's rotation, as far as the script uses them:
    - NumPy's floating point scalars with [np.pi / 180], [np.rad2deg],
      [x - 90], [np.mean] and unary minus;
    - [cv2.Canny(image, threshold1, threshold2)];
    - [cv2.HoughLines(edges, rho, theta, threshold)], which returns [None]
      or an array of [(rho, theta)] pairs;
    - [im.rotate(angle, resample=Image.BICUBIC, expand=True)], on values. *)
Record Vision : Type := {
  scalar : Type;
  pi_over_180 : scalar;
  rad2deg : scalar -> scalar;
  minus_90 : scalar -> scalar;
  mean : list scalar -> scalar;
  negative : scalar -> scalar;
  Canny : PIL.gray -> Z -> Z -> outcome PIL.gray;
  HoughLines :
    PIL.gray -> Z -> scalar -> Z -> outcome (option (list (scalar * scalar)));
  rotate : PIL.image -> number scalar -> outcome PIL.image
}.

(** The network and the file system: [fetch_buoy_image] gives the path of
    the saved download or [None]; [Image.open] decodes the file at a path
    or raises. *)
Record Files : Type := {
  path : Type;
  fetch_buoy_image : Z -> option path;
  open_file : path -> outcome PIL.image
}.

Section Script.

(** PIL's luminance conversion. *)
Variable luma : PIL.pixel -> Z.

Variable V : Vision.
Variable F : Files.

(** Unary minus. *)
Definition neg (a : number (scalar V)) : number (scalar V) :=
  match a with
  | PyInt n => PyInt (- n)
  | NpFloat x => NpFloat (negative V x)
  end.

(** *** is_blank_image *)

Definition is_blank_image (image : PIL.image) : bool :=
  let grayscale := PIL.convert_L luma image in
  let hist := PIL.histogram grayscale in
  let total_pixels := Py.sum hist in
  if Py.int_gt_float (Py.final hist) (Py.float_mul_int Py.lit_0_95 total_pixels)
     || Py.int_gt_float (Py.first hist) (Py.float_mul_int Py.lit_0_95 total_pixels)
  then true
  else if Py.int_gt_float (Py.max hist) (Py.float_mul_int Py.lit_0_95 total_pixels)
  then true
  else false.

(** *** align_horizon *)

(** The correction angle: the mean deviation of the detected lines, [0]
    when there are none. *)
Definition mean_angle_of (lines : option (list (scalar V * scalar V))) :
  number (scalar V) :=
  match lines with
  | Some ls => NpFloat (mean V (map (fun l => minus_90 V (rad2deg V (snd l))) ls))
  | None => PyInt 0
  end.

(** The image [align_horizon] computes from the value of its argument. *)
Definition align_horizon_value (image : PIL.image) : outcome PIL.image :=
  let grayscale := PIL.convert_L luma image in
  match Canny V grayscale 50 150 with
  | Raise e => Raise e
  | Return edges =>
      match HoughLines V edges 1 (pi_over_180 V) 150 with
      | Raise e => Raise e
      | Return lines =>
          let mean_angle := mean_angle_of lines in
          rotate V image (neg mean_angle)
      end
  end.

(** [align_horizon(image)]: the result of [rotate] is a new object. *)
Definition align_horizon (image : ref) : M ref :=
  let* v := deref image in
  let* rotated_image := lift (align_horizon_value v) in
  alloc rotated_image.

(** *** process_and_split_image *)

(** The crop box of panel [i]. *)
Definition panel_box (width panel_height i : Z) : PIL.box :=
  (0, i * panel_height, width, (i + 1) * panel_height).

(** The pasting loop shared by [process_and_split_image] and
    [create_gallery]: every image goes to [x = 0] at the running offset. *)
Definition paste_all (canvas : ref) (images : list ref) : M Z :=
  foldM (fun y_offset img =>
           let* _ := Image_paste canvas img 0 y_offset in
           let* h := Image_height img in
           ret (y_offset + h))
        0 images.

Definition process_and_split_image (image : ref) : M ref :=
  let* width := Image_width image in
  let* height := Image_height image in
  if height <? 6 then ret image
  else
    let panel_height := height / 6 in
    let* aligned_panels :=
      mapM (fun i =>
              let* panel := Image_crop image (panel_box width panel_height i) in
              align_horizon panel)
           (Py.range 6) in
    let* heights := mapM Image_height aligned_panels in
    let combined_height := Py.sum heights in
    let* combined_image := Image_new width combined_height in
    let* _ := paste_all combined_image aligned_panels in
    let* first_panel := index aligned_panels 0 in
    let* first_height := Image_height first_panel in
    let trim_top := Z.max 0 (first_height - panel_height) in
    let* last_panel := index aligned_panels (-1) in
    let* last_height := Image_height last_panel in
    let trim_bottom := Z.max 0 (last_height - panel_height) in
    Image_crop combined_image (0, trim_top, width, combined_height - trim_bottom).

(** *** create_gallery *)

(** What happens in one round of the loop: the verdict of
    [is_blank_image(img)], the two messages the loop prints, the call of
    [process_and_split_image(img)] and the [append]. *)
Inductive event : Type :=
| Is_blank (buoy_id : Z) (img : ref) (verdict : bool)
| Skipping_blank (buoy_id : Z)
| Calls_process (buoy_id : Z) (img : ref)
| Appended (buoy_id : Z) (processed_img : ref)
| Error_processing (buoy_id : Z) (e : exn).

Record loop_state : Type := Loop {
  images : list ref;
  heap : store;
  trace : list event
}.

(** [Image.open(image_path)]: a new object. The file is decoded here; a
    file that cannot be decoded raises. *)
Definition Image_open (image_path : path F) : M ref :=
  let* v := lift (open_file F image_path) in alloc v.

(** One round of [for buoy_id in buoy_ids]. *)
Definition visit (st : loop_state) (buoy_id : Z) : loop_state :=
  match fetch_buoy_image F buoy_id with
  | None => st
  | Some image_path =>
      match Image_open image_path (heap st) with
      | (Raise e, s1) =>
          Loop (images st) s1 (trace st ++ [Error_processing buoy_id e])
      | (Return img, s1) =>
          match (let* v := deref img in ret (is_blank_image v)) s1 with
          | (Raise e, s2) =>
              Loop (images st) s2 (trace st ++ [Error_processing buoy_id e])
          | (Return true, s2) =>
              Loop (images st) s2
                (trace st ++ [Is_blank buoy_id img true; Skipping_blank buoy_id])
          | (Return false, s2) =>
              match process_and_split_image img s2 with
              | (Raise e, s3) =>
                  Loop (images st) s3
                    (trace st ++ [Is_blank buoy_id img false;
                                  Calls_process buoy_id img;
                                  Error_processing buoy_id e])
              | (Return processed_img, s3) =>
                  Loop (images st ++ [processed_img]) s3
                    (trace st ++ [Is_blank buoy_id img false;
                                  Calls_process buoy_id img;
                                  Appended buoy_id processed_img])
              end
          end
      end
  end.

(** The loop over a list of buoys. *)
Definition collect (ids : list Z) (st : loop_state) : loop_state :=
  fold_left visit ids st.

(** "Combine images into a single gallery": [None] when there is nothing to
    combine, otherwise the gallery that is saved. *)
Definition combine_gallery (images : list ref) : M (option ref) :=
  match images with
  | [] => ret None
  | _ :: _ =>
      let* widths := mapM Image_width images in
      let gallery_width := Py.max widths in
      let* heights := mapM Image_height images in
      let gallery_height := Py.sum heights in
      let* gallery := Image_new gallery_width gallery_height in
      let* _ := paste_all gallery images in
      ret (Some gallery)
  end.

(** [create_gallery()], started in a given store: the saved gallery if any,
    the final store and what happened on the way. *)
Definition create_gallery (s : store) : outcome (option ref) * store * list event :=
  let st := collect buoy_ids (Loop [] s []) in
  (combine_gallery (images st) (heap st), trace st).

End Script.

End gallery_v4.

(** ** gallery_v2.py *)

Module gallery_v2.

(** NumPy and PIL's rotation, as far as [align_horizon] uses them:
    - [np.argmin(edge_strength.mean(axis=1))] on the edge map built from the
      luminance raster with [np.diff] and [np.abs]; [argmin] raises on an
      empty map;
    - [im.rotate(angle, resample=Image.BICUBIC, expand=True)], on values. *)
Record Numpy : Type := {
  horizon_row : PIL.gray -> outcome Z;
  rotate : PIL.image -> Py.float64 -> outcome PIL.image
}.

Section Script.

Variable luma : PIL.pixel -> Z.
Variable NP : Numpy.

(** *** is_blank_image *)

Definition is_blank_image (image : PIL.image) : bool :=
  let grayscale := PIL.convert_L luma image in
  let hist := PIL.histogram grayscale in
  Py.int_gt_float (Py.final hist) (Py.float_mul_int Py.lit_0_95 (Py.sum hist)).

(** *** align_horizon *)

Definition align_horizon_value (image : PIL.image) : outcome PIL.image :=
  let grayscale := PIL.convert_L luma image in
  match horizon_row NP grayscale with
  | Raise e => Raise e
  | Return horizon_y =>
      let height := Z.of_N (PIL.height image) in
      let rotation_angle :=
        Py.float_mul (Py.float_of_int (horizon_y - height / 2)) Py.lit_0_1 in
      rotate NP image rotation_angle
  end.

Definition align_horizon (image : ref) : M ref :=
  let* v := deref image in
  let* aligned_image := lift (align_horizon_value v) in
  alloc aligned_image.

(** *** process_and_split_image *)

(** The function of [gallery_v4] without the test on the height. *)
Definition process_and_split_image (image : ref) : M ref :=
  let* width := Image_width image in
  let* height := Image_height image in
  let panel_height := height / 6 in
  let* aligned_panels :=
    mapM (fun i =>
            let* panel :=
              Image_crop image (gallery_v4.panel_box width panel_height i) in
            align_horizon panel)
         (Py.range 6) in
  let* heights := mapM Image_height aligned_panels in
  let combined_height := Py.sum heights in
  let* combined_image := Image_new width combined_height in
  let* _ := gallery_v4.paste_all combined_image aligned_panels in
  let* first_panel := index aligned_panels 0 in
  let* first_height := Image_height first_panel in
  let trim_top := Z.max 0 (first_height - panel_height) in
  let* last_panel := index aligned_panels (-1) in
  let* last_height := Image_height last_panel in
  let trim_bottom := Z.max 0 (last_height - panel_height) in
  Image_crop combined_image (0, trim_top, width, combined_height - trim_bottom).

End Script.

End gallery_v2.

(** ** gallery.py

    [gallery.py] appends to [images] what [Image.open] returns and does
    nothing else with a file before the gallery is combined. Pillow opens a
    file lazily: [Image.open] reads the header, which gives the size, and
    raises when the file cannot be identified; the pixels are decoded by the
    first [load], which [paste] calls, and a file that is cut short raises
    there. In [gallery_v4.py] and [gallery_v2.py] the first [load] is the one
    of [is_blank_image], inside the [try] that also holds [Image.open]; in
    [gallery.py] it is the one of [gallery.paste], outside any [try]. An
    opened file is read by the script and never changed, and each one is
    pasted once, so the list [images] holds it as a value. *)

Module gallery.

Definition buoy_ids : list Z :=
  [45007; 45012; 46002; 46011; 46012; 46015; 46025; 46026; 46027; 46028;
   46042; 46047; 46053; 46054; 46059; 46066; 46069; 46071; 46072; 46078;
   46085; 46086; 46087; 46088; 46089; 51000; 51001; 51002; 51003; 51004;
   51101; 46084].

(** What [Image.open] returns: the size read from the header, and what the
    first [load] will do, the decoded raster or an exception. *)
Record ImageFile : Type := {
  size : N * N;
  load : outcome (Z -> Z -> PIL.pixel)
}.

(** The outside world of the script: [fetch_buoy_image], which returns a
    path or [None], and [Image.open] on a path. *)
Record Files : Type := {
  path : Type;
  fetch_buoy_image : Z -> option path;
  Image_open : path -> outcome ImageFile
}.

(** [img.width], [img.height]: known from the header. *)
Definition width (img : ImageFile) : Z := Z.of_N (fst (size img)).

Definition height (img : ImageFile) : Z := Z.of_N (snd (size img)).

(** [img.load()]: the image, of the size of the header. *)
Definition loaded (img : ImageFile) : outcome PIL.image :=
  match load img with
  | Return raster => Return (PIL.Image (fst (size img)) (snd (size img)) raster)
  | Raise e => Raise e
  end.

(** [gallery.paste(img, (x0, y0))]: [paste] loads [img], then modifies the
    gallery in place. *)
Definition paste (gallery : ref) (img : ImageFile) (x0 y0 : Z) : M unit :=
  let* v := lift (loaded img) in
  let* c := deref gallery in
  assign gallery (PIL.paste_value c v x0 y0).

Section Script.

Variable F : Files.

(** *** create_gallery *)

(** One round of [for buoy_id in buoy_ids], on the list [images]: what
    [Image.open] returns is appended as it is; an exception of [Image.open]
    is printed and the loop goes on. *)
Definition visit (images : list ImageFile) (buoy_id : Z) : list ImageFile :=
  match fetch_buoy_image F buoy_id with
  | None => images
  | Some image_path =>
      match Image_open F image_path with
      | Raise e => images
      | Return img => images ++ [img]
      end
  end.

Definition collect (ids : list Z) (images : list ImageFile) : list ImageFile :=
  fold_left visit ids images.

(** "Combine images into a single gallery": [None] when there is nothing to
    combine, otherwise the gallery that is saved. An exception of [paste]
    is not caught. *)
Definition combine_gallery (images : list ImageFile) : M (option ref) :=
  match images with
  | [] => ret None
  | _ :: _ =>
      let gallery_width := Py.max (map width images) in
      let gallery_height := Py.sum (map height images) in
      let* gallery := Image_new gallery_width gallery_height in
      let* _ :=
        foldM (fun y_offset img =>
                 let* _ := paste gallery img 0 y_offset in
                 ret (y_offset + height img))
              0 images in
      ret (Some gallery)
  end.

(** [create_gallery()], started in a given store: the saved gallery if any,
    or the exception that leaves the function, and the final store. *)
Definition create_gallery (s : store) : outcome (option ref) * store :=
  combine_gallery (collect buoy_ids []) s.

End Script.

End gallery.

(** ** Downloads

    [fetch_buoy_image] in its three versions. Of the [requests] library the
    scripts use [get], [raise_for_status], the status code, the
    [Content-Type] header and the body; the files under [output_dir] are a
    finite map from paths to bytes. The directory exists, because the
    scripts create it when they are loaded, and writing to it succeeds. *)

Module requests.

Record Response : Type := {
  status_code : Z;
  content_type : option string;
  content : list Byte.byte
}.

(** The exceptions of the library; each is a [RequestException]. *)
Inductive RequestException : Type :=
| ConnectionError
| Timeout
| HTTPError (status : Z).

(** What [requests.get] does for each URL. *)
Definition web : Type := string -> RequestException + Response.

(** [response.raise_for_status()]: the exception it raises, if any. *)
Definition raise_for_status (response : Response) : option RequestException :=
  if (400 <=? status_code response) && (status_code response <? 600)
  then Some (HTTPError (status_code response))
  else None.

End requests.

Module fetch.

(** The files of the output directory. *)
Abbreviation disk := (gmap string (list Byte.byte)) (only parsing).

Definition output_dir : string := "./buoy_images".

(** [base_url.format(x)], and the f-string of [mvp.py]. *)
Definition base_url_format (station : string) : string :=
  "https://www.ndbc.noaa.gov/buoycam.php?station=" +:+ station.

(** [str(n)] of an int. *)
Definition str (n : Z) : string := pretty n.

(** [s.endswith(c)] for a character. *)
Fixpoint endswith (c : Ascii.ascii) (s : string) : bool :=
  match s with
  | EmptyString => false
  | String a EmptyString => Ascii.eqb a c
  | String _ s' => endswith c s'
  end.

(** [os.path.join(a, p)] of [posixpath]. *)
Definition os_path_join (a p : string) : string :=
  if String.prefix "/" p then p
  else if String.eqb a "" || endswith "/"%char a then a +:+ p
  else a +:+ "/" +:+ p.

(** [sub in s] on strings. *)
Fixpoint contains (sub s : string) : bool :=
  String.prefix sub s ||
  match s with
  | EmptyString => false
  | String _ s' => contains sub s'
  end.

(** [headers.get("Content-Type", "")]. *)
Definition headers_get_content_type (response : requests.Response) : string :=
  default ""%string (requests.content_type response).

(** [fetch_buoy_image] of [gallery_v4.py]: the path it returns, or [None],
    and the files afterwards. *)
Definition gallery_v4_fetch_buoy_image (w : requests.web) (buoy_id : Z) (d : disk) :
  option string * disk :=
  let url := base_url_format (str buoy_id) in
  match w url with
  | inl e => (None, d)
  | inr response =>
      match requests.raise_for_status response with
      | Some e => (None, d)
      | None =>
          if negb (contains "image" (headers_get_content_type response))
          then (None, d)
          else
            let image_path := os_path_join output_dir (str buoy_id +:+ ".jpg") in
            (Some image_path, <[image_path := requests.content response]> d)
      end
  end.

(** [fetch_buoy_image] of [gallery_v2.py] and of [gallery.py]: the same
    without the test on the header. *)
Definition gallery_v2_fetch_buoy_image (w : requests.web) (buoy_id : Z) (d : disk) :
  option string * disk :=
  let url := base_url_format (str buoy_id) in
  match w url with
  | inl e => (None, d)
  | inr response =>
      match requests.raise_for_status response with
      | Some e => (None, d)
      | None =>
          let image_path := os_path_join output_dir (str buoy_id +:+ ".jpg") in
          (Some image_path, <[image_path := requests.content response]> d)
      end
  end.

(** [fetch_buoy_image] of [mvp.py]: nothing is caught, nothing is saved, and
    the body is decoded by [Image.open(BytesIO(...))] when the status is
    200. An exception of [requests.get] is the left outcome. *)
Definition mvp_fetch_buoy_image (w : requests.web)
           (Image_open : list Byte.byte -> outcome PIL.image) (station_id : string) :
  requests.RequestException + outcome (option PIL.image) :=
  let url := base_url_format station_id in
  match w url with
  | inl e => inl e
  | inr response =>
      if requests.status_code response =? 200 then
        match Image_open (requests.content response) with
        | Return img => inr (Return (Some img))
        | Raise e => inr (Raise e)
        end
      else inr (Return None)
  end.

End fetch.

(** ** Vocabulary of the statements *)

(** A mantissa [M] shifted right by [n] bits and rounded to nearest, ties to
    even, the way [SpecFloat] does it: from the quotient, the first dropped
    bit and whether any later bit is set. *)
Definition half_up (M n : Z) : Z :=
  round_nearest_even (M / 2 ^ n)
    (loc_of_shr_record
       (Build_shr_record (M / 2 ^ n) (Z.testbit M (n - 1))
          (negb (M mod 2 ^ (n - 1) =? 0)))).

(** References that are all bound in a store, with their values. *)
Definition bound (s : store) (rs : list ref) (vs : list PIL.image) : Prop :=
  Forall2 (fun r v => s !! r = Some v) rs vs.

Definition heights (vs : list PIL.image) : list Z :=
  map (fun v => Z.of_N (PIL.height v)) vs.

Definition widths (vs : list PIL.image) : list Z :=
  map (fun v => Z.of_N (PIL.width v)) vs.

(** The canvas after pasting a list of images at [x = 0], the first at row
    [y], each next one below the previous. *)
Fixpoint stacked (canvas : PIL.image) (vs : list PIL.image) (y : Z) : PIL.image :=
  match vs with
  | [] => canvas
  | v :: vs' => stacked (PIL.paste_value canvas v 0 y) vs' (y + Z.of_N (PIL.height v))
  end.

(** The [i]-th panel of a frame, as [process_and_split_image] crops it. *)
Definition strip (img : PIL.image) (i : Z) : PIL.image :=
  PIL.region img
    (gallery_v4.panel_box (Z.of_N (PIL.width img)) (Z.of_N (PIL.height img) / 6) i).

(** The objects the split-and-align loop creates, in order of creation:
    each panel is followed by its aligned version. *)
Definition loop_objects (img : PIL.image) (aligned : Z -> PIL.image)
           (indices : list Z) : list PIL.image :=
  flat_map (fun i => [strip img i; aligned i]) indices.

(** The rows a crop box covers. *)
Definition has_row (b : PIL.box) (y : Z) : Prop :=
  let '(_, upper, _, lower) := b in upper <= y < lower.

(** A computation that never removes an object from the store. *)
Definition grows {A} (m : M A) : Prop :=
  forall (s s' : store) (o : outcome A), m s = (o, s') -> (length s <= length s')%nat.

(** What holds of the loop of [create_gallery] after every round:
    - the collected images and the classified frames are objects of the
      store;
    - every verdict in the trace is the value of [is_blank_image] on the
      frame fetched and opened for that buoy;
    - [process_and_split_image] is called only on a frame with verdict
      [false];
    - a frame with verdict [true] has no verdict [false] and is not among
      the collected images. *)
Record loop_invariant (luma : PIL.pixel -> Z) (F : gallery_v4.Files)
       (st : gallery_v4.loop_state) : Prop := {
  images_bound :
    forall r, r ∈ gallery_v4.images st -> (r < length (gallery_v4.heap st))%nat;
  frames_bound :
    forall id img b, gallery_v4.Is_blank id img b ∈ gallery_v4.trace st ->
      (img < length (gallery_v4.heap st))%nat;
  verdict_value :
    forall id img b, gallery_v4.Is_blank id img b ∈ gallery_v4.trace st ->
      exists p v, gallery_v4.fetch_buoy_image F id = Some p /\
                  gallery_v4.open_file F p = Return v /\
                  gallery_v4.is_blank_image luma v = b;
  process_after_verdict :
    forall id img, gallery_v4.Calls_process id img ∈ gallery_v4.trace st ->
      gallery_v4.Is_blank id img false ∈ gallery_v4.trace st;
  blank_excluded :
    forall id img, gallery_v4.Is_blank id img true ∈ gallery_v4.trace st ->
      (forall id', gallery_v4.Is_blank id' img false ∉ gallery_v4.trace st) /\
      img ∉ gallery_v4.images st
}.

(** A computation that leaves the first [n] objects of the store as they
    are, whether it returns or raises. *)
Definition keeps (n : nat) {A} (m : M A) : Prop :=
  forall (s s' : store) (o : outcome A),
    (n <= length s)%nat -> m s = (o, s') ->
    (n <= length s')%nat /\ take n s' = take n s.

(** The frame of a buoy, when its download succeeds and the file can be
    decoded. *)
Definition frame_of (F : gallery_v4.Files) (buoy_id : Z) : option PIL.image :=
  match gallery_v4.fetch_buoy_image F buoy_id with
  | None => None
  | Some image_path =>
      match gallery_v4.open_file F image_path with
      | Return v => Some v
      | Raise _ => None
      end
  end.

(** The black canvas of a gallery of the given images. *)
Definition gallery_canvas (vs : list PIL.image) : PIL.image :=
  PIL.Image (Z.to_N (Py.max (widths vs))) (Z.to_N (Py.sum (heights vs)))
    (fun _ _ => PIL.black).

(** What [Image.open] gives for a buoy in [gallery.py], when the download
    succeeds and the file is identified. *)
Definition opened_of (F : gallery.Files) (buoy_id : Z) : option gallery.ImageFile :=
  match gallery.fetch_buoy_image F buoy_id with
  | None => None
  | Some image_path =>
      match gallery.Image_open F image_path with
      | Return img => Some img
      | Raise _ => None
      end
  end.

(** The images of a list of opened files that load, up to the first file
    that does not, and the exception of that file if there is one. *)
Fixpoint loaded_prefix (images : list gallery.ImageFile) :
  list PIL.image * option exn :=
  match images with
  | [] => ([], None)
  | img :: rest =>
      match gallery.loaded img with
      | Raise e => ([], Some e)
      | Return v => let '(vs, failure) := loaded_prefix rest in (v :: vs, failure)
      end
  end.

(** The black canvas of a gallery of the given opened files: the sizes are
    those of the headers. *)
Definition header_canvas (images : list gallery.ImageFile) : PIL.image :=
  PIL.Image (Z.to_N (Py.max (map gallery.width images)))
    (Z.to_N (Py.sum (map gallery.height images)))
    (fun _ _ => PIL.black).

(** What [align_horizon] makes of panel [i] of a frame, where it returns. *)
Definition aligned_of (luma : PIL.pixel -> Z) (V : gallery_v4.Vision)
           (img : PIL.image) (i : Z) : PIL.image :=
  match gallery_v4.align_horizon_value luma V (strip img i) with
  | Return a => a
  | Raise _ => img
  end.

(** The image [gallery_v4.process_and_split_image] makes of a frame, if it
    returns: the call is run on the frame alone. *)
Definition processed_value (luma : PIL.pixel -> Z) (V : gallery_v4.Vision)
           (v : PIL.image) : option PIL.image :=
  match gallery_v4.process_and_split_image luma V 0%nat [v] with
  | (Return r, s) => s !! r
  | (Raise _, _) => None
  end.

(** What a buoy contributes to the gallery of [gallery_v4.py]: its frame,
    processed, unless the frame is missing or blank or cannot be
    processed. *)
Definition contribution (luma : PIL.pixel -> Z) (V : gallery_v4.Vision)
           (F : gallery_v4.Files) (buoy_id : Z) : option PIL.image :=
  match frame_of F buoy_id with
  | None => None
  | Some v =>
      if gallery_v4.is_blank_image luma v then None else processed_value luma V v
  end.

(** The URL and the path [fetch_buoy_image] computes for a buoy. *)
Definition url_of (buoy_id : Z) : string := fetch.base_url_format (fetch.str buoy_id).

Definition image_path_of (buoy_id : Z) : string :=
  fetch.os_path_join fetch.output_dir (fetch.str buoy_id +:+ ".jpg").

(** The files after the downloads of a list of buoys by [gallery_v4.py], one
    after the other as the loop of [create_gallery] makes them. *)
Definition fetch_all (w : requests.web) (ids : list Z) (d : fetch.disk) : fetch.disk :=
  fold_left (fun d id => snd (fetch.gallery_v4_fetch_buoy_image w id d)) ids d.

(** ** Concrete inputs *)

Module Samples.

(** The luminance Pillow computes for an RGB pixel: the ITU-R 601-2 luma
    [(299 R + 587 G + 114 B) / 1000], in 16-bit fixed point. *)
Definition luma_601 (p : PIL.pixel) : Z :=
  let '(r, g, b) := p in
  (r * 19595 + g * 38470 + b * 7471 + 32768) / 65536.

Definition white : PIL.pixel := (255, 255, 255).

(** A frame of one colour. *)
Definition solid (w h : N) (p : PIL.pixel) : PIL.image :=
  PIL.Image w h (fun _ _ => p).

(** A frame whose first [k] columns are white and whose other columns are
    black. *)
Definition white_then_black (w h : N) (k : Z) : PIL.image :=
  PIL.Image w h (fun x _ => if x <? k then white else PIL.black).

(** An image grown by one black pixel on every side, the way a rotation
    with [expand=True] grows its canvas. *)
Definition pad (v : PIL.image) : PIL.image :=
  PIL.region v (-1, -1, Z.of_N (PIL.width v) + 1, Z.of_N (PIL.height v) + 1).

(** A rotation for the examples: angle zero copies, any other angle pads.
    Scalars are ints. *)
Definition rotate_or_pad (v : PIL.image) (a : gallery_v4.number Z) :
  outcome PIL.image :=
  match a with
  | gallery_v4.PyInt n => if n =? 0 then Return v else Return (pad v)
  | gallery_v4.NpFloat x => if x =? 0 then Return v else Return (pad v)
  end.

(** Detectors that find no line anywhere. *)
Definition quiet : gallery_v4.Vision := {|
  gallery_v4.scalar := Z;
  gallery_v4.pi_over_180 := 0;
  gallery_v4.rad2deg := fun x => x;
  gallery_v4.minus_90 := fun x => x - 90;
  gallery_v4.mean := fun l => Py.sum l / Z.of_nat (length l);
  gallery_v4.negative := Z.opp;
  gallery_v4.Canny := fun g _ _ => Return g;
  gallery_v4.HoughLines := fun _ _ _ _ => Return None;
  gallery_v4.rotate := rotate_or_pad
|}.

(** The same, with an edge detector that rejects an empty raster. *)
Definition strict : gallery_v4.Vision := {|
  gallery_v4.scalar := Z;
  gallery_v4.pi_over_180 := 0;
  gallery_v4.rad2deg := fun x => x;
  gallery_v4.minus_90 := fun x => x - 90;
  gallery_v4.mean := fun l => Py.sum l / Z.of_nat (length l);
  gallery_v4.negative := Z.opp;
  gallery_v4.Canny := fun g _ _ =>
    match concat g with [] => Raise CvError | _ :: _ => Return g end;
  gallery_v4.HoughLines := fun _ _ _ _ => Return None;
  gallery_v4.rotate := rotate_or_pad
|}.

(** Detectors that find one line, two degrees off, in every panel. *)
Definition tilted : gallery_v4.Vision := {|
  gallery_v4.scalar := Z;
  gallery_v4.pi_over_180 := 0;
  gallery_v4.rad2deg := fun x => x;
  gallery_v4.minus_90 := fun x => x - 90;
  gallery_v4.mean := fun l => Py.sum l / Z.of_nat (length l);
  gallery_v4.negative := Z.opp;
  gallery_v4.Canny := fun g _ _ => Return g;
  gallery_v4.HoughLines := fun _ _ _ _ => Return (Some [(0, 92)]);
  gallery_v4.rotate := rotate_or_pad
|}.

(** A frame whose pixel at [(x, y)] is [(x, y, 0)]: every pixel differs. *)
Definition gradient (w h : N) : PIL.image :=
  PIL.Image w h (fun x y => (x, y, 0)).

(** Files for the examples: buoy 45007 answers with a white placeholder,
    the download of buoy 45012 fails, the file of buoy 46002 cannot be
    decoded, buoy 46011 has a frame too short to split, and every other buoy
    has a frame of 13 rows. *)
Definition sample_files : gallery_v4.Files := {|
  gallery_v4.path := Z;
  gallery_v4.fetch_buoy_image := fun id => if id =? 45012 then None else Some id;
  gallery_v4.open_file := fun p =>
    if p =? 45007 then Return (solid 4 13 white)
    else if p =? 46002 then Raise OSError
    else if p =? 46011 then Return (gradient 4 5)
    else Return (gradient 4 13)
|}.

(** NumPy for the examples: the edge map of a raster has one row less than
    the raster, so [argmin] raises on a raster of at most one row; otherwise
    the first row is the horizon. The rotation copies. *)
Definition numpy : gallery_v2.Numpy := {|
  gallery_v2.horizon_row := fun g =>
    match g with
    | [] | [_] => Raise ValueError
    | _ :: _ :: _ => Return 0
    end;
  gallery_v2.rotate := fun v _ => Return v
|}.

(** Detectors for the examples of failure: the edge detector rejects a
    raster whose first luminance is 2 or more, and no lines are found. *)
Definition picky : gallery_v4.Vision := {|
  gallery_v4.scalar := Z;
  gallery_v4.pi_over_180 := 0;
  gallery_v4.rad2deg := fun x => x;
  gallery_v4.minus_90 := fun x => x - 90;
  gallery_v4.mean := fun l => Py.sum l / Z.of_nat (length l);
  gallery_v4.negative := Z.opp;
  gallery_v4.Canny := fun g _ _ =>
    match concat g with
    | [] => Return g
    | v :: _ => if 2 <=? v then Raise CvError else Return g
    end;
  gallery_v4.HoughLines := fun _ _ _ _ => Return None;
  gallery_v4.rotate := rotate_or_pad
|}.

(** A web for the examples: station 45007 answers with a JPEG of two bytes,
    station 45012 with a page of text, station 46002 is not found, station
    46011 answers 204 with an image type, and no other station can be
    reached. *)
Definition sample_web : requests.web := fun url =>
  if String.eqb url (fetch.base_url_format "45007") then
    inr (requests.Build_Response 200 (Some "image/jpeg"%string) [Byte.xff; Byte.xd8])
  else if String.eqb url (fetch.base_url_format "45012") then
    inr (requests.Build_Response 200 (Some "text/html"%string) [Byte.x3c])
  else if String.eqb url (fetch.base_url_format "46002") then
    inr (requests.Build_Response 404 None [])
  else if String.eqb url (fetch.base_url_format "46011") then
    inr (requests.Build_Response 204 (Some "image/jpeg"%string) [])
  else inl requests.ConnectionError.

(** A decoder for the examples: any body that starts with the JPEG marker
    is a white pixel. *)
Definition sample_decoder (bytes : list Byte.byte) : outcome PIL.image :=
  match bytes with
  | Byte.xff :: Byte.xd8 :: _ => Return (solid 1 1 white)
  | _ => Raise OSError
  end.

(** Files for the examples of [gallery.py]: the file of buoy 45007 is a
    white image of 2 by 2, the download of buoy 45012 fails, the file of
    buoy 46002 cannot be identified, the file of buoy 46011 has the header
    of an image of 3 by 1 and is cut short, and no other buoy answers. *)
Definition lazy_files : gallery.Files := {|
  gallery.path := Z;
  gallery.fetch_buoy_image := fun id =>
    if (id =? 45007) || (id =? 46002) || (id =? 46011) then Some id else None;
  gallery.Image_open := fun p =>
    if p =? 45007 then
      Return (gallery.Build_ImageFile (2%N, 2%N) (Return (fun _ _ => white)))
    else if p =? 46011 then
      Return (gallery.Build_ImageFile (3%N, 1%N) (Raise OSError))
    else Raise OSError
|}.

End Samples.

(** * Proofs *)

(** ** Rounding in binary64

    What [SpecFloat]'s rounding computes: shifting a mantissa right keeps the
    quotient, the first dropped bit and whether any later bit was set;
    rounding to nearest moves by at most half a unit. *)

Lemma digits2_pos_log2 (p : positive) :
  Z.pos (digits2_pos p) = Z.log2 (Z.pos p) + 1.
Proof.
  induction p as [p IH | p IH |]; simpl digits2_pos.
  - rewrite Pos2Z.inj_succ, IH.
    change (Z.pos p~1) with (2 * Z.pos p + 1).
    rewrite Z.log2_succ_double by lia. lia.
  - rewrite Pos2Z.inj_succ, IH.
    change (Z.pos p~0) with (2 * Z.pos p).
    rewrite Z.log2_double by lia. lia.
  - reflexivity.
Qed.

Lemma iter_pos_nat {A} (f : A -> A) (p : positive) (x : A) :
  SpecFloat.iter_pos f p x = Nat.iter (Pos.to_nat p) f x.
Proof.
  revert x. induction p as [p IH | p IH |]; intros x; simpl SpecFloat.iter_pos.
  - rewrite !IH. rewrite Pos2Nat.inj_xI.
    replace (S (2 * Pos.to_nat p))%nat with (Pos.to_nat p + (Pos.to_nat p + 1))%nat by lia.
    rewrite !Nat.iter_add. simpl. reflexivity.
  - rewrite !IH. rewrite Pos2Nat.inj_xO.
    replace (2 * Pos.to_nat p)%nat with (Pos.to_nat p + Pos.to_nat p)%nat by lia.
    rewrite Nat.iter_add. reflexivity.
  - reflexivity.
Qed.

Lemma shr_1_nonneg (m : Z) (r s : bool) :
  0 <= m ->
  shr_1 (Build_shr_record m r s) = Build_shr_record (m / 2) (Z.odd m) (r || s).
Proof.
  intros Hm. destruct m as [| p | p]; [reflexivity | | lia].
  destruct p as [p | p |]; simpl shr_1.
  - f_equal. change (Z.pos p~1) with (2 * Z.pos p + 1).
    apply Z.div_unique with 1; lia.
  - f_equal. change (Z.pos p~0) with (2 * Z.pos p).
    apply Z.div_unique with 0; lia.
  - reflexivity.
Qed.

Lemma shr_1_iter (M : Z) (k : nat) :
  0 <= M ->
  Nat.iter (S k) shr_1 (Build_shr_record M false false) =
  Build_shr_record (M / 2 ^ Z.of_nat (S k)) (Z.testbit M (Z.of_nat k))
    (negb (M mod 2 ^ Z.of_nat k =? 0)).
Proof.
  intros HM. induction k as [| k IH].
  - rewrite Nat.iter_succ. change (Nat.iter 0 shr_1 ?x) with x.
    rewrite shr_1_nonneg by lia.
    change (2 ^ Z.of_nat 1) with 2. change (2 ^ Z.of_nat 0) with 1.
    rewrite Z.mod_1_r, Z.bit0_odd. reflexivity.
  - rewrite Nat.iter_succ, IH.
    assert (Hp : 0 < 2 ^ Z.of_nat k) by (apply Z.pow_pos_nonneg; lia).
    assert (Hp1 : 2 ^ Z.of_nat (S k) = 2 ^ Z.of_nat k * 2)
      by (rewrite Nat2Z.inj_succ, Z.pow_succ_r; lia).
    assert (Hp2 : 2 ^ Z.of_nat (S (S k)) = 2 ^ Z.of_nat (S k) * 2)
      by (rewrite (Nat2Z.inj_succ (S k)), Z.pow_succ_r; lia).
    rewrite shr_1_nonneg by (apply Z.div_pos; lia).
    f_equal.
    + rewrite Hp2, Z.div_div by lia. reflexivity.
    + rewrite Z.testbit_odd, Z.shiftr_div_pow2 by lia. reflexivity.
    + rewrite Hp1.
      rewrite Z.rem_mul_r by lia.
      rewrite <- (Z.testbit_spec' M (Z.of_nat k)) by lia.
      pose proof (Z.mod_pos_bound M (2 ^ Z.of_nat k) Hp) as Hb.
      destruct (Z.testbit M (Z.of_nat k)); cbn [Z.b2z orb];
        destruct (Z.eqb_spec (M mod 2 ^ Z.of_nat k) 0) as [E | E];
        match goal with
        | |- _ = negb (?x =? 0) => destruct (Z.eqb_spec x 0) as [E' | E']
        end; cbn [negb orb]; try reflexivity; exfalso; lia.
Qed.

Lemma shr_pos (M e n : Z) :
  0 <= M -> 0 < n ->
  shr (Build_shr_record M false false) e n =
  (Build_shr_record (M / 2 ^ n) (Z.testbit M (n - 1))
     (negb (M mod 2 ^ (n - 1) =? 0)), e + n).
Proof.
  intros HM Hn. destruct n as [| p | p]; try lia.
  unfold shr. rewrite iter_pos_nat.
  destruct (Pos2Nat.is_succ p) as [k Hk]. rewrite Hk.
  rewrite shr_1_iter by lia.
  assert (Z.pos p = Z.of_nat (S k)) as -> by lia.
  replace (Z.of_nat (S k) - 1) with (Z.of_nat k) by lia.
  reflexivity.
Qed.

Lemma half_up_near (M n : Z) :
  0 <= M -> 0 < n ->
  (half_up M n = M / 2 ^ n \/ half_up M n = M / 2 ^ n + 1) /\
  2 * Z.abs (2 ^ n * half_up M n - M) <= 2 ^ n.
Proof.
  intros HM Hn. unfold half_up.
  assert (Hp : 0 < 2 ^ (n - 1)) by (apply Z.pow_pos_nonneg; lia).
  assert (Hp1 : 2 ^ n = 2 ^ (n - 1) * 2).
  { replace n with (Z.succ (n - 1)) at 1 by lia. rewrite Z.pow_succ_r; lia. }
  pose proof (Z.div_mod M (2 ^ n) ltac:(lia)) as Hdm.
  pose proof (Z.mod_pos_bound M (2 ^ (n - 1)) Hp) as Hb.
  assert (Hrem : M mod 2 ^ n =
                 M mod 2 ^ (n - 1) + 2 ^ (n - 1) * Z.b2z (Z.testbit M (n - 1))).
  { rewrite Hp1, Z.rem_mul_r by lia. rewrite <- Z.testbit_spec' by lia. reflexivity. }
  set (m := M / 2 ^ n) in *. set (rem := M mod 2 ^ n) in *.
  destruct (Z.testbit M (n - 1)); cbn [Z.b2z] in Hrem;
    destruct (Z.eqb_spec (M mod 2 ^ (n - 1)) 0) as [E | E];
    cbn [negb loc_of_shr_record round_nearest_even].
  - destruct (Z.even m); split; try (left; reflexivity); try (right; reflexivity); lia.
  - split; [right; reflexivity | lia].
  - split; [left; reflexivity | lia].
  - split; [left; reflexivity | lia].
Qed.

Lemma Zdigits2_log2 (M : Z) : 0 < M -> Zdigits2 M = Z.log2 M + 1.
Proof.
  intros HM. destruct M as [| p | p]; try lia. apply digits2_pos_log2.
Qed.

Lemma shr_fexp_exact (M e : Z) :
  0 < M -> -1074 <= Z.log2 M + 1 + e - 53 ->
  shr_fexp 53 1024 M e loc_Exact =
  if 0 <? Z.log2 M + 1 - 53
  then (Build_shr_record (M / 2 ^ (Z.log2 M + 1 - 53))
          (Z.testbit M (Z.log2 M + 1 - 53 - 1))
          (negb (M mod 2 ^ (Z.log2 M + 1 - 53 - 1) =? 0)),
        e + (Z.log2 M + 1 - 53))
  else (Build_shr_record M false false, e).
Proof.
  intros HM He. unfold shr_fexp, fexp, emin. rewrite Zdigits2_log2 by lia.
  cbn [shr_record_of_loc].
  replace (Z.max (Z.log2 M + 1 + e - 53) (3 - 1024 - 53) - e)
    with (Z.log2 M + 1 - 53) by lia.
  destruct (Z.ltb_spec 0 (Z.log2 M + 1 - 53)) as [Hn | Hn].
  - apply shr_pos; lia.
  - unfold shr. destruct (Z.log2 M + 1 - 53); try reflexivity. lia.
Qed.

Lemma log2_bounds (M : Z) :
  0 < M -> 2 ^ Z.log2 M <= M < 2 ^ (Z.log2 M + 1).
Proof.
  intros HM. pose proof (Z.log2_spec M HM) as H.
  replace (Z.log2 M + 1) with (Z.succ (Z.log2 M)) by lia. exact H.
Qed.

Lemma binary_round_aux_normal (M e : Z) :
  0 < M -> 53 < Z.log2 M + 1 ->
  -1074 <= Z.log2 M + 1 + e - 53 -> Z.log2 M + 1 + e - 53 < 971 ->
  exists (mf : positive) (ef R : Z),
    binary_round_aux 53 1024 false M e loc_Exact = S754_finite false mf ef /\
    Z.log2 M + 1 + e - 53 <= ef <= Z.log2 M + 1 + e - 52 /\
    Z.pos mf * 2 ^ (ef - (Z.log2 M + 1 + e - 53)) = R /\
    2 * Z.abs (2 ^ (Z.log2 M + 1 - 53) * R - M) <= 2 ^ (Z.log2 M + 1 - 53).
Proof.
  intros HM Hd Hlo Hhi.
  set (n := Z.log2 M + 1 - 53) in *.
  unfold binary_round_aux.
  rewrite shr_fexp_exact by lia.
  fold n. destruct (Z.ltb_spec 0 n) as [_ | ?]; [| lia].
  cbn [shr_m].
  fold (half_up M n).
  destruct (half_up_near M n ltac:(lia) ltac:(lia)) as [HR Hnear].
  set (R := half_up M n) in *.
  pose proof (log2_bounds M HM) as HMb.
  assert (Hsplit : 2 ^ (Z.log2 M + 1) = 2 ^ n * 2 ^ 53).
  { rewrite <- Z.pow_add_r by lia. f_equal. lia. }
  assert (Hsplit' : 2 ^ Z.log2 M = 2 ^ n * 2 ^ 52).
  { rewrite <- Z.pow_add_r by lia. f_equal. lia. }
  assert (Hpn : 0 < 2 ^ n) by (apply Z.pow_pos_nonneg; lia).
  assert (Hq : 2 ^ 52 <= M / 2 ^ n < 2 ^ 53).
  { split.
    - apply Z.div_le_lower_bound; lia.
    - apply Z.div_lt_upper_bound; lia. }
  assert (HRb : 2 ^ 52 <= R <= 2 ^ 53) by lia.
  assert (HlogR : Z.log2 R = 52 \/ R = 2 ^ 53).
  { destruct (Z.eq_dec R (2 ^ 53)) as [-> | Hne]; [right; reflexivity | left].
    apply Z.log2_unique; lia. }
  rewrite shr_fexp_exact; [| lia |].
  2:{ destruct HlogR as [-> | ->]; [lia |]. change (Z.log2 (2 ^ 53)) with 53. lia. }
  destruct HlogR as [HlR | HR53].
  - rewrite HlR. change (0 <? 52 + 1 - 53) with false. cbn [shr_m].
    destruct R as [| mf | mf] eqn:ER; try lia.
    assert ((e + n <=? 1024 - 53) = true) as -> by (apply Z.leb_le; lia).
    exists mf, (e + n), (Z.pos mf). repeat split; try lia.
    + replace (e + n - (Z.log2 M + 1 + e - 53)) with 0 by lia. lia.
  - rewrite HR53. change (Z.log2 (2 ^ 53)) with 53.
    change (0 <? 53 + 1 - 53) with true. cbn [shr_m].
    change (2 ^ 53 / 2 ^ (53 + 1 - 53)) with (Z.pos (2 ^ 52)%positive).
    assert ((e + n + (53 + 1 - 53) <=? 1024 - 53) = true) as ->
      by (apply Z.leb_le; lia).
    exists (2 ^ 52)%positive, (e + n + (53 + 1 - 53)), R. repeat split; try lia.
    replace (e + n + (53 + 1 - 53) - (Z.log2 M + 1 + e - 53)) with 1 by lia.
    rewrite HR53. reflexivity.
Qed.

Lemma threshold_arith (N h B G W mf : Z) :
  0 < N < 2 ^ 48 -> 0 < B <= 2 ^ 48 -> B <= G -> G * W = 2 ^ 53 ->
  8556839292003942 * N < B * 2 ^ 53 ->
  2 * Z.abs (G * mf - 8556839292003942 * N) <= B ->
  (mf < h * W <-> 19 * N < 20 * h).
Proof.
  intros HN HB HG HGW HK Hnear.
  assert (HW : 0 < W) by nia.
  set (F := G * mf) in *.
  assert (Hcmp : mf < h * W <-> F < 2 ^ 53 * h).
  { unfold F. rewrite <- HGW. split; intros H; nia. }
  rewrite Hcmp. change (2 ^ 53) with 9007199254740992 in *.
  change (2 ^ 48) with 281474976710656 in *.
  split; intros H.
  - destruct (Z.lt_trichotomy (19 * N) (20 * h)) as [Hlt | [Heq | Hgt]]; [exact Hlt | | lia].
    exfalso.
    assert (Hz : Z.abs (G * (h * W - mf)) < G).
    { replace (G * (h * W - mf)) with (9007199254740992 * h - F) by (unfold F; nia). lia. }
    assert (h * W - mf = 0) by nia.
    unfold F in H. nia.
  - lia.
Qed.

Lemma pos_iter_xO (m p : positive) :
  Z.pos (Pos.iter xO m p) = Z.pos m * 2 ^ Z.pos p.
Proof.
  induction p as [| p IH] using Pos.peano_ind.
  - cbn [Pos.iter]. lia.
  - rewrite Pos.iter_succ, Pos2Z.inj_succ, Z.pow_succ_r by lia.
    rewrite Pos2Z.inj_xO, IH. lia.
Qed.

(** Converting an int below [2^52] to a float is exact: the mantissa is the
    int shifted up to 53 bits. *)
Lemma float_of_int_exact (N : Z) :
  0 < N < 2 ^ 52 ->
  exists mz : positive,
    Py.float_of_int N = S754_finite false mz (Z.log2 N - 52) /\
    Z.pos mz = N * 2 ^ (52 - Z.log2 N).
Proof.
  intros HN. destruct N as [| p | p]; try lia.
  pose proof (log2_bounds (Z.pos p) ltac:(lia)) as Hb.
  assert (Hl : 0 <= Z.log2 (Z.pos p) < 52).
  { split; [apply Z.log2_nonneg |].
    destruct (Z.lt_ge_cases (Z.log2 (Z.pos p)) 52) as [? | Hge]; [assumption |].
    pose proof (Z.pow_le_mono_r 2 52 (Z.log2 (Z.pos p)) ltac:(lia) Hge). lia. }
  unfold Py.float_of_int, binary_normalize, binary_round, shl_align, fexp, emin.
  unfold Py.prec, Py.emax.
  rewrite digits2_pos_log2.
  replace (Z.max (Z.log2 (Z.pos p) + 1 + 0 - 53) (3 - 1024 - 53) - 0)
    with (Z.log2 (Z.pos p) - 52) by lia.
  replace (Z.max (Z.log2 (Z.pos p) + 1 + 0 - 53) (3 - 1024 - 53))
    with (Z.log2 (Z.pos p) - 52) by lia.
  destruct (Z.log2 (Z.pos p) - 52) as [| q | q] eqn:Eq; try lia.
  set (mz := Pos.iter xO p q).
  assert (Hmz : Z.pos mz = Z.pos p * 2 ^ (52 - Z.log2 (Z.pos p))).
  { unfold mz. rewrite pos_iter_xO. f_equal. f_equal. lia. }
  assert (Hsplit : 2 ^ 52 = 2 ^ Z.log2 (Z.pos p) * 2 ^ (52 - Z.log2 (Z.pos p))).
  { rewrite <- Z.pow_add_r by lia. f_equal. lia. }
  assert (Hsplit' : 2 ^ 53 = 2 ^ (Z.log2 (Z.pos p) + 1) * 2 ^ (52 - Z.log2 (Z.pos p))).
  { rewrite <- Z.pow_add_r by lia. f_equal. lia. }
  assert (Hpa : 0 < 2 ^ (52 - Z.log2 (Z.pos p))) by (apply Z.pow_pos_nonneg; lia).
  assert (Hlog : Z.log2 (Z.pos mz) = 52).
  { apply Z.log2_unique; [lia |]. rewrite Hmz. change (2 ^ (52 + 1)) with (2 ^ 53). nia. }
  exists mz. split; [| rewrite Hmz; reflexivity].
  unfold binary_round_aux.
  rewrite shr_fexp_exact by lia.
  rewrite Hlog. change (0 <? 52 + 1 - 53) with false.
  cbn [shr_m loc_of_shr_record round_nearest_even].
  rewrite shr_fexp_exact by lia.
  rewrite Hlog. change (0 <? 52 + 1 - 53) with false.
  cbn [shr_m].
  assert ((Z.neg q <=? 1024 - 53) = true) as -> by (apply Z.leb_le; lia).
  reflexivity.
Qed.

(** The comparison [h > 0.95 * N] of the scripts, for fewer than [2^48]
    pixels: the rounded product lies between the same two ints as the exact
    [95 N / 100], and equals it when that is an int. *)
Lemma int_gt_0_95 (h N : Z) :
  0 <= N < 2 ^ 48 ->
  Py.int_gt_float h (Py.float_mul_int Py.lit_0_95 N) = (19 * N <? 20 * h).
Proof.
  intros HN. destruct (Z.eq_dec N 0) as [-> | Hne].
  { cbn. destruct (Z.ltb_spec 0 h), (Z.ltb_spec 0 (20 * h)); try reflexivity; lia. }
  assert (HN' : 0 < N < 2 ^ 48) by lia.
  destruct (float_of_int_exact N) as (mz & Hf & Hmz).
  { change (2 ^ 52) with 4503599627370496. change (2 ^ 48) with 281474976710656 in HN'. lia. }
  unfold Py.float_mul_int, Py.float_mul. rewrite Hf.
  unfold Py.lit_0_95, SFmul, Py.prec, Py.emax. cbn [xorb].
  rewrite Pos2Z.inj_mul, Hmz.
  pose proof (log2_bounds N ltac:(lia)) as HlN.
  assert (HlN48 : 0 <= Z.log2 N < 48).
  { split; [apply Z.log2_nonneg |].
    destruct (Z.lt_ge_cases (Z.log2 N) 48) as [? | Hge]; [assumption |].
    pose proof (Z.pow_le_mono_r 2 48 (Z.log2 N) ltac:(lia) Hge). lia. }
  set (a := 52 - Z.log2 N) in *.
  set (K := 8556839292003942 * N).
  assert (HK : 0 < K) by (unfold K; lia).
  set (q := Z.log2 K - 52).
  pose proof (log2_bounds K HK) as HlK.
  assert (Hq : 0 <= q <= 48).
  { unfold q. split.
    - assert (52 <= Z.log2 K); [| lia].
      apply Z.log2_le_pow2; [lia |]. unfold K. change (2 ^ 52) with 4503599627370496. lia.
    - assert (Z.log2 K < 101); [| lia].
      apply Z.log2_lt_pow2; [lia |]. unfold K.
      change (2 ^ 101) with (2 ^ 53 * 2 ^ 48). change (2 ^ 53) with 9007199254740992.
      nia. }
  assert (Hpa : 0 < 2 ^ a) by (apply Z.pow_pos_nonneg; lia).
  set (M := 8556839292003942 * (N * 2 ^ a)).
  assert (HM : M = K * 2 ^ a) by (unfold M, K; ring).
  assert (HlM : Z.log2 M = Z.log2 K + a).
  { rewrite HM, <- Z.shiftl_mul_pow2 by lia. apply Z.log2_shiftl; lia. }
  destruct (binary_round_aux_normal M (-53 + (Z.log2 N - 52)))
    as (mf & ef & R & Hres & Hef & HR & Hnear); try (rewrite HlM; lia).
  { unfold M. nia. }
  change (Z.pos 8556839292003942 * (N * 2 ^ a)) with M.
  rewrite Hres. unfold Py.int_gt_float.
  rewrite HlM in Hef, HR, Hnear.
  replace (Z.log2 K + a + 1 + (-53 + (Z.log2 N - 52)) - 53) with (q - 53) in Hef, HR
    by (unfold q, a; lia).
  replace (Z.log2 K + a + 1 + (-53 + (Z.log2 N - 52)) - 52) with (q - 52) in Hef
    by (unfold q, a; lia).
  replace (Z.log2 K + a + 1 - 53) with (q + a) in Hnear by (unfold q; lia).
  destruct (Z.leb_spec 0 ef) as [? | _]; [lia |].
  set (u := ef - (q - 53)) in *.
  assert (Hu : 0 <= u <= 1) by (unfold u; lia).
  assert (HB : 0 < 2 ^ q <= 2 ^ 48).
  { split; [apply Z.pow_pos_nonneg; lia | apply Z.pow_le_mono_r; lia]. }
  assert (Hpu : 1 <= 2 ^ u) by (pose proof (Z.pow_pos_nonneg 2 u); lia).
  assert (HGW : 2 ^ q * 2 ^ u * 2 ^ (- ef) = 2 ^ 53).
  { rewrite <- !Z.pow_add_r by lia. f_equal. unfold u. lia. }
  assert (HKlt : K < 2 ^ q * 2 ^ 53).
  { rewrite <- Z.pow_add_r by lia. replace (q + 53) with (Z.log2 K + 1) by (unfold q; lia). lia. }
  assert (Hnear' : 2 * Z.abs (2 ^ q * 2 ^ u * Z.pos mf - K) <= 2 ^ q).
  { rewrite Z.pow_add_r, HM in Hnear by lia.
    replace (2 ^ q * 2 ^ a * R - K * 2 ^ a) with (2 ^ a * (2 ^ q * R - K)) in Hnear by ring.
    rewrite Z.abs_mul, (Z.abs_eq (2 ^ a)) in Hnear by lia.
    replace (2 ^ q * 2 ^ u * Z.pos mf) with (2 ^ q * R) by (rewrite <- HR; ring).
    nia. }
  pose proof (threshold_arith N h (2 ^ q) (2 ^ q * 2 ^ u) (2 ^ (- ef)) (Z.pos mf)
                HN' HB ltac:(nia) HGW HKlt Hnear') as Hiff.
  destruct (Z.ltb_spec (Z.pos mf) (h * 2 ^ (- ef))), (Z.ltb_spec (19 * N) (20 * h));
    try reflexivity; exfalso; lia.
Qed.

(** ** Sums, maxima and histograms *)

Lemma fold_left_add_shift (l : list Z) (a : Z) :
  fold_left Z.add l a = a + fold_left Z.add l 0.
Proof.
  revert a. induction l as [| x l IH]; intros a; cbn [fold_left].
  - lia.
  - rewrite (IH (a + x)), (IH (0 + x)). lia.
Qed.

Lemma sum_cons (x : Z) (l : list Z) : Py.sum (x :: l) = x + Py.sum l.
Proof.
  unfold Py.sum. cbn [fold_left]. rewrite fold_left_add_shift. lia.
Qed.

Lemma sum_app (l1 l2 : list Z) : Py.sum (l1 ++ l2) = Py.sum l1 + Py.sum l2.
Proof.
  induction l1 as [| x l1 IH]; [reflexivity |].
  rewrite <- app_comm_cons, !sum_cons, IH. lia.
Qed.

Lemma sum_nonneg (l : list Z) : Forall (fun x => 0 <= x) l -> 0 <= Py.sum l.
Proof.
  induction 1 as [| x l Hx _ IH]; [reflexivity | rewrite sum_cons; lia].
Qed.

(** Overwriting one entry changes the sum by the difference. *)
Lemma sum_insert (l : list Z) (i : nat) (x y : Z) :
  l !! i = Some x -> Py.sum (<[i := y]> l) = Py.sum l - x + y.
Proof.
  revert i. induction l as [| z l IH]; intros [| i] H; try discriminate.
  - injection H as ->. simpl. rewrite !sum_cons. lia.
  - simpl. rewrite !sum_cons, (IH i) by exact H. lia.
Qed.

Lemma sum_lookup_le (l : list Z) (i : nat) (x : Z) :
  Forall (fun x => 0 <= x) l -> l !! i = Some x -> x <= Py.sum l.
Proof.
  intros Hl. revert i. induction Hl as [| z l Hz Hl IH]; intros [| i] H; try discriminate.
  - injection H as ->. rewrite sum_cons. pose proof (sum_nonneg l Hl). lia.
  - rewrite sum_cons. specialize (IH i H). lia.
Qed.

(** Two different entries of a list of counts fit in the sum together. *)
Lemma sum_lookup2_le (l : list Z) (i j : nat) (x y : Z) :
  Forall (fun x => 0 <= x) l -> i <> j ->
  l !! i = Some x -> l !! j = Some y -> x + y <= Py.sum l.
Proof.
  intros Hl Hij Hi Hj.
  assert (Hl' : Forall (fun x => 0 <= x) (<[i := 0]> l)).
  { apply Forall_insert; [exact Hl | lia]. }
  assert (Hj' : <[i := 0]> l !! j = Some y) by (rewrite list_lookup_insert_ne; assumption).
  pose proof (sum_lookup_le _ _ _ Hl' Hj') as H.
  rewrite (sum_insert l i x 0 Hi) in H. lia.
Qed.

Lemma max_fold_spec (l : list Z) (a : Z) :
  (fold_left Z.max l a = a \/ fold_left Z.max l a ∈ l) /\
  a <= fold_left Z.max l a /\
  Forall (fun x => x <= fold_left Z.max l a) l.
Proof.
  revert a. induction l as [| x l IH]; intros a; cbn [fold_left].
  - repeat split; [left; reflexivity | lia | constructor].
  - destruct (IH (Z.max a x)) as ([He | Hin] & Hle & Hall).
    + repeat split.
      * rewrite He. destruct (Z.max_spec a x) as [[_ ->] | [_ ->]];
          [right; left | left; reflexivity].
      * lia.
      * constructor; [lia | exact Hall].
    + repeat split.
      * right. right. exact Hin.
      * lia.
      * constructor; [lia | exact Hall].
Qed.

(** [max(l)] is an entry of a non-empty list and bounds every entry. *)
Lemma max_spec (l : list Z) :
  l <> [] -> Py.max l ∈ l /\ Forall (fun x => x <= Py.max l) l.
Proof.
  destruct l as [| x l]; [congruence | intros _]. unfold Py.max.
  destruct (max_fold_spec l x) as ([He | Hin] & Hle & Hall).
  - split; [rewrite He; left | constructor; [lia | exact Hall]].
  - split; [right; exact Hin | constructor; [lia | exact Hall]].
Qed.

Lemma range_lookup (n : nat) (k : Z) :
  0 <= k < Z.of_nat n -> Py.range n !! Z.to_nat k = Some k.
Proof.
  intros Hk. unfold Py.range. rewrite list_lookup_fmap, lookup_seq_lt by lia.
  cbn. f_equal. lia.
Qed.

Lemma range_elem (n : nat) (k : Z) : k ∈ Py.range n <-> 0 <= k < Z.of_nat n.
Proof.
  unfold Py.range. rewrite list_elem_of_fmap. split.
  - intros (i & -> & Hi). apply elem_of_seq in Hi. lia.
  - intros Hk. exists (Z.to_nat k). split; [lia | apply elem_of_seq; lia].
Qed.

Lemma bucket_nonneg (g : PIL.gray) (k : Z) : 0 <= PIL.bucket g k.
Proof. unfold PIL.bucket. lia. Qed.

Lemma histogram_nonneg (g : PIL.gray) : Forall (fun x => 0 <= x) (PIL.histogram g).
Proof.
  unfold PIL.histogram. apply Forall_fmap, Forall_forall. intros k _.
  apply bucket_nonneg.
Qed.

Lemma histogram_lookup (g : PIL.gray) (k : Z) :
  0 <= k < 256 -> PIL.histogram g !! Z.to_nat k = Some (PIL.bucket g k).
Proof.
  intros Hk. unfold PIL.histogram.
  rewrite list_lookup_fmap, range_lookup by lia. reflexivity.
Qed.

Lemma histogram_elem (g : PIL.gray) (x : Z) :
  x ∈ PIL.histogram g <-> exists k, 0 <= k < 256 /\ x = PIL.bucket g k.
Proof.
  unfold PIL.histogram. rewrite list_elem_of_fmap. split.
  - intros (k & -> & Hk). apply range_elem in Hk. exists k. split; [lia | reflexivity].
  - intros (k & Hk & ->). exists k. split; [reflexivity | apply range_elem; lia].
Qed.

Lemma histogram_first (g : PIL.gray) : Py.first (PIL.histogram g) = PIL.bucket g 0.
Proof. reflexivity. Qed.

Lemma histogram_final (g : PIL.gray) : Py.final (PIL.histogram g) = PIL.bucket g 255.
Proof. reflexivity. Qed.

Lemma histogram_total_nonneg (g : PIL.gray) : 0 <= Py.sum (PIL.histogram g).
Proof. apply sum_nonneg, histogram_nonneg. Qed.

Lemma bucket_le_total (g : PIL.gray) (k : Z) :
  0 <= k < 256 -> PIL.bucket g k <= Py.sum (PIL.histogram g).
Proof.
  intros Hk. eapply sum_lookup_le; [apply histogram_nonneg | apply histogram_lookup, Hk].
Qed.

Lemma bucket2_le_total (g : PIL.gray) (i j : Z) :
  0 <= i < 256 -> 0 <= j < 256 -> i <> j ->
  PIL.bucket g i + PIL.bucket g j <= Py.sum (PIL.histogram g).
Proof.
  intros Hi Hj Hij.
  apply (sum_lookup2_le _ (Z.to_nat i) (Z.to_nat j));
    [apply histogram_nonneg | lia | apply histogram_lookup, Hi | apply histogram_lookup, Hj].
Qed.

Lemma histogram_max (g : PIL.gray) :
  (exists k, 0 <= k < 256 /\ Py.max (PIL.histogram g) = PIL.bucket g k) /\
  (forall k, 0 <= k < 256 -> PIL.bucket g k <= Py.max (PIL.histogram g)).
Proof.
  destruct (max_spec (PIL.histogram g)) as [Hin Hall].
  { intros E. pose proof (histogram_lookup g 0 ltac:(lia)) as H. rewrite E in H. discriminate. }
  split.
  - apply histogram_elem in Hin. destruct Hin as (k & Hk & E). exists k. split; assumption.
  - intros k Hk. rewrite Forall_forall in Hall. apply Hall, histogram_elem.
    exists k. split; [exact Hk | reflexivity].
Qed.

(** ** The blank classifiers *)

Section Blank.

Variable luma : PIL.pixel -> Z.

(** [gallery_v4.is_blank_image] says whether some bucket is above the
    threshold. *)
Lemma v4_blank_iff (img : PIL.image) :
  let g := PIL.convert_L luma img in
  let total := Py.sum (PIL.histogram g) in
  total < 2 ^ 48 ->
  (gallery_v4.is_blank_image luma img = true <->
   exists k, 0 <= k < 256 /\ 19 * total < 20 * PIL.bucket g k).
Proof.
  intros g total Htot.
  pose proof (histogram_total_nonneg g) as H0. fold total in H0.
  unfold gallery_v4.is_blank_image. fold g. fold total.
  rewrite !int_gt_0_95 by lia.
  rewrite histogram_first, histogram_final.
  destruct (histogram_max g) as ((km & Hkm & Emax) & Hmax). rewrite Emax.
  destruct (Z.ltb_spec (19 * total) (20 * PIL.bucket g 255)) as [H255 | H255];
    cbn [orb].
  { split; [intros _; exists 255; split; [lia | exact H255] | reflexivity]. }
  destruct (Z.ltb_spec (19 * total) (20 * PIL.bucket g 0)) as [Hz | Hz].
  { split; [intros _; exists 0; split; [lia | exact Hz] | reflexivity]. }
  destruct (Z.ltb_spec (19 * total) (20 * PIL.bucket g km)) as [Hm | Hm].
  { split; [intros _; exists km; split; assumption | reflexivity]. }
  split; [discriminate |]. intros (k & Hk & Hgt).
  specialize (Hmax k Hk). rewrite Emax in Hmax. lia.
Qed.

(** [gallery_v2.is_blank_image] looks at the white bucket only. *)
Lemma v2_blank_iff (img : PIL.image) :
  let g := PIL.convert_L luma img in
  let total := Py.sum (PIL.histogram g) in
  total < 2 ^ 48 ->
  (gallery_v2.is_blank_image luma img = true <-> 19 * total < 20 * PIL.bucket g 255).
Proof.
  intros g total Htot.
  pose proof (histogram_total_nonneg g) as H0. fold total in H0.
  unfold gallery_v2.is_blank_image. fold g. fold total.
  rewrite int_gt_0_95 by lia. rewrite histogram_final. apply Z.ltb_lt.
Qed.

(** C1 (as the code has it). For a frame of fewer than [2^48] pixels,
    [is_blank_image] returns true exactly when one bucket of the 256-bucket
    luminance histogram holds strictly more than 95% of the pixels (the
    white and black buckets included). So a frame split evenly between two
    buckets is not blank, and neither is a frame whose largest bucket holds
    exactly 95%. *)
Theorem is_blank_image_strict_threshold (img : PIL.image) :
  let g := PIL.convert_L luma img in
  let total := Py.sum (PIL.histogram g) in
  total < 2 ^ 48 ->
  (gallery_v4.is_blank_image luma img = true <->
   exists k, 0 <= k < 256 /\ 19 * total < 20 * PIL.bucket g k) /\
  (forall i j, 0 <= i < 256 -> 0 <= j < 256 -> i <> j ->
     2 * PIL.bucket g i = total -> 2 * PIL.bucket g j = total ->
     gallery_v4.is_blank_image luma img = false) /\
  (forall k, 0 <= k < 256 -> 20 * PIL.bucket g k = 19 * total ->
     (forall j, 0 <= j < 256 -> PIL.bucket g j <= PIL.bucket g k) ->
     gallery_v4.is_blank_image luma img = false).
Proof.
  intros g total Htot.
  pose proof (v4_blank_iff img Htot) as Hiff. fold g total in Hiff.
  pose proof (histogram_total_nonneg g) as H0. fold total in H0.
  split; [exact Hiff |]. split.
  - intros i j Hi Hj Hij Ei Ej.
    apply not_true_is_false. rewrite Hiff. intros (k & Hk & Hgt).
    destruct (Z.eq_dec k i) as [-> | Hki]; [lia |].
    pose proof (bucket2_le_total g k i Hk Hi Hki) as H1. fold total in H1. lia.
  - intros k Hk Ek Hmax.
    apply not_true_is_false. rewrite Hiff. intros (j & Hj & Hgt).
    specialize (Hmax j Hj). lia.
Qed.

(** C10 (as the code has it). Whatever [gallery_v2] classifies as blank,
    [gallery_v4] classifies as blank too, for every image. On a frame of
    fewer than [2^48] pixels the two classifiers agree exactly when no
    bucket other than the white one holds more than 95% of the pixels; so a
    frame with pixels that are all in one bucket other than the white one
    (all black, or uniform and not white) is blank for [gallery_v4] and not
    blank for [gallery_v2]. *)
Theorem is_blank_image_v2_below_v4 (img : PIL.image) :
  let g := PIL.convert_L luma img in
  let total := Py.sum (PIL.histogram g) in
  (gallery_v2.is_blank_image luma img = true ->
   gallery_v4.is_blank_image luma img = true) /\
  (total < 2 ^ 48 ->
   (gallery_v2.is_blank_image luma img = gallery_v4.is_blank_image luma img <->
    forall k, 0 <= k < 255 -> 20 * PIL.bucket g k <= 19 * total)) /\
  (total < 2 ^ 48 ->
   forall k, 0 <= k < 255 -> 0 < total -> PIL.bucket g k = total ->
     gallery_v4.is_blank_image luma img = true /\
     gallery_v2.is_blank_image luma img = false).
Proof.
  intros g total.
  pose proof (histogram_total_nonneg g) as H0. fold total in H0.
  split; [| split].
  - unfold gallery_v2.is_blank_image, gallery_v4.is_blank_image.
    intros ->. reflexivity.
  - intros Htot.
    pose proof (v4_blank_iff img Htot) as H4. fold g total in H4.
    pose proof (v2_blank_iff img Htot) as H2. fold g total in H2.
    split.
    + intros Heq k Hk.
      destruct (Z.le_gt_cases (20 * PIL.bucket g k) (19 * total)) as [? | Hgt]; [assumption |].
      exfalso.
      assert (Hv4 : gallery_v4.is_blank_image luma img = true).
      { apply H4. exists k. split; lia. }
      rewrite <- Heq in Hv4. apply H2 in Hv4.
      pose proof (bucket2_le_total g k 255 ltac:(lia) ltac:(lia) ltac:(lia)) as Hs.
      fold total in Hs. lia.
    + intros Hall.
      destruct (gallery_v4.is_blank_image luma img) eqn:Ev4.
      * apply H2. destruct (proj1 H4 eq_refl) as (k & Hk & Hgt).
        destruct (Z.eq_dec k 255) as [-> | Hne]; [exact Hgt |].
        specialize (Hall k ltac:(lia)). lia.
      * apply not_true_is_false. intros Hv2.
        assert (false = true) as Habs; [| discriminate Habs].
        apply H4. exists 255. split; [lia | apply H2, Hv2].
  - intros Htot k Hk Hpos Hall.
    pose proof (v4_blank_iff img Htot) as H4. fold g total in H4.
    pose proof (v2_blank_iff img Htot) as H2. fold g total in H2.
    pose proof (bucket2_le_total g k 255 ltac:(lia) ltac:(lia) ltac:(lia)) as Hs.
    fold total in Hs.
    pose proof (bucket_nonneg g 255) as H255.
    split.
    + apply H4. exists k. split; lia.
    + apply not_true_is_false. intros Hv2. apply H2 in Hv2. lia.
Qed.

End Blank.

(** The float model on the numbers of the boundary case: [0.95 * 20] is the
    float [19.0] and [0.95 * 100] is [95.0], and the comparison is strict. *)
Example float_mul_0_95_20 : Py.float_mul_int Py.lit_0_95 20 = Py.float_of_int 19.
Proof. reflexivity. Qed.

Example float_mul_0_95_100 : Py.float_mul_int Py.lit_0_95 100 = Py.float_of_int 95.
Proof. reflexivity. Qed.

Example int_gt_float_19_20 :
  Py.int_gt_float 19 (Py.float_mul_int Py.lit_0_95 20) = false /\
  Py.int_gt_float 20 (Py.float_mul_int Py.lit_0_95 20) = true.
Proof. split; reflexivity. Qed.

(** The literals are the machine floats nearest to 0.95 and 0.1. *)
Example lit_0_95_primitive : Prim2SF 0x1.e666666666666p-1%float = Py.lit_0_95.
Proof. reflexivity. Qed.

Example lit_0_1_primitive : Prim2SF 0x1.999999999999ap-4%float = Py.lit_0_1.
Proof. reflexivity. Qed.

Lemma is_blank_image_strict_threshold_witness :
  Py.sum (PIL.histogram (PIL.convert_L Samples.luma_601 (Samples.solid 4 3 Samples.white)))
    < 2 ^ 48 /\
  gallery_v4.is_blank_image Samples.luma_601 (Samples.solid 4 3 Samples.white) = true.
Proof.
  split; [vm_compute; reflexivity |].
  apply (is_blank_image_strict_threshold Samples.luma_601
           (Samples.solid 4 3 Samples.white)); [vm_compute; reflexivity |].
  exists 255. split; [lia | vm_compute; reflexivity].
Defined.

(** C1 as stated fails at the boundary: in a frame of 20 pixels, 19 of them
    white, the white bucket holds exactly 95% of the pixels, and the frame
    is not classified as blank. *)
Lemma is_blank_image_boundary_not_blank :
  let img := Samples.white_then_black 20 1 19 in
  let g := PIL.convert_L Samples.luma_601 img in
  PIL.bucket g 255 = 19 /\ Py.sum (PIL.histogram g) = 20 /\
  100 * PIL.bucket g 255 >= 95 * Py.sum (PIL.histogram g) /\
  gallery_v4.is_blank_image Samples.luma_601 img = false.
Proof. vm_compute. repeat split; discriminate. Qed.

Lemma is_blank_image_v2_below_v4_witness :
  let img := Samples.solid 4 3 PIL.black in
  let g := PIL.convert_L Samples.luma_601 img in
  let total := Py.sum (PIL.histogram g) in
  (total < 2 ^ 48 /\ 0 <= 0 < 255 /\ 0 < total /\ PIL.bucket g 0 = total) /\
  gallery_v4.is_blank_image Samples.luma_601 img = true /\
  gallery_v2.is_blank_image Samples.luma_601 img = false.
Proof.
  intros img g total.
  assert (Htot : total < 2 ^ 48) by (vm_compute; reflexivity).
  assert (Hk : 0 <= 0 < 255) by lia.
  assert (Hpos : 0 < total) by (vm_compute; reflexivity).
  assert (Hall : PIL.bucket g 0 = total) by (vm_compute; reflexivity).
  split; [split; [exact Htot | split; [exact Hk | split; [exact Hpos | exact Hall]]] |].
  destruct (is_blank_image_v2_below_v4 Samples.luma_601 img) as (_ & _ & Hu).
  exact (Hu Htot 0 Hk Hpos Hall).
Defined.

(** C10 as stated fails on a black frame: [gallery_v2] keeps it,
    [gallery_v4] rejects it. *)
Lemma is_blank_image_versions_differ_on_black :
  gallery_v2.is_blank_image Samples.luma_601 (Samples.solid 4 3 PIL.black) = false /\
  gallery_v4.is_blank_image Samples.luma_601 (Samples.solid 4 3 PIL.black) = true.
Proof. split; vm_compute; reflexivity. Qed.

(** ** Running computations on the store *)

Lemma bind_return {A B} (m : M A) (k : A -> M B) (s s' : store) (a : A) :
  m s = (Return a, s') -> bind m k s = k a s'.
Proof. intros H. unfold bind. rewrite H. reflexivity. Qed.

Lemma bind_raise {A B} (m : M A) (k : A -> M B) (s s' : store) (e : exn) :
  m s = (Raise e, s') -> bind m k s = (Raise e, s').
Proof. intros H. unfold bind. rewrite H. reflexivity. Qed.

Lemma bind_assoc {A B C} (m : M A) (f : A -> M B) (g : B -> M C) (s : store) :
  bind (bind m f) g s = bind m (fun x => bind (f x) g) s.
Proof. unfold bind. destruct (m s) as [[a | e] s']; reflexivity. Qed.

Lemma deref_run (s : store) (r : ref) (v : PIL.image) :
  s !! r = Some v -> deref r s = (Return v, s).
Proof. intros H. unfold deref. rewrite H. reflexivity. Qed.

Lemma Image_width_run (s : store) (r : ref) (v : PIL.image) :
  s !! r = Some v -> Image_width r s = (Return (Z.of_N (PIL.width v)), s).
Proof. intros H. unfold Image_width. rewrite (bind_return _ _ _ _ _ (deref_run _ _ _ H)). reflexivity. Qed.

Lemma Image_height_run (s : store) (r : ref) (v : PIL.image) :
  s !! r = Some v -> Image_height r s = (Return (Z.of_N (PIL.height v)), s).
Proof. intros H. unfold Image_height. rewrite (bind_return _ _ _ _ _ (deref_run _ _ _ H)). reflexivity. Qed.

Lemma Image_crop_run (s : store) (r : ref) (v : PIL.image) (x0 y0 x1 y1 : Z) :
  s !! r = Some v -> x0 <= x1 -> y0 <= y1 ->
  Image_crop r (x0, y0, x1, y1) s =
  (Return (length s), s ++ [PIL.region v (x0, y0, x1, y1)]).
Proof.
  intros H Hx Hy. unfold Image_crop.
  rewrite (bind_return _ _ _ _ _ (deref_run _ _ _ H)).
  unfold lift, bind, PIL.crop_value.
  destruct (Z.ltb_spec x1 x0); [lia |]. destruct (Z.ltb_spec y1 y0); [lia |].
  reflexivity.
Qed.

Lemma Image_new_run (s : store) (w h : Z) :
  0 <= w -> 0 <= h ->
  Image_new w h s =
  (Return (length s), s ++ [PIL.Image (Z.to_N w) (Z.to_N h) (fun _ _ => PIL.black)]).
Proof.
  intros Hw Hh. unfold Image_new, lift, bind, PIL.new_value.
  destruct (Z.ltb_spec w 0); [lia |]. destruct (Z.ltb_spec h 0); [lia |].
  reflexivity.
Qed.

Lemma Image_paste_run (s : store) (canvas src : ref) (cv sv : PIL.image) (x0 y0 : Z) :
  s !! canvas = Some cv -> s !! src = Some sv ->
  Image_paste canvas src x0 y0 s =
  (Return tt, <[canvas := PIL.paste_value cv sv x0 y0]> s).
Proof.
  intros Hc Hs. unfold Image_paste.
  rewrite (bind_return _ _ _ _ _ (deref_run _ _ _ Hs)).
  rewrite (bind_return _ _ _ _ _ (deref_run _ _ _ Hc)).
  reflexivity.
Qed.

Lemma bound_app_store (s t : store) (rs : list ref) (vs : list PIL.image) :
  bound s rs vs -> bound (s ++ t) rs vs.
Proof.
  unfold bound. intros H. eapply Forall2_impl; [exact H |].
  intros r v Hr. simpl in *. rewrite lookup_app_l; [exact Hr |].
  eapply lookup_lt_Some, Hr.
Qed.

Lemma bound_insert_other (s : store) (c : ref) (cv : PIL.image)
      (rs : list ref) (vs : list PIL.image) :
  bound s rs vs -> c ∉ rs -> bound (<[c := cv]> s) rs vs.
Proof.
  unfold bound. intros H. induction H as [| r v rs vs Hr _ IH]; intros Hc.
  - constructor.
  - constructor.
    + rewrite list_lookup_insert_ne; [exact Hr |]. intros ->. apply Hc. left.
    + apply IH. intros Hin. apply Hc. right. exact Hin.
Qed.

Lemma mapM_height_run (s : store) (rs : list ref) (vs : list PIL.image) :
  bound s rs vs -> mapM Image_height rs s = (Return (heights vs), s).
Proof.
  induction 1 as [| r v rs vs Hr _ IH]; [reflexivity |].
  cbn [mapM]. rewrite (bind_return _ _ _ _ _ (Image_height_run _ _ _ Hr)).
  rewrite (bind_return _ _ _ _ _ IH). reflexivity.
Qed.

Lemma mapM_width_run (s : store) (rs : list ref) (vs : list PIL.image) :
  bound s rs vs -> mapM Image_width rs s = (Return (widths vs), s).
Proof.
  induction 1 as [| r v rs vs Hr _ IH]; [reflexivity |].
  cbn [mapM]. rewrite (bind_return _ _ _ _ _ (Image_width_run _ _ _ Hr)).
  rewrite (bind_return _ _ _ _ _ IH). reflexivity.
Qed.

(** *** The pasting loop *)

Lemma paste_all_run (s : store) (canvas : ref) (rs : list ref)
      (vs : list PIL.image) (cv : PIL.image) (y : Z) :
  s !! canvas = Some cv -> bound s rs vs -> canvas ∉ rs ->
  foldM (fun y_offset img =>
           let* _ := Image_paste canvas img 0 y_offset in
           let* h := Image_height img in
           ret (y_offset + h)) y rs s =
  (Return (y + Py.sum (heights vs)), <[canvas := stacked cv vs y]> s).
Proof.
  revert s vs cv y. induction rs as [| r rs IH]; intros s vs cv y Hc Hb Hnotin.
  - inversion Hb; subst. cbn [foldM stacked heights map]. unfold ret.
    rewrite list_insert_id by exact Hc. f_equal. f_equal. unfold Py.sum. cbn. lia.
  - inversion Hb as [| r' v rs' vs' Hr Hb' ]; subst. cbn [foldM stacked].
    assert (Hne : canvas <> r) by (intros ->; apply Hnotin; left).
    assert (Hnotin' : canvas ∉ rs) by (intros Hin; apply Hnotin; right; exact Hin).
    rewrite bind_assoc.
    rewrite (bind_return _ _ _ _ _ (Image_paste_run _ _ _ _ _ 0 y Hc Hr)).
    assert (Hr' : <[canvas := PIL.paste_value cv v 0 y]> s !! r = Some v)
      by (rewrite list_lookup_insert_ne; assumption).
    rewrite bind_assoc.
    rewrite (bind_return _ _ _ _ _ (Image_height_run _ _ _ Hr')).
    unfold ret at 1. unfold bind at 1.
    assert (Hlt : (canvas < length s)%nat) by (eapply lookup_lt_Some, Hc).
    rewrite (IH (<[canvas := PIL.paste_value cv v 0 y]> s) vs'
               (PIL.paste_value cv v 0 y) (y + Z.of_N (PIL.height v))).
    + rewrite list_insert_insert_eq. f_equal. f_equal.
      unfold heights. cbn [map]. rewrite sum_cons. lia.
    + apply list_lookup_insert_eq. exact Hlt.
    + apply bound_insert_other; assumption.
    + exact Hnotin'.
Qed.

Lemma stacked_size (cv : PIL.image) (vs : list PIL.image) (y : Z) :
  PIL.width (stacked cv vs y) = PIL.width cv /\
  PIL.height (stacked cv vs y) = PIL.height cv.
Proof.
  revert cv y. induction vs as [| v vs IH]; intros cv y; cbn [stacked].
  - split; reflexivity.
  - destruct (IH (PIL.paste_value cv v 0 y) (y + Z.of_N (PIL.height v))) as [-> ->].
    split; reflexivity.
Qed.

(** Pasting further down leaves the rows above untouched. *)
Lemma stacked_above (cv : PIL.image) (vs : list PIL.image) (y x row : Z) :
  row < y -> PIL.getpixel (stacked cv vs y) x row = PIL.getpixel cv x row.
Proof.
  revert cv y. induction vs as [| v vs IH]; intros cv y Hrow; cbn [stacked].
  - reflexivity.
  - rewrite IH by lia. cbn [PIL.paste_value PIL.getpixel]. unfold PIL.in_bounds.
    destruct (Z.leb_spec 0 (row - y)) as [? | _]; [lia |].
    rewrite andb_false_r. reflexivity.
Qed.

(** The [k]-th pasted image is found below the images before it. *)
Lemma stacked_pixel (cv : PIL.image) (vs : list PIL.image) (y : Z)
      (k : nat) (v : PIL.image) (x row : Z) :
  vs !! k = Some v -> PIL.in_bounds v x row = true ->
  PIL.getpixel (stacked cv vs y) x (y + Py.sum (heights (take k vs)) + row) =
  PIL.getpixel v x row.
Proof.
  revert cv y k. induction vs as [| v0 vs IH]; intros cv y k Hk Hin; [discriminate |].
  destruct k as [| k]; cbn [stacked].
  - injection Hk as ->. cbn [take heights map]. unfold PIL.in_bounds in Hin.
    apply andb_prop in Hin as [Hin Hy1]. apply andb_prop in Hin as [Hin Hy0].
    apply andb_prop in Hin as [Hx0 Hx1].
    rewrite stacked_above by (change (Py.sum []) with 0; lia).
    cbn [PIL.paste_value PIL.getpixel].
    replace (x - 0) with x by lia.
    replace (y + Py.sum [] + row - y) with row by (change (Py.sum []) with 0; lia).
    unfold PIL.in_bounds. rewrite Hx0, Hx1, Hy0, Hy1. reflexivity.
  - cbn [take heights map]. rewrite sum_cons.
    replace (y + (Z.of_N (PIL.height v0) + Py.sum (map (fun v1 => Z.of_N (PIL.height v1)) (take k vs))) + row)
      with (y + Z.of_N (PIL.height v0) + Py.sum (heights (take k vs)) + row)
      by (unfold heights; lia).
    apply IH; assumption.
Qed.

Lemma heights_nonneg (vs : list PIL.image) : Forall (fun x => 0 <= x) (heights vs).
Proof. unfold heights. apply Forall_fmap, Forall_forall. intros v _. simpl. lia. Qed.

Lemma widths_nonneg (vs : list PIL.image) : Forall (fun x => 0 <= x) (widths vs).
Proof. unfold widths. apply Forall_fmap, Forall_forall. intros v _. simpl. lia. Qed.


Lemma bound_fresh (s : store) (rs : list ref) (vs : list PIL.image) :
  bound s rs vs -> length s ∉ rs.
Proof.
  intros Hb Hin. apply list_elem_of_lookup in Hin as [i Hi].
  destruct (Forall2_lookup_l _ _ _ _ _ Hb Hi) as (v & _ & Hv).
  apply lookup_lt_Some in Hv. lia.
Qed.

Lemma insert_last (s : store) (v w : PIL.image) :
  <[length s := w]> (s ++ [v]) = s ++ [w].
Proof.
  replace (length s) with (length s + 0)%nat by lia.
  rewrite insert_app_r. reflexivity.
Qed.

Lemma lookup_last (s : store) (v : PIL.image) : (s ++ [v]) !! length s = Some v.
Proof. apply list_lookup_middle. reflexivity. Qed.

(** ** The gallery *)


(** ** align_horizon *)

Section Align.

Variable luma : PIL.pixel -> Z.
Variable V : gallery_v4.Vision.

Lemma align_horizon_run (s : store) (r : ref) (v a : PIL.image) :
  s !! r = Some v -> gallery_v4.align_horizon_value luma V v = Return a ->
  gallery_v4.align_horizon luma V r s = (Return (length s), s ++ [a]).
Proof.
  intros Hr Ha. unfold gallery_v4.align_horizon.
  rewrite (bind_return _ _ _ _ _ (deref_run _ _ _ Hr)).
  unfold lift, bind. rewrite Ha. reflexivity.
Qed.

Lemma align_horizon_raise (s : store) (r : ref) (v : PIL.image) (e : exn) :
  s !! r = Some v -> gallery_v4.align_horizon_value luma V v = Raise e ->
  gallery_v4.align_horizon luma V r s = (Raise e, s).
Proof.
  intros Hr Ha. unfold gallery_v4.align_horizon.
  rewrite (bind_return _ _ _ _ _ (deref_run _ _ _ Hr)).
  unfold lift, bind. rewrite Ha. reflexivity.
Qed.

(** Whatever happens, [align_horizon] does not hand back its argument. *)
Lemma align_horizon_fresh (s : store) (r r' : ref) (s' : store) (v : PIL.image) :
  s !! r = Some v ->
  gallery_v4.align_horizon luma V r s = (Return r', s') -> r' = length s /\ r' <> r.
Proof.
  intros Hr. unfold gallery_v4.align_horizon.
  rewrite (bind_return _ _ _ _ _ (deref_run _ _ _ Hr)).
  unfold lift, bind, alloc.
  destruct (gallery_v4.align_horizon_value luma V v); intros H; [| discriminate].
  injection H as <- _. apply lookup_lt_Some in Hr. lia.
Qed.

(** Without lines the panel is rotated by the int [0]. *)
Lemma align_horizon_value_no_lines (panel : PIL.image) (edges : PIL.gray) :
  gallery_v4.Canny V (PIL.convert_L luma panel) 50 150 = Return edges ->
  gallery_v4.HoughLines V edges 1 (gallery_v4.pi_over_180 V) 150 = Return None ->
  gallery_v4.align_horizon_value luma V panel =
  gallery_v4.rotate V panel (gallery_v4.PyInt 0).
Proof.
  intros HC HH. unfold gallery_v4.align_horizon_value. rewrite HC, HH. reflexivity.
Qed.

Lemma align_horizon_copy (s : store) (r : ref) (panel : PIL.image) (edges : PIL.gray) :
  s !! r = Some panel ->
  gallery_v4.Canny V (PIL.convert_L luma panel) 50 150 = Return edges ->
  gallery_v4.HoughLines V edges 1 (gallery_v4.pi_over_180 V) 150 = Return None ->
  gallery_v4.rotate V panel (gallery_v4.PyInt 0) = Return panel ->
  gallery_v4.align_horizon luma V r s = (Return (length s), s ++ [panel]).
Proof.
  intros Hr HC HH Hrot. apply (align_horizon_run s r panel panel Hr).
  rewrite (align_horizon_value_no_lines panel edges HC HH). exact Hrot.
Qed.

(** C4. When the detector finds no lines in a panel, the correction angle
    is the int [0], and [align_horizon] returns, without raising, a new
    panel whose content is that of the input: the rotation by [0] that PIL
    answers with a copy. *)
Theorem align_horizon_no_lines (s : store) (r : ref) (panel : PIL.image)
        (edges : PIL.gray) :
  s !! r = Some panel ->
  gallery_v4.Canny V (PIL.convert_L luma panel) 50 150 = Return edges ->
  gallery_v4.HoughLines V edges 1 (gallery_v4.pi_over_180 V) 150 = Return None ->
  gallery_v4.rotate V panel (gallery_v4.PyInt 0) = Return panel ->
  gallery_v4.mean_angle_of V None = gallery_v4.PyInt 0 /\
  gallery_v4.neg V (gallery_v4.mean_angle_of V None) = gallery_v4.PyInt 0 /\
  gallery_v4.align_horizon_value luma V panel = Return panel /\
  gallery_v4.align_horizon luma V r s = (Return (length s), s ++ [panel]) /\
  (s ++ [panel]) !! length s = Some panel /\
  (s ++ [panel]) !! r = Some panel.
Proof.
  intros Hr HC HH Hrot. repeat split.
  - rewrite (align_horizon_value_no_lines panel edges HC HH). exact Hrot.
  - apply (align_horizon_copy s r panel edges Hr HC HH Hrot).
  - apply lookup_last.
  - rewrite lookup_app_l; [exact Hr | eapply lookup_lt_Some, Hr].
Qed.

(** C9. When the detector finds no lines in a panel, aligning the output
    of [align_horizon] again gives a panel with the same content as the
    first output, which still has the content of the input. *)
Theorem align_horizon_idempotent_no_lines (s : store) (r : ref)
        (panel : PIL.image) (edges : PIL.gray) :
  s !! r = Some panel ->
  gallery_v4.Canny V (PIL.convert_L luma panel) 50 150 = Return edges ->
  gallery_v4.HoughLines V edges 1 (gallery_v4.pi_over_180 V) 150 = Return None ->
  gallery_v4.rotate V panel (gallery_v4.PyInt 0) = Return panel ->
  exists (r1 r2 : ref) (s1 s2 : store),
    gallery_v4.align_horizon luma V r s = (Return r1, s1) /\
    gallery_v4.align_horizon luma V r1 s1 = (Return r2, s2) /\
    s2 !! r2 = s1 !! r1 /\ s2 !! r1 = s1 !! r1 /\ s1 !! r1 = Some panel.
Proof.
  intros Hr HC HH Hrot.
  pose proof (align_horizon_copy s r panel edges Hr HC HH Hrot) as H1.
  assert (Hr1 : (s ++ [panel]) !! length s = Some panel) by apply lookup_last.
  pose proof (align_horizon_copy (s ++ [panel]) (length s) panel edges Hr1 HC HH Hrot)
    as H2.
  exists (length s), (length (s ++ [panel])), (s ++ [panel]), ((s ++ [panel]) ++ [panel]).
  repeat split; try assumption.
  - rewrite !lookup_last. reflexivity.
  - rewrite lookup_app_l; [reflexivity |]. rewrite length_app. cbn. lia.
Qed.

(** C8 (as the code has it). [align_horizon] has no test on the size of
    the panel. A panel of zero width or height is converted to an empty
    raster and handed to the detectors like any other panel: when a detector
    raises, [align_horizon] raises; when the detectors find no lines, the
    result is a new panel with the content of the input; in no case is the
    result the panel that was passed in. *)
Theorem align_horizon_degenerate_panel (s : store) (r : ref) (panel : PIL.image) :
  s !! r = Some panel ->
  PIL.width panel = 0%N \/ PIL.height panel = 0%N ->
  concat (PIL.convert_L luma panel) = [] /\
  (forall e, gallery_v4.Canny V (PIL.convert_L luma panel) 50 150 = Raise e ->
     gallery_v4.align_horizon luma V r s = (Raise e, s)) /\
  (forall edges e,
     gallery_v4.Canny V (PIL.convert_L luma panel) 50 150 = Return edges ->
     gallery_v4.HoughLines V edges 1 (gallery_v4.pi_over_180 V) 150 = Raise e ->
     gallery_v4.align_horizon luma V r s = (Raise e, s)) /\
  (forall edges,
     gallery_v4.Canny V (PIL.convert_L luma panel) 50 150 = Return edges ->
     gallery_v4.HoughLines V edges 1 (gallery_v4.pi_over_180 V) 150 = Return None ->
     gallery_v4.rotate V panel (gallery_v4.PyInt 0) = Return panel ->
     gallery_v4.align_horizon luma V r s = (Return (length s), s ++ [panel])) /\
  fst (gallery_v4.align_horizon luma V r s) <> Return r.
Proof.
  intros Hr Hdeg. split; [| split; [| split; [| split]]].
  - unfold PIL.convert_L. destruct Hdeg as [-> | ->].
    + change (Py.range (N.to_nat 0)) with (@nil Z).
      induction (Py.range (N.to_nat (PIL.height panel))) as [| y l IH];
        [reflexivity | exact IH].
    + reflexivity.
  - intros e HC. apply (align_horizon_raise s r panel e Hr).
    unfold gallery_v4.align_horizon_value. rewrite HC. reflexivity.
  - intros edges e HC HH. apply (align_horizon_raise s r panel e Hr).
    unfold gallery_v4.align_horizon_value. rewrite HC, HH. reflexivity.
  - intros edges HC HH Hrot.
    apply (align_horizon_copy s r panel edges Hr HC HH Hrot).
  - destruct (gallery_v4.align_horizon luma V r s) as [[r' | e] s'] eqn:E; [| discriminate].
    destruct (align_horizon_fresh s r r' s' panel Hr E) as [_ Hne].
    cbn [fst]. congruence.
Qed.

End Align.

(** ** process_and_split_image *)

Section Process.

Variable luma : PIL.pixel -> Z.
Variable V : gallery_v4.Vision.

(** The split-and-align loop: every round adds the panel and its aligned
    version to the store and yields the reference of the latter. *)
Lemma split_align_run (r : ref) (img : PIL.image) (aligned : Z -> PIL.image)
      (indices : list Z) (s : store) :
  s !! r = Some img ->
  (forall i, i ∈ indices ->
     gallery_v4.align_horizon_value luma V (strip img i) = Return (aligned i)) ->
  mapM (fun i =>
          let* panel :=
            Image_crop r (gallery_v4.panel_box (Z.of_N (PIL.width img))
                            (Z.of_N (PIL.height img) / 6) i) in
          gallery_v4.align_horizon luma V panel)
       indices s =
  (Return (map (fun j => length s + 2 * j + 1)%nat (seq 0 (length indices))),
   s ++ loop_objects img aligned indices).
Proof.
  revert s. induction indices as [| i indices IH]; intros s Hr Ha.
  - cbn. unfold ret. rewrite app_nil_r. reflexivity.
  - cbn [mapM]. rewrite bind_assoc.
    assert (Hph : 0 <= Z.of_N (PIL.height img) / 6) by (apply Z.div_pos; lia).
    unfold gallery_v4.panel_box at 1.
    rewrite (bind_return _ _ _ _ _
               (Image_crop_run s r img 0 (i * (Z.of_N (PIL.height img) / 6))
                  (Z.of_N (PIL.width img)) ((i + 1) * (Z.of_N (PIL.height img) / 6))
                  Hr ltac:(lia) ltac:(nia))).
    fold (gallery_v4.panel_box (Z.of_N (PIL.width img)) (Z.of_N (PIL.height img) / 6) i).
    fold (strip img i).
    rewrite (bind_return _ _ _ _ _
               (align_horizon_run luma V (s ++ [strip img i]) (length s) (strip img i)
                  (aligned i) (lookup_last s (strip img i)) (Ha i ltac:(left)))).
    rewrite (bind_return _ _ _ _ _
               (IH ((s ++ [strip img i]) ++ [aligned i])
                  ltac:(rewrite !lookup_app_l;
                        [exact Hr | eapply lookup_lt_Some, Hr
                        | rewrite length_app; apply lookup_lt_Some in Hr; lia])
                  ltac:(intros j Hj; apply Ha; right; exact Hj))).
    unfold ret. f_equal.
    + f_equal. rewrite !length_app. cbn [length seq map].
      f_equal; [lia |]. rewrite <- seq_shift, map_map. apply map_ext. intros j. lia.
    + unfold loop_objects. cbn [flat_map]. rewrite <- !app_assoc. reflexivity.
Qed.

Lemma index_run {A} (l : list A) (i : Z) (a : A) (s : store) :
  l !! Z.to_nat (if i <? 0 then Z.of_nat (length l) + i else i) = Some a ->
  0 <= (if i <? 0 then Z.of_nat (length l) + i else i) ->
  index l i s = (Return a, s).
Proof.
  intros Hl Hj. unfold index.
  destruct (Z.ltb_spec (if i <? 0 then Z.of_nat (length l) + i else i) 0); [lia |].
  rewrite Hl. reflexivity.
Qed.

Lemma lookup_after (s l : store) (k : nat) (v : PIL.image) :
  l !! k = Some v -> (s ++ l) !! (length s + k)%nat = Some v.
Proof.
  intros H. rewrite lookup_app_r by lia.
  replace (length s + k - length s)%nat with k by lia. exact H.
Qed.

(** The whole run on a frame of height at least 6 whose six panels can be
    aligned: the store grows by the twelve objects of the loop, the combined
    canvas and the trimmed result. *)
Lemma process_run (s : store) (r : ref) (img : PIL.image) (aligned : Z -> PIL.image) :
  s !! r = Some img ->
  6 <= Z.of_N (PIL.height img) ->
  (forall i, 0 <= i < 6 ->
     gallery_v4.align_horizon_value luma V (strip img i) = Return (aligned i)) ->
  let width := Z.of_N (PIL.width img) in
  let panel_height := Z.of_N (PIL.height img) / 6 in
  let panels := map aligned (Py.range 6) in
  let combined_height := Py.sum (heights panels) in
  let trim_top := Z.max 0 (Z.of_N (PIL.height (aligned 0)) - panel_height) in
  let trim_bottom := Z.max 0 (Z.of_N (PIL.height (aligned 5)) - panel_height) in
  let canvas :=
    stacked (PIL.Image (Z.to_N width) (Z.to_N combined_height) (fun _ _ => PIL.black))
      panels 0 in
  trim_top <= combined_height - trim_bottom /\
  gallery_v4.process_and_split_image luma V r s =
  (Return (length s + 13)%nat,
   s ++ loop_objects img aligned (Py.range 6) ++
     [canvas; PIL.region canvas (0, trim_top, width, combined_height - trim_bottom)]).
Proof.
  intros Hr H6 Ha width panel_height panels combined_height trim_top trim_bottom canvas.
  assert (Hph : 1 <= panel_height).
  { unfold panel_height. apply Z.div_le_lower_bound; lia. }
  assert (Hcomb : combined_height =
                  Z.of_N (PIL.height (aligned 0)) + Z.of_N (PIL.height (aligned 1)) +
                  Z.of_N (PIL.height (aligned 2)) + Z.of_N (PIL.height (aligned 3)) +
                  Z.of_N (PIL.height (aligned 4)) + Z.of_N (PIL.height (aligned 5))).
  { unfold combined_height, panels, heights.
    change (Py.range 6) with [0; 1; 2; 3; 4; 5]. cbn [map].
    rewrite !sum_cons. change (Py.sum []) with 0. lia. }
  assert (Htrim : trim_top <= combined_height - trim_bottom).
  { rewrite Hcomb. unfold trim_top, trim_bottom. lia. }
  split; [exact Htrim |].
  unfold gallery_v4.process_and_split_image.
  rewrite (bind_return _ _ _ _ _ (Image_width_run _ _ _ Hr)).
  rewrite (bind_return _ _ _ _ _ (Image_height_run _ _ _ Hr)).
  destruct (Z.ltb_spec (Z.of_N (PIL.height img)) 6) as [? | _]; [lia |].
  rewrite (bind_return _ _ _ _ _
             (split_align_run r img aligned (Py.range 6) s Hr
                ltac:(intros i Hi; apply Ha; apply range_elem in Hi; lia))).
  set (s1 := s ++ loop_objects img aligned (Py.range 6)).
  set (refs := map (fun j => length s + 2 * j + 1)%nat (seq 0 (length (Py.range 6)))).
  assert (Hb : bound s1 refs panels).
  { unfold bound, refs, panels, s1, loop_objects.
    change (Py.range 6) with [0; 1; 2; 3; 4; 5].
    cbn [seq map length flat_map app].
    repeat (constructor;
            [rewrite <- Nat.add_assoc; apply lookup_after; reflexivity |]).
    constructor. }
  assert (Hlen1 : length s1 = (length s + 12)%nat).
  { unfold s1. rewrite length_app. reflexivity. }
  rewrite (bind_return _ _ _ _ _ (mapM_height_run _ _ _ Hb)).
  fold combined_height.
  assert (Hc0 : 0 <= combined_height) by (rewrite Hcomb; lia).
  rewrite (bind_return _ _ _ _ _ (Image_new_run s1 width combined_height ltac:(lia) Hc0)).
  set (canvas0 := PIL.Image (Z.to_N width) (Z.to_N combined_height) (fun _ _ => PIL.black)).
  unfold gallery_v4.paste_all.
  rewrite (bind_return _ _ _ _ _
             (paste_all_run (s1 ++ [canvas0]) (length s1) refs panels canvas0 0
                (lookup_last s1 canvas0) (bound_app_store _ _ _ _ Hb)
                (bound_fresh _ _ _ Hb))).
  rewrite insert_last. fold canvas.
  set (s2 := s1 ++ [canvas]).
  assert (Hfirst : s2 !! (length s + 1)%nat = Some (aligned 0)).
  { unfold s2, s1. rewrite <- app_assoc. apply lookup_after. reflexivity. }
  assert (Hlast : s2 !! (length s + 11)%nat = Some (aligned 5)).
  { unfold s2, s1. rewrite <- app_assoc. apply lookup_after. reflexivity. }
  rewrite (bind_return _ _ _ _ _
             (index_run refs 0 (length s + 2 * 0 + 1)%nat _ eq_refl ltac:(cbn; lia))).
  replace (length s + 2 * 0 + 1)%nat with (length s + 1)%nat by lia.
  rewrite (bind_return _ _ _ _ _ (Image_height_run _ _ _ Hfirst)).
  rewrite (bind_return _ _ _ _ _
             (index_run refs (-1) (length s + 2 * 5 + 1)%nat _ eq_refl ltac:(cbn; lia))).
  replace (length s + 2 * 5 + 1)%nat with (length s + 11)%nat by lia.
  rewrite (bind_return _ _ _ _ _ (Image_height_run _ _ _ Hlast)).
  fold panel_height. fold trim_top. fold trim_bottom.
  assert (Hcan : s2 !! length s1 = Some canvas) by apply lookup_last.
  fold width.
  rewrite (Image_crop_run s2 (length s1) canvas 0 trim_top width
             (combined_height - trim_bottom) Hcan ltac:(lia) Htrim).
  f_equal.
  - f_equal. unfold s2. rewrite length_app, Hlen1. cbn. lia.
  - unfold s2, s1. rewrite <- !app_assoc. reflexivity.
Qed.


Lemma region_pixel (v : PIL.image) (x0 y0 x1 y1 x y : Z) :
  PIL.in_bounds v (x + x0) (y + y0) = true ->
  PIL.getpixel (PIL.region v (x0, y0, x1, y1)) x y = PIL.getpixel v (x + x0) (y + y0).
Proof. intros H. cbn [PIL.region PIL.getpixel]. rewrite H. reflexivity. Qed.

Lemma in_bounds_intro (v : PIL.image) (x y : Z) :
  0 <= x < Z.of_N (PIL.width v) -> 0 <= y < Z.of_N (PIL.height v) ->
  PIL.in_bounds v x y = true.
Proof.
  intros Hx Hy. unfold PIL.in_bounds.
  repeat (apply andb_true_intro; split);
    try apply Z.leb_le; try apply Z.ltb_lt; lia.
Qed.

Lemma in_bounds_elim (v : PIL.image) (x y : Z) :
  PIL.in_bounds v x y = true ->
  0 <= x < Z.of_N (PIL.width v) /\ 0 <= y < Z.of_N (PIL.height v).
Proof.
  unfold PIL.in_bounds. intros H.
  apply andb_prop in H as [H Hy1]. apply andb_prop in H as [H Hy0].
  apply andb_prop in H as [Hx0 Hx1].
  apply Z.leb_le in Hx0, Hy0. apply Z.ltb_lt in Hx1, Hy1. lia.
Qed.

(** C2. On a frame of at least 6 rows whose six panels can be aligned, the
    combined canvas is as wide as the input frame and as high as the aligned
    panels together, and holds every aligned panel at [x = 0] below the
    panels before it (clipped at the frame width). The result is the canvas
    without its first [trim_top] and its last [trim_bottom] rows, and its
    height, [combined_height - trim_top - trim_bottom], is not negative: the
    final crop does not raise. *)
Theorem process_combines_and_trims (s : store) (r : ref) (img : PIL.image)
        (aligned : Z -> PIL.image) :
  s !! r = Some img ->
  6 <= Z.of_N (PIL.height img) ->
  (forall i, 0 <= i < 6 ->
     gallery_v4.align_horizon_value luma V (strip img i) = Return (aligned i)) ->
  let width := Z.of_N (PIL.width img) in
  let panel_height := Z.of_N (PIL.height img) / 6 in
  let panels := map aligned (Py.range 6) in
  let combined_height := Py.sum (heights panels) in
  let trim_top := Z.max 0 (Z.of_N (PIL.height (aligned 0)) - panel_height) in
  let trim_bottom := Z.max 0 (Z.of_N (PIL.height (aligned 5)) - panel_height) in
  exists (canvas out : PIL.image) (s' : store),
    gallery_v4.process_and_split_image luma V r s = (Return (length s + 13)%nat, s') /\
    s' !! (length s + 12)%nat = Some canvas /\
    s' !! (length s + 13)%nat = Some out /\
    PIL.width canvas = PIL.width img /\
    Z.of_N (PIL.height canvas) = combined_height /\
    (forall (k : nat) (v : PIL.image) (x y : Z),
       panels !! k = Some v -> PIL.in_bounds v x y = true -> x < width ->
       PIL.getpixel canvas x (Py.sum (heights (take k panels)) + y) =
       PIL.getpixel v x y) /\
    out = PIL.region canvas (0, trim_top, width, combined_height - trim_bottom) /\
    PIL.width out = PIL.width img /\
    Z.of_N (PIL.height out) = combined_height - trim_top - trim_bottom /\
    0 <= combined_height - trim_top - trim_bottom /\
    (forall x y, 0 <= x < width ->
       0 <= y < combined_height - trim_top - trim_bottom ->
       PIL.getpixel out x y = PIL.getpixel canvas x (trim_top + y)).
Proof.
  intros Hr H6 Ha width panel_height panels combined_height trim_top trim_bottom.
  destruct (process_run s r img aligned Hr H6 Ha) as [Htrim Hrun].
  fold width panel_height panels combined_height trim_top trim_bottom in Htrim, Hrun.
  set (canvas := stacked (PIL.Image (Z.to_N width) (Z.to_N combined_height)
                            (fun _ _ => PIL.black)) panels 0) in *.
  pose proof (sum_nonneg _ (heights_nonneg panels)) as Hc0. fold combined_height in Hc0.
  destruct (stacked_size (PIL.Image (Z.to_N width) (Z.to_N combined_height)
                            (fun _ _ => PIL.black)) panels 0) as [Hsw Hsh].
  fold canvas in Hsw, Hsh. cbn [PIL.width PIL.height] in Hsw, Hsh.
  assert (Htop : 0 <= trim_top) by (unfold trim_top; lia).
  assert (Hbot : 0 <= trim_bottom) by (unfold trim_bottom; lia).
  exists canvas, (PIL.region canvas (0, trim_top, width, combined_height - trim_bottom)).
  eexists. split; [exact Hrun |].
  split; [| split; [| split; [| split; [| split; [| split; [| split; [| split; [| split]]]]]]]].
  - rewrite app_assoc.
    replace (length s + 12)%nat
      with (length (s ++ loop_objects img aligned (Py.range 6)) + 0)%nat
      by (rewrite length_app; cbn; lia).
    apply lookup_after. reflexivity.
  - rewrite app_assoc.
    replace (length s + 13)%nat
      with (length (s ++ loop_objects img aligned (Py.range 6)) + 1)%nat
      by (rewrite length_app; cbn; lia).
    apply lookup_after. reflexivity.
  - rewrite Hsw. unfold width. apply N2Z.id.
  - rewrite Hsh. lia.
  - intros k v x y Hk Hin _.
    replace (Py.sum (heights (take k panels)) + y)
      with (0 + Py.sum (heights (take k panels)) + y) by lia.
    apply stacked_pixel; assumption.
  - reflexivity.
  - cbn [PIL.region PIL.width]. unfold width. rewrite Z.sub_0_r. apply N2Z.id.
  - cbn [PIL.region PIL.height]. lia.
  - lia.
  - intros x y Hx Hy. rewrite region_pixel.
    + f_equal; lia.
    + apply in_bounds_intro; [rewrite Hsw; unfold width in *; lia | rewrite Hsh; lia].
Qed.

(** C3 (as the code has it). On a frame of height [H >= 6] whose six
    panels can be aligned, the six panels are cropped with
    [panel_height = floor(H / 6)]: panel [i] is as wide as the frame, has
    [panel_height] rows and holds the rows [i * panel_height] up to
    [(i + 1) * panel_height] of the frame. The six boxes cover exactly the
    first [6 * panel_height = H - H mod 6] rows; the last box ends there, so
    the remaining [H mod 6] rows are in no panel. *)
Theorem process_panels_cover_six_panel_heights (s : store) (r : ref)
        (img : PIL.image) (aligned : Z -> PIL.image) :
  s !! r = Some img ->
  6 <= Z.of_N (PIL.height img) ->
  (forall i, 0 <= i < 6 ->
     gallery_v4.align_horizon_value luma V (strip img i) = Return (aligned i)) ->
  let width := Z.of_N (PIL.width img) in
  let height := Z.of_N (PIL.height img) in
  let panel_height := height / 6 in
  exists (out : ref) (s' : store),
    gallery_v4.process_and_split_image luma V r s = (Return out, s') /\
    (forall i, 0 <= i < 6 ->
       exists panel : PIL.image,
         s' !! (length s + 2 * Z.to_nat i)%nat = Some panel /\
         panel = PIL.region img (gallery_v4.panel_box width panel_height i) /\
         Z.of_N (PIL.width panel) = width /\
         Z.of_N (PIL.height panel) = panel_height /\
         (forall x y, 0 <= x < width -> 0 <= y < panel_height ->
            PIL.getpixel panel x y = PIL.getpixel img x (i * panel_height + y))) /\
    (forall y,
       (exists i, 0 <= i < 6 /\ has_row (gallery_v4.panel_box width panel_height i) y) <->
       0 <= y < 6 * panel_height) /\
    6 * panel_height = height - height mod 6 /\
    (forall y i, 6 * panel_height <= y < height -> 0 <= i < 6 ->
       ~ has_row (gallery_v4.panel_box width panel_height i) y).
Proof.
  intros Hr H6 Ha width height panel_height.
  destruct (process_run s r img aligned Hr H6 Ha) as [_ Hrun].
  assert (Hph : 1 <= panel_height).
  { unfold panel_height, height. apply Z.div_le_lower_bound; lia. }
  eexists. eexists. split; [exact Hrun |].
  split; [| split; [| split]].
  - intros i Hi. exists (strip img i).
    split; [| split; [| split; [| split]]].
    + assert (Hcases : i = 0 \/ i = 1 \/ i = 2 \/ i = 3 \/ i = 4 \/ i = 5) by lia.
      destruct Hcases as [-> | [-> | [-> | [-> | [-> | ->]]]]];
        apply lookup_after; reflexivity.
    + reflexivity.
    + unfold strip, gallery_v4.panel_box. cbn [PIL.region PIL.width]. unfold width. lia.
    + unfold strip, gallery_v4.panel_box. cbn [PIL.region PIL.height].
      fold height. fold panel_height. nia.
    + intros x y Hx Hy. unfold strip, gallery_v4.panel_box.
      fold height. fold panel_height. rewrite region_pixel.
      * f_equal; lia.
      * apply in_bounds_intro; [unfold width in Hx; lia |].
        fold height. pose proof (Z.mul_div_le height 6 ltac:(lia)) as Hle.
        fold panel_height in Hle. nia.
  - intros y. unfold has_row, gallery_v4.panel_box. split.
    + intros (i & Hi & Hrow). nia.
    + intros Hy. exists (y / panel_height).
      pose proof (Z.div_mod y panel_height ltac:(lia)) as Hdm.
      pose proof (Z.mod_pos_bound y panel_height ltac:(lia)) as Hmb.
      assert (0 <= y / panel_height) by (apply Z.div_pos; lia).
      assert (y / panel_height < 6) by (apply Z.div_lt_upper_bound; lia).
      nia.
  - unfold panel_height. pose proof (Z.div_mod height 6 ltac:(lia)). lia.
  - intros y i Hy Hi. unfold has_row, gallery_v4.panel_box. nia.
Qed.

End Process.

(** ** The store only grows *)

Lemma grows_ret {A} (a : A) : grows (ret a).
Proof. intros s s' o H. injection H as _ <-. lia. Qed.

Lemma grows_raise {A} (e : exn) : grows (@raise A e).
Proof. intros s s' o H. injection H as _ <-. lia. Qed.

Lemma grows_lift {A} (x : outcome A) : grows (lift x).
Proof. intros s s' o H. injection H as _ <-. lia. Qed.

Lemma grows_deref (r : ref) : grows (deref r).
Proof.
  intros s s' o H. unfold deref in H.
  destruct (s !! r); injection H as _ <-; lia.
Qed.

Lemma grows_alloc (v : PIL.image) : grows (alloc v).
Proof. intros s s' o H. injection H as _ <-. rewrite length_app. lia. Qed.

Lemma grows_assign (r : ref) (v : PIL.image) : grows (assign r v).
Proof. intros s s' o H. injection H as _ <-. rewrite length_insert. lia. Qed.

Lemma grows_bind {A B} (m : M A) (k : A -> M B) :
  grows m -> (forall a, grows (k a)) -> grows (bind m k).
Proof.
  intros Hm Hk s s' o H. unfold bind in H.
  destruct (m s) as [[a | e] s1] eqn:E.
  - specialize (Hm _ _ _ E). specialize (Hk a _ _ _ H). lia.
  - injection H as _ <-. apply (Hm _ _ _ E).
Qed.

Lemma grows_mapM {A B} (f : A -> M B) (l : list A) :
  (forall x, grows (f x)) -> grows (mapM f l).
Proof.
  intros Hf. induction l as [| x l IH]; cbn [mapM].
  - apply grows_ret.
  - apply grows_bind; [apply Hf | intros y].
    apply grows_bind; [exact IH | intros ys; apply grows_ret].
Qed.

Lemma grows_foldM {A B} (f : B -> A -> M B) (l : list A) (acc : B) :
  (forall b x, grows (f b x)) -> grows (foldM f acc l).
Proof.
  intros Hf. revert acc. induction l as [| x l IH]; intros acc; cbn [foldM].
  - apply grows_ret.
  - apply grows_bind; [apply Hf | intros b; apply IH].
Qed.

Lemma grows_index {A} (l : list A) (i : Z) : grows (index l i).
Proof.
  unfold index. destruct (_ <? 0); [apply grows_raise |].
  destruct (l !! _); [apply grows_ret | apply grows_raise].
Qed.

Create HintDb grows discriminated.

#[local] Hint Resolve grows_ret grows_raise grows_lift grows_deref grows_alloc
  grows_assign grows_index : grows.

Ltac grows_step :=
  first [ apply grows_bind; [| intros ?]
        | apply grows_mapM; intros ?
        | apply grows_foldM; intros ? ?
        | solve [auto with grows] ].

Lemma grows_Image_width (r : ref) : grows (Image_width r).
Proof. unfold Image_width. repeat grows_step. Qed.

Lemma grows_Image_height (r : ref) : grows (Image_height r).
Proof. unfold Image_height. repeat grows_step. Qed.

Lemma grows_Image_new (w h : Z) : grows (Image_new w h).
Proof. unfold Image_new. repeat grows_step. Qed.

Lemma grows_Image_crop (r : ref) (b : PIL.box) : grows (Image_crop r b).
Proof. unfold Image_crop. repeat grows_step. Qed.

Lemma grows_Image_paste (c r : ref) (x y : Z) : grows (Image_paste c r x y).
Proof. unfold Image_paste. repeat grows_step. Qed.

#[local] Hint Resolve grows_Image_width grows_Image_height grows_Image_new
  grows_Image_crop grows_Image_paste : grows.

Lemma grows_align_horizon luma V (r : ref) : grows (gallery_v4.align_horizon luma V r).
Proof. unfold gallery_v4.align_horizon. repeat grows_step. Qed.

#[local] Hint Resolve grows_align_horizon : grows.

Lemma grows_paste_all (c : ref) (rs : list ref) : grows (gallery_v4.paste_all c rs).
Proof. unfold gallery_v4.paste_all. repeat grows_step. Qed.

#[local] Hint Resolve grows_paste_all : grows.

Lemma grows_process luma V (r : ref) :
  grows (gallery_v4.process_and_split_image luma V r).
Proof.
  unfold gallery_v4.process_and_split_image.
  apply grows_bind; [auto with grows | intros w].
  apply grows_bind; [auto with grows | intros h].
  destruct (h <? 6); [apply grows_ret |].
  repeat grows_step.
Qed.

Lemma bind_inv {A B} (m : M A) (k : A -> M B) (s s' : store) (b : B) :
  bind m k s = (Return b, s') ->
  exists a s1, m s = (Return a, s1) /\ k a s1 = (Return b, s').
Proof.
  unfold bind. destruct (m s) as [[a | e] s1]; [| discriminate].
  intros H. exists a, s1. split; [reflexivity | exact H].
Qed.

Lemma Image_crop_inv (r : ref) (b : PIL.box) (s s' : store) (r' : ref) :
  Image_crop r b s = (Return r', s') ->
  r' = length s /\ length s' = S (length s).
Proof.
  unfold Image_crop. intros H.
  apply bind_inv in H as (v & s1 & Hd & H).
  apply bind_inv in H as (c & s2 & Hl & H).
  unfold deref in Hd. destruct (s !! r); [| discriminate]. injection Hd as _ <-.
  unfold lift in Hl. injection Hl as _ <-.
  unfold alloc in H. injection H as <- <-. rewrite length_app. cbn. lia.
Qed.

(** The result of [process_and_split_image] is its argument or an object
    created during the call, and it is in the store. *)
Lemma process_result luma V (r r' : ref) (s s' : store) :
  (r < length s)%nat ->
  gallery_v4.process_and_split_image luma V r s = (Return r', s') ->
  (r' = r \/ (length s <= r')%nat) /\ (r' < length s')%nat.
Proof.
  intros Hr H. pose proof (grows_process luma V r _ _ _ H) as Hg.
  unfold gallery_v4.process_and_split_image in H.
  apply bind_inv in H as (w & s1 & H1 & H). pose proof (grows_Image_width _ _ _ _ H1) as G1.
  apply bind_inv in H as (h & s2 & H2 & H). pose proof (grows_Image_height _ _ _ _ H2) as G2.
  destruct (h <? 6).
  { injection H as <- <-. split; [left; reflexivity | lia]. }
  apply bind_inv in H as (ap & s3 & H3 & H).
  assert (G3 : (length s2 <= length s3)%nat).
  { revert H3. apply grows_mapM. intros i. repeat grows_step. }
  apply bind_inv in H as (hs & s4 & H4 & H).
  assert (G4 : (length s3 <= length s4)%nat).
  { revert H4. apply grows_mapM. intros i. repeat grows_step. }
  apply bind_inv in H as (c & s5 & H5 & H). pose proof (grows_Image_new _ _ _ _ _ H5) as G5.
  apply bind_inv in H as (y & s6 & H6 & H). pose proof (grows_paste_all _ _ _ _ _ H6) as G6.
  apply bind_inv in H as (fp & s7 & H7 & H). pose proof (grows_index _ _ _ _ _ H7) as G7.
  apply bind_inv in H as (fh & s8 & H8 & H). pose proof (grows_Image_height _ _ _ _ H8) as G8.
  apply bind_inv in H as (lp & s9 & H9 & H). pose proof (grows_index _ _ _ _ _ H9) as G9.
  apply bind_inv in H as (lh & s10 & H10 & H). pose proof (grows_Image_height _ _ _ _ H10) as G10.
  apply Image_crop_inv in H as [-> Hl]. split; [right |]; lia.
Qed.

(** [gallery_v2]'s older [process_and_split_image] has no test on the
    height: whatever the frame, its result is an object created during the
    call, never the frame it was given. *)
Lemma v2_process_result luma NP (r r' : ref) (s s' : store) :
  gallery_v2.process_and_split_image luma NP r s = (Return r', s') ->
  (length s <= r' < length s')%nat.
Proof.
  intros H. unfold gallery_v2.process_and_split_image in H.
  apply bind_inv in H as (w & s1 & H1 & H). pose proof (grows_Image_width _ _ _ _ H1) as G1.
  apply bind_inv in H as (h & s2 & H2 & H). pose proof (grows_Image_height _ _ _ _ H2) as G2.
  apply bind_inv in H as (ap & s3 & H3 & H).
  assert (G3 : (length s2 <= length s3)%nat).
  { revert H3. apply grows_mapM. intros i. unfold gallery_v2.align_horizon.
    repeat grows_step. }
  apply bind_inv in H as (hs & s4 & H4 & H).
  assert (G4 : (length s3 <= length s4)%nat).
  { revert H4. apply grows_mapM. intros i. repeat grows_step. }
  apply bind_inv in H as (c & s5 & H5 & H). pose proof (grows_Image_new _ _ _ _ _ H5) as G5.
  apply bind_inv in H as (y & s6 & H6 & H). pose proof (grows_paste_all _ _ _ _ _ H6) as G6.
  apply bind_inv in H as (fp & s7 & H7 & H). pose proof (grows_index _ _ _ _ _ H7) as G7.
  apply bind_inv in H as (fh & s8 & H8 & H). pose proof (grows_Image_height _ _ _ _ H8) as G8.
  apply bind_inv in H as (lp & s9 & H9 & H). pose proof (grows_index _ _ _ _ _ H9) as G9.
  apply bind_inv in H as (lh & s10 & H10 & H). pose proof (grows_Image_height _ _ _ _ H10) as G10.
  apply Image_crop_inv in H as [-> Hl]. lia.
Qed.

(** C5 (as the code has it). On a frame of fewer than 6 rows,
    [process_and_split_image] of [gallery_v4.py] returns the reference it
    was given and leaves the store as it is: the very same object, not
    modified; nothing is cropped and nothing is aligned, whatever the
    detectors would do. [process_and_split_image] of [gallery_v2.py] has no
    test on the height and never returns the frame: when it returns, the
    result is an object created during the call. *)
Theorem process_short_frame_guard_only_in_v4 luma V NP (s : store) (r : ref)
        (img : PIL.image) :
  s !! r = Some img ->
  Z.of_N (PIL.height img) < 6 ->
  gallery_v4.process_and_split_image luma V r s = (Return r, s) /\
  (forall (r' : ref) (s' : store),
     gallery_v2.process_and_split_image luma NP r s = (Return r', s') ->
     r' <> r /\ (length s <= r' < length s')%nat).
Proof.
  intros Hr Hh. split.
  - unfold gallery_v4.process_and_split_image.
    rewrite (bind_return _ _ _ _ _ (Image_width_run _ _ _ Hr)).
    rewrite (bind_return _ _ _ _ _ (Image_height_run _ _ _ Hr)).
    destruct (Z.ltb_spec (Z.of_N (PIL.height img)) 6) as [_ | ?]; [reflexivity | lia].
  - intros r' s' H2.
    pose proof (v2_process_result _ _ _ _ _ _ H2) as Hnew.
    pose proof (lookup_lt_Some _ _ _ Hr) as Hlt.
    split; lia.
Qed.

(** C5 as stated fails for [gallery_v2.py] on a frame of 5 rows: the frame
    is not returned. With a NumPy whose [argmin] raises on an empty edge
    map, the first panel, which has no rows, is cut and its alignment
    raises; and whatever NumPy does, the outcome is not the frame itself in
    an unchanged store. *)
Lemma process_short_frame_v2_not_returned :
  let img := Samples.gradient 4 5 in
  gallery_v2.process_and_split_image Samples.luma_601 Samples.numpy 0%nat [img] =
  (Raise ValueError, [img; strip img 0]) /\
  (forall NP : gallery_v2.Numpy,
     gallery_v2.process_and_split_image Samples.luma_601 NP 0%nat [img] <>
     (Return 0%nat, [img])).
Proof.
  intros img. split; [reflexivity |].
  intros NP H. apply v2_process_result in H. cbn in H. lia.
Qed.

Lemma process_short_frame_guard_only_in_v4_witness :
  ([Samples.gradient 4 5] !! 0%nat = Some (Samples.gradient 4 5) /\
   Z.of_N (PIL.height (Samples.gradient 4 5)) < 6) /\
  gallery_v4.process_and_split_image Samples.luma_601 Samples.tilted 0%nat
    [Samples.gradient 4 5] = (Return 0%nat, [Samples.gradient 4 5]) /\
  (forall (r' : ref) (s' : store),
     gallery_v2.process_and_split_image Samples.luma_601 Samples.numpy 0%nat
       [Samples.gradient 4 5] = (Return r', s') ->
     r' <> 0%nat /\ (1 <= r' < length s')%nat).
Proof.
  assert (Hr : [Samples.gradient 4 5] !! 0%nat = Some (Samples.gradient 4 5))
    by reflexivity.
  assert (Hh : Z.of_N (PIL.height (Samples.gradient 4 5)) < 6) by reflexivity.
  split; [split; [exact Hr | exact Hh] |].
  exact (process_short_frame_guard_only_in_v4 Samples.luma_601 Samples.tilted
           Samples.numpy [Samples.gradient 4 5] 0%nat (Samples.gradient 4 5) Hr Hh).
Defined.

(** ** The loop of create_gallery *)

Section Loop.

Variable luma : PIL.pixel -> Z.
Variable V : gallery_v4.Vision.
Variable F : gallery_v4.Files.

Ltac split_elem :=
  repeat match goal with
         | H : _ ∈ _ ++ _ |- _ => apply elem_of_app in H as [H | H]
         | H : _ ∈ _ :: _ |- _ => apply elem_of_cons in H as [H | H]
         | H : _ ∈ [] |- _ => apply elem_of_nil in H; destruct H
         | H : @eq gallery_v4.event _ _ |- _ => discriminate H
         | H : @eq gallery_v4.event _ _ |- _ => injection H; clear H; intros; subst
         end.

Lemma loop_invariant_start (s : store) :
  loop_invariant luma F (gallery_v4.Loop [] s []).
Proof.
  constructor; cbn [gallery_v4.images gallery_v4.trace gallery_v4.heap];
    intros; split_elem.
Qed.

Lemma loop_invariant_visit (st : gallery_v4.loop_state) (buoy_id : Z) :
  loop_invariant luma F st ->
  loop_invariant luma F (gallery_v4.visit luma V F st buoy_id).
Proof.
  intros [Himg Hfr Hval Hcall Hblank]. unfold gallery_v4.visit.
  destruct (gallery_v4.fetch_buoy_image F buoy_id) as [p |] eqn:Ef;
    [| constructor; assumption].
  unfold gallery_v4.Image_open, lift, bind at 1, alloc.
  destruct (gallery_v4.open_file F p) as [v | e] eqn:Eo.
  2:{ constructor; cbn [gallery_v4.images gallery_v4.trace gallery_v4.heap].
      - exact Himg.
      - intros id r b H. split_elem. eauto.
      - intros id r b H. split_elem. eauto.
      - intros id r H. split_elem. apply elem_of_app. left. auto.
      - intros id r H. split_elem. destruct (Hblank _ _ H) as [Hno Hni].
        split; [| exact Hni]. intros id' H'. split_elem. exact (Hno id' H'). }
  rewrite (bind_return _ _ _ _ _ (deref_run _ _ _ (lookup_last (gallery_v4.heap st) v))).
  unfold ret.
  set (img := length (gallery_v4.heap st)).
  destruct (gallery_v4.is_blank_image luma v) eqn:Eb.
  - constructor; cbn [gallery_v4.images gallery_v4.trace gallery_v4.heap];
      rewrite ?length_app; cbn [length].
    + intros r Hr. specialize (Himg r Hr). lia.
    + intros id r b H. split_elem; [specialize (Hfr _ _ _ H); lia | fold img; lia].
    + intros id r b H. split_elem; [eauto | exists p, v; auto].
    + intros id r H. split_elem. apply elem_of_app. left. auto.
    + intros id r H. split_elem.
      * destruct (Hblank _ _ H) as [Hno Hni]. split; [| exact Hni].
        intros id' H'. split_elem. exact (Hno id' H').
      * split.
        -- intros id' H'. split_elem. specialize (Hfr _ _ _ H'). fold img in Hfr. lia.
        -- intros Hin. specialize (Himg _ Hin). fold img in Himg. lia.
  - destruct (gallery_v4.process_and_split_image luma V img
                (gallery_v4.heap st ++ [v])) as [[processed | e] s3] eqn:Ep.
    + assert (Himg_lt : (img < length (gallery_v4.heap st ++ [v]))%nat)
        by (rewrite length_app; cbn; unfold img; lia).
      destruct (process_result luma V _ _ _ _ Himg_lt Ep) as [Hfresh Hlt].
      pose proof (grows_process luma V _ _ _ _ Ep) as Hg.
      rewrite length_app in Hg, Hfresh. cbn [length] in Hg, Hfresh.
      constructor; cbn [gallery_v4.images gallery_v4.trace gallery_v4.heap].
      * intros r Hr. apply elem_of_app in Hr as [Hr | Hr].
        -- specialize (Himg r Hr). lia.
        -- apply list_elem_of_singleton in Hr as ->. exact Hlt.
      * intros id r b H. split_elem; [specialize (Hfr _ _ _ H); lia | fold img; lia].
      * intros id r b H. split_elem; [eauto | exists p, v; auto].
      * intros id r H. split_elem.
        -- apply elem_of_app. left. auto.
        -- apply elem_of_app. right. left.
      * intros id r H. split_elem.
        destruct (Hblank _ _ H) as [Hno Hni]. specialize (Hfr _ _ _ H). fold img in Hfr.
        split.
        -- intros id' H'. split_elem; [exact (Hno id' H') | lia].
        -- intros Hin. apply elem_of_app in Hin as [Hin | Hin]; [exact (Hni Hin) |].
           apply list_elem_of_singleton in Hin. lia.
    + pose proof (grows_process luma V _ _ _ _ Ep) as Hg.
      rewrite length_app in Hg. cbn [length] in Hg.
      constructor; cbn [gallery_v4.images gallery_v4.trace gallery_v4.heap].
      * intros r Hr. specialize (Himg r Hr). lia.
      * intros id r b H. split_elem; [specialize (Hfr _ _ _ H); lia | fold img; lia].
      * intros id r b H. split_elem; [eauto | exists p, v; auto].
      * intros id r H. split_elem.
        -- apply elem_of_app. left. auto.
        -- apply elem_of_app. right. left.
      * intros id r H. split_elem.
        destruct (Hblank _ _ H) as [Hno Hni]. specialize (Hfr _ _ _ H). fold img in Hfr.
        split; [| exact Hni].
        intros id' H'. split_elem; [exact (Hno id' H') | lia].
Qed.

Lemma loop_invariant_collect (ids : list Z) (st : gallery_v4.loop_state) :
  loop_invariant luma F st ->
  loop_invariant luma F (gallery_v4.collect luma V F ids st).
Proof.
  revert st. induction ids as [| id ids IH]; intros st Hst; [exact Hst |].
  unfold gallery_v4.collect. cbn [fold_left].
  apply IH, loop_invariant_visit, Hst.
Qed.

(** C7. In a run of the loop of [create_gallery], over any list of buoys
    and from any store, a frame that [is_blank_image] classified as blank is
    never passed to [process_and_split_image] and is not among the images
    that are combined into the gallery; what is passed to
    [process_and_split_image] is a frame classified as not blank. The
    verdicts in the trace are those of [is_blank_image] on the opened
    frames. *)
Theorem blank_frames_never_processed (ids : list Z) (s : store) :
  let st := gallery_v4.collect luma V F ids (gallery_v4.Loop [] s []) in
  (forall id img, gallery_v4.Is_blank id img true ∈ gallery_v4.trace st ->
     (forall id', gallery_v4.Calls_process id' img ∉ gallery_v4.trace st) /\
     img ∉ gallery_v4.images st) /\
  (forall id img, gallery_v4.Calls_process id img ∈ gallery_v4.trace st ->
     gallery_v4.Is_blank id img false ∈ gallery_v4.trace st) /\
  (forall id img b, gallery_v4.Is_blank id img b ∈ gallery_v4.trace st ->
     exists p v, gallery_v4.fetch_buoy_image F id = Some p /\
                 gallery_v4.open_file F p = Return v /\
                 gallery_v4.is_blank_image luma v = b) /\
  gallery_v4.create_gallery luma V F s =
  (gallery_v4.combine_gallery
     (gallery_v4.images (gallery_v4.collect luma V F gallery_v4.buoy_ids
                           (gallery_v4.Loop [] s [])))
     (gallery_v4.heap (gallery_v4.collect luma V F gallery_v4.buoy_ids
                         (gallery_v4.Loop [] s []))),
   gallery_v4.trace (gallery_v4.collect luma V F gallery_v4.buoy_ids
                       (gallery_v4.Loop [] s []))).
Proof.
  intros st.
  destruct (loop_invariant_collect ids _ (loop_invariant_start s))
    as [Himg Hfr Hval Hcall Hblank].
  fold st in Himg, Hfr, Hval, Hcall, Hblank.
  split; [| split; [| split]].
  - intros id img H. destruct (Hblank id img H) as [Hno Hni]. split; [| exact Hni].
    intros id' Hc. exact (Hno id' (Hcall id' img Hc)).
  - exact Hcall.
  - exact Hval.
  - reflexivity.
Qed.

End Loop.

(** ** The theorems on concrete frames *)

Lemma process_combines_and_trims_witness :
  ([Samples.gradient 4 13] !! 0%nat = Some (Samples.gradient 4 13) /\
   6 <= Z.of_N (PIL.height (Samples.gradient 4 13)) /\
   forall i, 0 <= i < 6 ->
     gallery_v4.align_horizon_value Samples.luma_601 Samples.tilted
       (strip (Samples.gradient 4 13) i) =
     Return (Samples.pad (strip (Samples.gradient 4 13) i))) /\
  exists (canvas out : PIL.image) (s' : store),
    gallery_v4.process_and_split_image Samples.luma_601 Samples.tilted 0%nat
      [Samples.gradient 4 13] = (Return 14%nat, s') /\
    s' !! 13%nat = Some canvas /\ s' !! 14%nat = Some out /\
    PIL.width canvas = 4%N /\ Z.of_N (PIL.height canvas) = 24 /\
    PIL.width out = 4%N /\ Z.of_N (PIL.height out) = 20.
Proof.
  assert (Hr : [Samples.gradient 4 13] !! 0%nat = Some (Samples.gradient 4 13))
    by reflexivity.
  assert (H6 : 6 <= Z.of_N (PIL.height (Samples.gradient 4 13)))
    by (vm_compute; discriminate).
  assert (Ha : forall i, 0 <= i < 6 ->
            gallery_v4.align_horizon_value Samples.luma_601 Samples.tilted
              (strip (Samples.gradient 4 13) i) =
            Return (Samples.pad (strip (Samples.gradient 4 13) i)))
    by (intros i _; reflexivity).
  split; [split; [exact Hr | split; [exact H6 | exact Ha]] |].
  destruct (process_combines_and_trims Samples.luma_601 Samples.tilted
              [Samples.gradient 4 13] 0%nat (Samples.gradient 4 13)
              (fun i => Samples.pad (strip (Samples.gradient 4 13) i)) Hr H6 Ha)
    as (canvas & out & s' & Hrun & Hc & Ho & Hcw & Hch & _ & _ & How & Hoh & _ & _).
  exists canvas, out, s'.
  split; [exact Hrun |]. split; [exact Hc |]. split; [exact Ho |].
  split; [exact Hcw |]. split; [rewrite Hch; reflexivity |].
  split; [exact How | rewrite Hoh; reflexivity].
Defined.

Lemma process_panels_cover_six_panel_heights_witness :
  ([Samples.gradient 4 13] !! 0%nat = Some (Samples.gradient 4 13) /\
   6 <= Z.of_N (PIL.height (Samples.gradient 4 13)) /\
   forall i, 0 <= i < 6 ->
     gallery_v4.align_horizon_value Samples.luma_601 Samples.tilted
       (strip (Samples.gradient 4 13) i) =
     Return (Samples.pad (strip (Samples.gradient 4 13) i))) /\
  (forall y,
     (exists i, 0 <= i < 6 /\ has_row (gallery_v4.panel_box 4 (13 / 6) i) y) <->
     0 <= y < 6 * (13 / 6)) /\
  6 * (13 / 6) = 13 - 13 mod 6.
Proof.
  assert (Hr : [Samples.gradient 4 13] !! 0%nat = Some (Samples.gradient 4 13))
    by reflexivity.
  assert (H6 : 6 <= Z.of_N (PIL.height (Samples.gradient 4 13)))
    by (vm_compute; discriminate).
  assert (Ha : forall i, 0 <= i < 6 ->
            gallery_v4.align_horizon_value Samples.luma_601 Samples.tilted
              (strip (Samples.gradient 4 13) i) =
            Return (Samples.pad (strip (Samples.gradient 4 13) i)))
    by (intros i _; reflexivity).
  split; [split; [exact Hr | split; [exact H6 | exact Ha]] |].
  destruct (process_panels_cover_six_panel_heights Samples.luma_601 Samples.tilted
              [Samples.gradient 4 13] 0%nat (Samples.gradient 4 13)
              (fun i => Samples.pad (strip (Samples.gradient 4 13) i)) Hr H6 Ha)
    as (out & s' & _ & _ & Hrows & Hmod & _).
  split; [exact Hrows | exact Hmod].
Defined.

(** C3 as stated fails on a frame of 7 rows: [panel_height] is 1, the last
    of the six boxes ends at row 6 and not at the frame's height 7, row 6 is
    in no panel, and the run creates six panels of one row each and a result
    of 6 rows. *)
Lemma process_drops_remainder_rows :
  let img := Samples.gradient 2 7 in
  gallery_v4.panel_box 2 (7 / 6) 5 = (0, 5, 2, 6) /\
  (forall i, 0 <= i < 6 -> ~ has_row (gallery_v4.panel_box 2 (7 / 6) i) 6) /\
  heights (snd (gallery_v4.process_and_split_image Samples.luma_601 Samples.quiet
                  0%nat [img])) =
  [7; 1; 1; 1; 1; 1; 1; 1; 1; 1; 1; 1; 1; 6; 6].
Proof.
  split; [reflexivity |]. split; [| vm_compute; reflexivity].
  intros i Hi. unfold has_row, gallery_v4.panel_box. change (7 / 6) with 1. lia.
Qed.

Lemma align_horizon_no_lines_witness :
  ([Samples.gradient 3 2] !! 0%nat = Some (Samples.gradient 3 2)) /\
  gallery_v4.align_horizon Samples.luma_601 Samples.quiet 0%nat [Samples.gradient 3 2] =
  (Return 1%nat, [Samples.gradient 3 2; Samples.gradient 3 2]).
Proof.
  split; [reflexivity |].
  apply (align_horizon_no_lines Samples.luma_601 Samples.quiet [Samples.gradient 3 2]
           0%nat (Samples.gradient 3 2)
           (PIL.convert_L Samples.luma_601 (Samples.gradient 3 2))
           eq_refl eq_refl eq_refl eq_refl).
Defined.

Lemma align_horizon_idempotent_no_lines_witness :
  ([Samples.gradient 3 2] !! 0%nat = Some (Samples.gradient 3 2)) /\
  exists (r1 r2 : ref) (s1 s2 : store),
    gallery_v4.align_horizon Samples.luma_601 Samples.quiet 0%nat
      [Samples.gradient 3 2] = (Return r1, s1) /\
    gallery_v4.align_horizon Samples.luma_601 Samples.quiet r1 s1 = (Return r2, s2) /\
    s2 !! r2 = s1 !! r1.
Proof.
  split; [reflexivity |].
  destruct (align_horizon_idempotent_no_lines Samples.luma_601 Samples.quiet
              [Samples.gradient 3 2] 0%nat (Samples.gradient 3 2)
              (PIL.convert_L Samples.luma_601 (Samples.gradient 3 2))
              eq_refl eq_refl eq_refl eq_refl)
    as (r1 & r2 & s1 & s2 & H1 & H2 & H3 & _).
  exists r1, r2, s1, s2. split; [exact H1 | split; [exact H2 | exact H3]].
Defined.

Lemma align_horizon_degenerate_panel_witness :
  ([Samples.solid 0 3 Samples.white] !! 0%nat = Some (Samples.solid 0 3 Samples.white) /\
   (PIL.width (Samples.solid 0 3 Samples.white) = 0%N \/
    PIL.height (Samples.solid 0 3 Samples.white) = 0%N)) /\
  fst (gallery_v4.align_horizon Samples.luma_601 Samples.strict 0%nat
         [Samples.solid 0 3 Samples.white]) <> Return 0%nat.
Proof.
  split; [split; [reflexivity | left; reflexivity] |].
  apply (align_horizon_degenerate_panel Samples.luma_601 Samples.strict
           [Samples.solid 0 3 Samples.white] 0%nat (Samples.solid 0 3 Samples.white)
           eq_refl (or_introl eq_refl)).
Defined.

(** C8 as stated fails: there is no short circuit. On a panel of zero
    width, with an edge detector that rejects an empty raster,
    [align_horizon] raises; with detectors that accept it and find no lines,
    the result is a second object, not the panel that was passed in. The
    same holds for a panel of zero height. *)
Lemma align_horizon_no_short_circuit :
  gallery_v4.align_horizon Samples.luma_601 Samples.strict 0%nat
    [Samples.solid 0 3 Samples.white] =
  (Raise CvError, [Samples.solid 0 3 Samples.white]) /\
  gallery_v4.align_horizon Samples.luma_601 Samples.strict 0%nat
    [Samples.solid 3 0 Samples.white] =
  (Raise CvError, [Samples.solid 3 0 Samples.white]) /\
  gallery_v4.align_horizon Samples.luma_601 Samples.quiet 0%nat
    [Samples.solid 0 3 Samples.white] =
  (Return 1%nat, [Samples.solid 0 3 Samples.white; Samples.solid 0 3 Samples.white]).
Proof. repeat split. Qed.


(** The gallery of an empty list of images. *)
Example combine_gallery_empty (s : store) :
  gallery_v4.combine_gallery [] s = (Return None, s).
Proof. reflexivity. Qed.

Lemma blank_frames_never_processed_witness :
  let st := gallery_v4.collect Samples.luma_601 Samples.tilted Samples.sample_files
              [45007; 45012; 46002; 46011; 46015] (gallery_v4.Loop [] [] []) in
  gallery_v4.trace st =
  [gallery_v4.Is_blank 45007 0%nat true; gallery_v4.Skipping_blank 45007;
   gallery_v4.Error_processing 46002 OSError;
   gallery_v4.Is_blank 46011 1%nat false; gallery_v4.Calls_process 46011 1%nat;
   gallery_v4.Appended 46011 1%nat;
   gallery_v4.Is_blank 46015 2%nat false; gallery_v4.Calls_process 46015 2%nat;
   gallery_v4.Appended 46015 16%nat] /\
  gallery_v4.images st = [1%nat; 16%nat] /\
  (forall id', gallery_v4.Calls_process id' 0%nat ∉ gallery_v4.trace st) /\
  0%nat ∉ gallery_v4.images st.
Proof.
  intros st.
  assert (Ht : gallery_v4.Is_blank 45007 0%nat true ∈ gallery_v4.trace st)
    by (vm_compute; left).
  split; [vm_compute; reflexivity |]. split; [vm_compute; reflexivity |].
  exact (proj1 (blank_frames_never_processed Samples.luma_601 Samples.tilted
                  Samples.sample_files [45007; 45012; 46002; 46011; 46015] [])
           45007 0%nat Ht).
Defined.

(** * Further properties of the scripts *)

(** ** More on the blank test *)

(** If [n > f] then every larger int is above [f] too. *)
Lemma int_gt_float_mono (n n' : Z) (f : Py.float64) :
  n <= n' -> Py.int_gt_float n f = true -> Py.int_gt_float n' f = true.
Proof.
  intros Hn. unfold Py.int_gt_float. destruct f as [s | s | | s m e]; try tauto.
  - intros H. apply Z.ltb_lt in H. apply Z.ltb_lt. lia.
  - destruct (0 <=? e).
    + intros H. apply Z.ltb_lt in H. apply Z.ltb_lt. lia.
    + intros H. apply Z.ltb_lt in H. apply Z.ltb_lt.
      assert (0 <= 2 ^ (- e)) by (apply Z.pow_nonneg; lia). nia.
Qed.

Section BlankMore.

Variable luma : PIL.pixel -> Z.

(** X1. In [gallery_v4.is_blank_image] the test of the white and black buckets
    decides nothing that the test of the largest bucket does not decide: the
    function returns what [max(hist) > 0.95 * total_pixels] returns. *)
Theorem is_blank_image_is_max_test (img : PIL.image) :
  let hist := PIL.histogram (PIL.convert_L luma img) in
  gallery_v4.is_blank_image luma img =
  Py.int_gt_float (Py.max hist) (Py.float_mul_int Py.lit_0_95 (Py.sum hist)).
Proof.
  intros hist. unfold gallery_v4.is_blank_image. fold hist.
  set (f := Py.float_mul_int Py.lit_0_95 (Py.sum hist)).
  destruct (histogram_max (PIL.convert_L luma img)) as [_ Hmax]. fold hist in Hmax.
  destruct (Py.int_gt_float (Py.max hist) f) eqn:Em.
  - destruct (_ || _); reflexivity.
  - assert (Hlast : Py.int_gt_float (Py.final hist) f = false).
    { apply not_true_is_false. intros H.
      unfold hist in H. rewrite histogram_final in H.
      apply (int_gt_float_mono _ (Py.max hist)) in H; [congruence | apply Hmax; lia]. }
    assert (Hfirst : Py.int_gt_float (Py.first hist) f = false).
    { apply not_true_is_false. intros H.
      unfold hist in H. rewrite histogram_first in H.
      apply (int_gt_float_mono _ (Py.max hist)) in H; [congruence | apply Hmax; lia]. }
    rewrite Hlast, Hfirst. reflexivity.
Qed.

Lemma histogram_ext (g g' : PIL.gray) :
  concat g = concat g' -> PIL.histogram g = PIL.histogram g'.
Proof.
  intros H. unfold PIL.histogram. apply map_ext. intros k.
  unfold PIL.bucket. rewrite H. reflexivity.
Qed.

Lemma convert_L_empty (img : PIL.image) :
  PIL.width img = 0%N \/ PIL.height img = 0%N ->
  concat (PIL.convert_L luma img) = [].
Proof.
  intros Hdeg. unfold PIL.convert_L. destruct Hdeg as [-> | ->].
  - change (Py.range (N.to_nat 0)) with (@nil Z).
    induction (Py.range (N.to_nat (PIL.height img))) as [| y l IH];
      [reflexivity | exact IH].
  - reflexivity.
Qed.

(** X2. A frame without pixels (zero width or zero height) is not blank, for
    [gallery_v4] and for [gallery_v2]: no bucket is above [0.95 * 0]. *)
Theorem is_blank_image_empty_frame (img : PIL.image) :
  PIL.width img = 0%N \/ PIL.height img = 0%N ->
  gallery_v4.is_blank_image luma img = false /\
  gallery_v2.is_blank_image luma img = false.
Proof.
  intros Hdeg.
  assert (Hh : PIL.histogram (PIL.convert_L luma img) = PIL.histogram []).
  { apply histogram_ext. rewrite (convert_L_empty img Hdeg). reflexivity. }
  unfold gallery_v4.is_blank_image, gallery_v2.is_blank_image. rewrite Hh.
  split; vm_compute; reflexivity.
Qed.

End BlankMore.

Lemma is_blank_image_empty_frame_witness :
  (PIL.width (Samples.solid 0 3 Samples.white) = 0%N \/
   PIL.height (Samples.solid 0 3 Samples.white) = 0%N) /\
  gallery_v4.is_blank_image Samples.luma_601 (Samples.solid 0 3 Samples.white) = false.
Proof.
  split; [left; reflexivity |].
  apply (is_blank_image_empty_frame Samples.luma_601 (Samples.solid 0 3 Samples.white)).
  left; reflexivity.
Defined.

(** *** The histogram counts every pixel once *)

Lemma sum_map_add {A} (f g : A -> Z) (l : list A) :
  Py.sum (map (fun k => f k + g k) l) = Py.sum (map f l) + Py.sum (map g l).
Proof.
  induction l as [| a l IH]; [reflexivity |].
  cbn [map]. rewrite !sum_cons, IH. lia.
Qed.

Lemma range_succ (n : nat) : Py.range (S n) = Py.range n ++ [Z.of_nat n].
Proof. unfold Py.range. rewrite seq_S, map_app. reflexivity. Qed.

Lemma sum_indicator_range (v : Z) (n : nat) :
  Py.sum (map (fun k => if v =? k then 1 else 0) (Py.range n)) =
  if (0 <=? v) && (v <? Z.of_nat n) then 1 else 0.
Proof.
  induction n as [| n IH].
  - change (Py.range 0) with (@nil Z). cbn [map]. change (Py.sum []) with 0.
    change (Z.of_nat 0) with 0.
    destruct (Z.leb_spec 0 v), (Z.ltb_spec v 0); cbn [andb]; lia.
  - rewrite range_succ, map_app, sum_app, IH. cbn [map]. rewrite sum_cons.
    change (Py.sum []) with 0.
    destruct (Z.leb_spec 0 v), (Z.ltb_spec v (Z.of_nat n)), (Z.eqb_spec v (Z.of_nat n)),
      (Z.ltb_spec v (Z.of_nat (S n))); cbn [andb]; lia.
Qed.

Lemma histogram_total (g : PIL.gray) :
  Py.sum (PIL.histogram g) =
  Z.of_nat (length (List.filter (fun v => (0 <=? v) && (v <? 256)) (concat g))).
Proof.
  unfold PIL.histogram, PIL.bucket. induction (concat g) as [| v l IH].
  - cbn [List.filter length]. induction (Py.range 256) as [| k r IHr]; [reflexivity |].
    cbn [map]. rewrite sum_cons, IHr. reflexivity.
  - transitivity
      (Py.sum (map (fun k => Z.of_nat (length (List.filter (fun v0 => v0 =? k) l)) +
                             (if v =? k then 1 else 0)) (Py.range 256))).
    + f_equal. apply map_ext. intros k. cbn [List.filter].
      destruct (v =? k); cbn [length]; lia.
    + rewrite sum_map_add, IH, sum_indicator_range. cbn [List.filter].
      change (Z.of_nat 256) with 256.
      destruct ((0 <=? v) && (v <? 256)); cbn [length]; lia.
Qed.

Lemma filter_all {A} (p : A -> bool) (l : list A) :
  Forall (fun a => p a = true) l -> List.filter p l = l.
Proof.
  induction 1 as [| a l Ha _ IH]; [reflexivity |].
  cbn [List.filter]. rewrite Ha, IH. reflexivity.
Qed.

Lemma filter_none {A} (p : A -> bool) (l : list A) :
  Forall (fun a => p a = false) l -> List.filter p l = [].
Proof.
  induction 1 as [| a l Ha _ IH]; [reflexivity |].
  cbn [List.filter]. rewrite Ha, IH. reflexivity.
Qed.

Lemma range_length (n : nat) : length (Py.range n) = n.
Proof. unfold Py.range. rewrite length_map, length_seq. reflexivity. Qed.

Lemma length_concat_rows {A B C} (f : A -> B -> C) (rows : list A) (cols : list B) :
  length (concat (map (fun y => map (f y) cols) rows)) =
  (length rows * length cols)%nat.
Proof.
  induction rows as [| y rows IH]; [reflexivity |].
  cbn [map concat length]. rewrite length_app, IH, length_map. lia.
Qed.

Section Uniform.

Variable luma : PIL.pixel -> Z.

Lemma convert_L_length (img : PIL.image) :
  length (concat (PIL.convert_L luma img)) =
  (N.to_nat (PIL.height img) * N.to_nat (PIL.width img))%nat.
Proof.
  unfold PIL.convert_L. rewrite length_concat_rows, !range_length. reflexivity.
Qed.

Lemma convert_L_elements (img : PIL.image) (P : Z -> Prop) :
  (forall x y, PIL.in_bounds img x y = true -> P (luma (PIL.getpixel img x y))) ->
  Forall P (concat (PIL.convert_L luma img)).
Proof.
  intros H. unfold PIL.convert_L. apply Forall_concat, Forall_fmap, Forall_forall.
  intros y Hy. simpl. apply Forall_fmap, Forall_forall. intros x Hx. simpl.
  apply range_elem in Hx, Hy. apply H, in_bounds_intro; lia.
Qed.

(** The total of the histogram is the number of pixels of the frame, when
    the luminance of every pixel is a byte. *)
Lemma histogram_total_pixels (img : PIL.image) :
  (forall x y, PIL.in_bounds img x y = true ->
     0 <= luma (PIL.getpixel img x y) < 256) ->
  Py.sum (PIL.histogram (PIL.convert_L luma img)) =
  Z.of_N (PIL.width img) * Z.of_N (PIL.height img).
Proof.
  intros Hb. rewrite histogram_total, filter_all, convert_L_length; [lia |].
  apply convert_L_elements. intros x y Hin. specialize (Hb x y Hin).
  apply andb_true_intro. split; [apply Z.leb_le | apply Z.ltb_lt]; lia.
Qed.

(** X3. A frame with pixels (fewer than [2^48]) that all have the same
    luminance is blank for [gallery_v4], whatever the luminance; for
    [gallery_v2] it is blank only when the luminance is 255. *)
Theorem is_blank_image_uniform_frame (img : PIL.image) (k : Z) :
  0 <= k < 256 ->
  (forall x y, PIL.in_bounds img x y = true -> luma (PIL.getpixel img x y) = k) ->
  0 < Z.of_N (PIL.width img) * Z.of_N (PIL.height img) < 2 ^ 48 ->
  gallery_v4.is_blank_image luma img = true /\
  (gallery_v2.is_blank_image luma img = true <-> k = 255).
Proof.
  intros Hk Hu Hsize.
  assert (Htot : Py.sum (PIL.histogram (PIL.convert_L luma img)) =
                 Z.of_N (PIL.width img) * Z.of_N (PIL.height img)).
  { apply histogram_total_pixels. intros x y Hin. rewrite (Hu x y Hin). exact Hk. }
  assert (Hall : Forall (fun v => v = k) (concat (PIL.convert_L luma img)))
    by (apply convert_L_elements; exact Hu).
  assert (Hbk : PIL.bucket (PIL.convert_L luma img) k =
                Z.of_N (PIL.width img) * Z.of_N (PIL.height img)).
  { unfold PIL.bucket. rewrite filter_all, convert_L_length; [lia |].
    eapply Forall_impl; [exact Hall |]. intros v ->. apply Z.eqb_refl. }
  assert (Hother : forall j, j <> k -> PIL.bucket (PIL.convert_L luma img) j = 0).
  { intros j Hj. unfold PIL.bucket. rewrite filter_none; [reflexivity |].
    eapply Forall_impl; [exact Hall |]. intros v ->. apply Z.eqb_neq. congruence. }
  split.
  - apply v4_blank_iff; [rewrite Htot; lia |].
    exists k. split; [exact Hk | rewrite Htot, Hbk; lia].
  - rewrite v2_blank_iff by (rewrite Htot; lia). rewrite Htot. split.
    + intros H. destruct (Z.eq_dec k 255) as [? | Hne]; [assumption |].
      rewrite (Hother 255) in H by congruence. lia.
    + intros ->. rewrite Hbk. lia.
Qed.

End Uniform.

Lemma is_blank_image_uniform_frame_witness :
  (0 <= 0 < 256 /\
   (forall x y, PIL.in_bounds (Samples.solid 4 3 PIL.black) x y = true ->
      Samples.luma_601 (PIL.getpixel (Samples.solid 4 3 PIL.black) x y) = 0) /\
   0 < Z.of_N (PIL.width (Samples.solid 4 3 PIL.black)) *
       Z.of_N (PIL.height (Samples.solid 4 3 PIL.black)) < 2 ^ 48) /\
  gallery_v4.is_blank_image Samples.luma_601 (Samples.solid 4 3 PIL.black) = true.
Proof.
  assert (H1 : 0 <= 0 < 256) by lia.
  assert (H2 : forall x y, PIL.in_bounds (Samples.solid 4 3 PIL.black) x y = true ->
                 Samples.luma_601 (PIL.getpixel (Samples.solid 4 3 PIL.black) x y) = 0)
    by (intros x y _; reflexivity).
  assert (H3 : 0 < Z.of_N (PIL.width (Samples.solid 4 3 PIL.black)) *
                   Z.of_N (PIL.height (Samples.solid 4 3 PIL.black)) < 2 ^ 48)
    by (split; reflexivity).
  split; [split; [exact H1 | split; [exact H2 | exact H3]] |].
  exact (proj1 (is_blank_image_uniform_frame Samples.luma_601
                  (Samples.solid 4 3 PIL.black) 0 H1 H2 H3)).
Defined.

(** ** More on process_and_split_image *)

Section ProcessMore.

Variable luma : PIL.pixel -> Z.
Variable V : gallery_v4.Vision.

Lemma strip_size (img : PIL.image) (i : Z) :
  PIL.width (strip img i) = PIL.width img /\
  Z.of_N (PIL.height (strip img i)) = Z.of_N (PIL.height img) / 6.
Proof.
  unfold strip, gallery_v4.panel_box. cbn [PIL.region PIL.width PIL.height].
  assert (0 <= Z.of_N (PIL.height img) / 6) by (apply Z.div_pos; lia).
  split; [rewrite Z.sub_0_r; apply N2Z.id | nia].
Qed.

Lemma strip_pixel (img : PIL.image) (i x y : Z) :
  0 <= i -> 0 <= x < Z.of_N (PIL.width img) ->
  0 <= y < Z.of_N (PIL.height img) / 6 ->
  (i + 1) * (Z.of_N (PIL.height img) / 6) <= Z.of_N (PIL.height img) ->
  PIL.getpixel (strip img i) x y =
  PIL.getpixel img x (i * (Z.of_N (PIL.height img) / 6) + y).
Proof.
  intros Hi Hx Hy Hfit. unfold strip, gallery_v4.panel_box. rewrite region_pixel.
  - f_equal; lia.
  - apply in_bounds_intro; nia.
Qed.

(** X4. A level frame comes back as it went in. On a frame of height
    [H >= 6], when [align_horizon] leaves each of the six panels as it is
    (no lines found, rotation by 0), the result of
    [process_and_split_image] is a new image as wide as the frame, with
    [6 * floor(H / 6)] rows, whose pixels are those of the frame; nothing is
    trimmed. *)
Theorem process_level_frame (s : store) (r : ref) (img : PIL.image) :
  s !! r = Some img ->
  6 <= Z.of_N (PIL.height img) ->
  (forall i, 0 <= i < 6 ->
     gallery_v4.align_horizon_value luma V (strip img i) = Return (strip img i)) ->
  exists (out : PIL.image) (s' : store),
    gallery_v4.process_and_split_image luma V r s = (Return (length s + 13)%nat, s') /\
    s' !! (length s + 13)%nat = Some out /\
    PIL.width out = PIL.width img /\
    Z.of_N (PIL.height out) = 6 * (Z.of_N (PIL.height img) / 6) /\
    (forall x y, 0 <= x < Z.of_N (PIL.width img) ->
       0 <= y < 6 * (Z.of_N (PIL.height img) / 6) ->
       PIL.getpixel out x y = PIL.getpixel img x y).
Proof.
  intros Hr H6 Ha.
  destruct (process_run luma V s r img (strip img) Hr H6 Ha) as [_ Hrun].
  set (ph := Z.of_N (PIL.height img) / 6) in *.
  assert (Hph : 1 <= ph) by (unfold ph; apply Z.div_le_lower_bound; lia).
  assert (Hfit : 6 * ph <= Z.of_N (PIL.height img))
    by (unfold ph; apply Z.mul_div_le; lia).
  assert (Hh : forall i, Z.of_N (PIL.height (strip img i)) = ph)
    by (intros i; apply strip_size).
  set (panels := map (strip img) (Py.range 6)) in *.
  assert (Hcomb : Py.sum (heights panels) = 6 * ph).
  { unfold panels, heights. change (Py.range 6) with [0; 1; 2; 3; 4; 5]. cbn [map].
    rewrite !sum_cons, !Hh. change (Py.sum []) with 0. lia. }
  rewrite Hcomb, !Hh in Hrun.
  replace (Z.max 0 (ph - ph)) with 0 in Hrun by lia.
  replace (6 * ph - 0) with (6 * ph) in Hrun by lia.
  set (canvas := stacked (PIL.Image (Z.to_N (Z.of_N (PIL.width img))) (Z.to_N (6 * ph))
                            (fun _ _ => PIL.black)) panels 0) in *.
  destruct (stacked_size (PIL.Image (Z.to_N (Z.of_N (PIL.width img))) (Z.to_N (6 * ph))
                            (fun _ _ => PIL.black)) panels 0) as [Hsw Hsh].
  fold canvas in Hsw, Hsh. cbn [PIL.width PIL.height] in Hsw, Hsh.
  eexists. eexists. split; [exact Hrun |].
  split; [| split; [| split]].
  - rewrite app_assoc.
    replace (length s + 13)%nat
      with (length (s ++ loop_objects img (strip img) (Py.range 6)) + 1)%nat
      by (rewrite length_app; cbn; lia).
    apply lookup_after. reflexivity.
  - cbn [PIL.region PIL.width]. rewrite Z.sub_0_r. apply N2Z.id.
  - cbn [PIL.region PIL.height]. lia.
  - intros x y Hx Hy. rewrite region_pixel.
    2:{ apply in_bounds_intro; [rewrite Hsw | rewrite Hsh]; lia. }
    rewrite !Z.add_0_r.
    assert (Hk : 0 <= y / ph < 6).
    { split; [apply Z.div_pos; lia | apply Z.div_lt_upper_bound; lia]. }
    pose proof (Z.div_mod y ph ltac:(lia)) as Hdm.
    pose proof (Z.mod_pos_bound y ph ltac:(lia)) as Hmb.
    assert (Hpix : forall (k : nat) (i : Z),
               panels !! k = Some (strip img i) ->
               Py.sum (heights (take k panels)) = i * ph -> i = y / ph ->
               0 <= i < 6 ->
               PIL.getpixel canvas x y = PIL.getpixel img x y).
    { intros k i Hlk Hoff Hi Hi6.
      replace y with (0 + Py.sum (heights (take k panels)) + y mod ph) at 1
        by (rewrite Hoff, Hi; lia).
      unfold canvas. rewrite (stacked_pixel _ _ _ k (strip img i)); [| exact Hlk |].
      - rewrite strip_pixel; [f_equal; rewrite Hi; lia | lia | lia | fold ph; lia | fold ph; nia].
      - apply in_bounds_intro; [rewrite (proj1 (strip_size img i)); lia | rewrite Hh; lia]. }
    assert (Hoffs : forall k : nat, (k <= 6)%nat ->
               Py.sum (heights (take k panels)) = Z.of_nat k * ph).
    { intros k Hk6. unfold panels, heights.
      change (Py.range 6) with [0; 1; 2; 3; 4; 5].
      do 7 (destruct k as [| k]; [cbn [take map]; rewrite ?sum_cons, ?Hh;
                                  change (Py.sum []) with 0; lia |]).
      lia. }
    apply (Hpix (Z.to_nat (y / ph)) (y / ph)); try lia.
    + unfold panels. rewrite list_lookup_fmap, range_lookup by lia. reflexivity.
    + rewrite Hoffs by lia. lia.
Qed.

(** X5. The trimming touches the first and the last panel only. On a frame of
    height at least 6 whose six panels can be aligned, each of the four
    inner aligned panels is found whole in the result (as far as it fits in
    the frame width), at the row that is the sum of the heights of the
    aligned panels before it, less [trim_top]. *)
Theorem process_keeps_inner_panels (s : store) (r : ref) (img : PIL.image)
        (aligned : Z -> PIL.image) :
  s !! r = Some img ->
  6 <= Z.of_N (PIL.height img) ->
  (forall i, 0 <= i < 6 ->
     gallery_v4.align_horizon_value luma V (strip img i) = Return (aligned i)) ->
  let width := Z.of_N (PIL.width img) in
  let panel_height := Z.of_N (PIL.height img) / 6 in
  let panels := map aligned (Py.range 6) in
  let trim_top := Z.max 0 (Z.of_N (PIL.height (aligned 0)) - panel_height) in
  exists (out : PIL.image) (s' : store),
    gallery_v4.process_and_split_image luma V r s = (Return (length s + 13)%nat, s') /\
    s' !! (length s + 13)%nat = Some out /\
    (forall (k : nat) (x y : Z),
       (1 <= k <= 4)%nat ->
       PIL.in_bounds (aligned (Z.of_nat k)) x y = true -> x < width ->
       PIL.in_bounds out x (Py.sum (heights (take k panels)) - trim_top + y) = true /\
       PIL.getpixel out x (Py.sum (heights (take k panels)) - trim_top + y) =
       PIL.getpixel (aligned (Z.of_nat k)) x y).
Proof.
  intros Hr H6 Ha width panel_height panels trim_top.
  destruct (process_run luma V s r img aligned Hr H6 Ha) as [Htrim Hrun].
  fold width panel_height panels trim_top in Htrim, Hrun.
  set (combined_height := Py.sum (heights panels)) in *.
  set (trim_bottom := Z.max 0 (Z.of_N (PIL.height (aligned 5)) - panel_height)) in *.
  set (canvas := stacked (PIL.Image (Z.to_N width) (Z.to_N combined_height)
                            (fun _ _ => PIL.black)) panels 0) in *.
  destruct (stacked_size (PIL.Image (Z.to_N width) (Z.to_N combined_height)
                            (fun _ _ => PIL.black)) panels 0) as [Hsw Hsh].
  fold canvas in Hsw, Hsh. cbn [PIL.width PIL.height] in Hsw, Hsh.
  assert (Hph : 1 <= panel_height).
  { unfold panel_height. apply Z.div_le_lower_bound; lia. }
  pose proof (sum_nonneg _ (heights_nonneg panels)) as Hc0. fold combined_height in Hc0.
  eexists. eexists. split; [exact Hrun |]. split.
  - rewrite app_assoc.
    replace (length s + 13)%nat
      with (length (s ++ loop_objects img aligned (Py.range 6)) + 1)%nat
      by (rewrite length_app; cbn; lia).
    apply lookup_after. reflexivity.
  - intros k x y Hk Hin Hx.
    apply in_bounds_elim in Hin as Hxy.
    assert (Hlk : panels !! k = Some (aligned (Z.of_nat k))).
    { unfold panels. rewrite list_lookup_fmap.
      replace k with (Z.to_nat (Z.of_nat k)) at 1 by lia.
      rewrite range_lookup by lia. reflexivity. }
    assert (Hrows : trim_top <= Py.sum (heights (take k panels)) /\
                    Py.sum (heights (take k panels)) +
                      Z.of_N (PIL.height (aligned (Z.of_nat k))) <=
                    combined_height - trim_bottom).
    { unfold combined_height, panels, heights, trim_top, trim_bottom.
      change (Py.range 6) with [0; 1; 2; 3; 4; 5].
      assert (Hcases : k = 1%nat \/ k = 2%nat \/ k = 3%nat \/ k = 4%nat) by lia.
      destruct Hcases as [-> | [-> | [-> | ->]]];
        [change (Z.of_nat 1) with 1 | change (Z.of_nat 2) with 2
        | change (Z.of_nat 3) with 3 | change (Z.of_nat 4) with 4];
        cbn [take map]; rewrite !sum_cons; change (Py.sum []) with 0; lia. }
    set (off := Py.sum (heights (take k panels))) in *.
    split.
    + apply in_bounds_intro; cbn [PIL.region PIL.width PIL.height];
        unfold width in *; lia.
    + rewrite region_pixel.
      * replace (x + 0) with x by lia.
        replace (off - trim_top + y + trim_top) with (0 + off + y) by lia.
        unfold canvas, off. apply stacked_pixel; [exact Hlk |].
        apply in_bounds_intro; lia.
      * apply in_bounds_intro; [rewrite Hsw; unfold width in *; lia | rewrite Hsh; lia].
Qed.

(** The split-and-align loop when a panel cannot be aligned: the rounds
    before it have added their objects, the panel that fails has been
    cropped, and the exception of [align_horizon] comes out. *)
Lemma split_align_raise (r : ref) (img : PIL.image) (aligned : Z -> PIL.image)
      (before after : list Z) (k : Z) (e : exn) (s : store) :
  s !! r = Some img ->
  (forall i, i ∈ before ->
     gallery_v4.align_horizon_value luma V (strip img i) = Return (aligned i)) ->
  gallery_v4.align_horizon_value luma V (strip img k) = Raise e ->
  mapM (fun i =>
          let* panel :=
            Image_crop r (gallery_v4.panel_box (Z.of_N (PIL.width img))
                            (Z.of_N (PIL.height img) / 6) i) in
          gallery_v4.align_horizon luma V panel)
       (before ++ k :: after) s =
  (Raise e, s ++ loop_objects img aligned before ++ [strip img k]).
Proof.
  revert s. induction before as [| i before IH]; intros s Hr Ha He.
  - cbn [app mapM loop_objects flat_map]. rewrite bind_assoc.
    assert (Hph : 0 <= Z.of_N (PIL.height img) / 6) by (apply Z.div_pos; lia).
    unfold gallery_v4.panel_box at 1.
    rewrite (bind_return _ _ _ _ _
               (Image_crop_run s r img 0 (k * (Z.of_N (PIL.height img) / 6))
                  (Z.of_N (PIL.width img)) ((k + 1) * (Z.of_N (PIL.height img) / 6))
                  Hr ltac:(lia) ltac:(nia))).
    fold (gallery_v4.panel_box (Z.of_N (PIL.width img)) (Z.of_N (PIL.height img) / 6) k).
    fold (strip img k).
    rewrite (bind_raise _ _ _ _ _
               (align_horizon_raise luma V (s ++ [strip img k]) (length s) (strip img k)
                  e (lookup_last s (strip img k)) He)).
    reflexivity.
  - rewrite <- app_comm_cons. cbn [mapM]. rewrite bind_assoc.
    assert (Hph : 0 <= Z.of_N (PIL.height img) / 6) by (apply Z.div_pos; lia).
    unfold gallery_v4.panel_box at 1.
    rewrite (bind_return _ _ _ _ _
               (Image_crop_run s r img 0 (i * (Z.of_N (PIL.height img) / 6))
                  (Z.of_N (PIL.width img)) ((i + 1) * (Z.of_N (PIL.height img) / 6))
                  Hr ltac:(lia) ltac:(nia))).
    fold (gallery_v4.panel_box (Z.of_N (PIL.width img)) (Z.of_N (PIL.height img) / 6) i).
    fold (strip img i).
    rewrite (bind_return _ _ _ _ _
               (align_horizon_run luma V (s ++ [strip img i]) (length s) (strip img i)
                  (aligned i) (lookup_last s (strip img i)) (Ha i ltac:(left)))).
    rewrite (bind_raise _ _ _ _ _
               (IH ((s ++ [strip img i]) ++ [aligned i])
                  ltac:(rewrite !lookup_app_l;
                        [exact Hr | eapply lookup_lt_Some, Hr
                        | rewrite length_app; apply lookup_lt_Some in Hr; lia])
                  ltac:(intros j Hj; apply Ha; right; exact Hj) He)).
    f_equal. unfold loop_objects. cbn [flat_map]. rewrite <- !app_assoc. reflexivity.
Qed.

Lemma process_first_failure_run (s : store) (r : ref) (img : PIL.image)
      (aligned : Z -> PIL.image) (k : Z) (e : exn) :
  s !! r = Some img ->
  6 <= Z.of_N (PIL.height img) ->
  0 <= k < 6 ->
  (forall i, 0 <= i < k ->
     gallery_v4.align_horizon_value luma V (strip img i) = Return (aligned i)) ->
  gallery_v4.align_horizon_value luma V (strip img k) = Raise e ->
  exists t, gallery_v4.process_and_split_image luma V r s = (Raise e, s ++ t).
Proof.
  intros Hr H6 Hk Ha He.
  assert (Hsplit : exists after, Py.range 6 = Py.range (Z.to_nat k) ++ k :: after).
  { assert (Hcases : k = 0 \/ k = 1 \/ k = 2 \/ k = 3 \/ k = 4 \/ k = 5) by lia.
    destruct Hcases as [-> | [-> | [-> | [-> | [-> | ->]]]]];
      eexists; reflexivity. }
  destruct Hsplit as [after Hsplit].
  exists (loop_objects img aligned (Py.range (Z.to_nat k)) ++ [strip img k]).
  unfold gallery_v4.process_and_split_image.
  rewrite (bind_return _ _ _ _ _ (Image_width_run _ _ _ Hr)).
  rewrite (bind_return _ _ _ _ _ (Image_height_run _ _ _ Hr)).
  destruct (Z.ltb_spec (Z.of_N (PIL.height img)) 6) as [? | _]; [lia |].
  rewrite Hsplit. apply bind_raise.
  apply (split_align_raise r img aligned (Py.range (Z.to_nat k)) after k e s Hr);
    [| exact He].
  intros i Hi. apply range_elem in Hi. apply Ha. lia.
Qed.

(** X6. [process_and_split_image] stops at the first panel that
    [align_horizon] cannot align. On a frame of height at least 6, when
    the panels before panel [k] are aligned and aligning panel [k] raises,
    the call raises the same exception; the store then holds the objects of
    the rounds before, and panel [k] itself; no canvas has been created. *)
Theorem process_raises_at_first_failure (s : store) (r : ref) (img : PIL.image)
        (aligned : Z -> PIL.image) (k : Z) (e : exn) :
  s !! r = Some img ->
  6 <= Z.of_N (PIL.height img) ->
  0 <= k < 6 ->
  (forall i, 0 <= i < k ->
     gallery_v4.align_horizon_value luma V (strip img i) = Return (aligned i)) ->
  gallery_v4.align_horizon_value luma V (strip img k) = Raise e ->
  gallery_v4.process_and_split_image luma V r s =
  (Raise e, s ++ loop_objects img aligned (Py.range (Z.to_nat k)) ++ [strip img k]).
Proof.
  intros Hr H6 Hk Ha He. unfold gallery_v4.process_and_split_image.
  rewrite (bind_return _ _ _ _ _ (Image_width_run _ _ _ Hr)).
  rewrite (bind_return _ _ _ _ _ (Image_height_run _ _ _ Hr)).
  destruct (Z.ltb_spec (Z.of_N (PIL.height img)) 6) as [? | _]; [lia |].
  assert (Hsplit : exists after, Py.range 6 = Py.range (Z.to_nat k) ++ k :: after).
  { assert (Hcases : k = 0 \/ k = 1 \/ k = 2 \/ k = 3 \/ k = 4 \/ k = 5) by lia.
    destruct Hcases as [-> | [-> | [-> | [-> | [-> | ->]]]]];
      eexists; reflexivity. }
  destruct Hsplit as [after ->].
  apply bind_raise.
  apply (split_align_raise r img aligned (Py.range (Z.to_nat k)) after k e s Hr);
    [| exact He].
  intros i Hi. apply range_elem in Hi. apply Ha. lia.
Qed.

End ProcessMore.

(** ** Objects that exist are never changed *)

Lemma keeps_ret n {A} (a : A) : keeps n (ret a).
Proof. intros s s' o Hn H. injection H as _ <-. auto. Qed.

Lemma keeps_raise n {A} (e : exn) : keeps n (@raise A e).
Proof. intros s s' o Hn H. injection H as _ <-. auto. Qed.

Lemma keeps_lift n {A} (x : outcome A) : keeps n (lift x).
Proof. intros s s' o Hn H. injection H as _ <-. auto. Qed.

Lemma keeps_deref n (r : ref) : keeps n (deref r).
Proof.
  intros s s' o Hn H. unfold deref in H.
  destruct (s !! r); injection H as _ <-; auto.
Qed.

Lemma keeps_alloc n (v : PIL.image) : keeps n (alloc v).
Proof.
  intros s s' o Hn H. injection H as _ <-. rewrite length_app. split; [lia |].
  apply take_app_le. exact Hn.
Qed.

Lemma keeps_assign n (r : ref) (v : PIL.image) :
  (n <= r)%nat -> keeps n (assign r v).
Proof.
  intros Hr s s' o Hn H. injection H as _ <-. rewrite length_insert.
  split; [exact Hn | apply take_insert_ge; exact Hr].
Qed.

(** Sequencing, with what is known of the value handed on. *)
Lemma keeps_bind_post n {A B} (m : M A) (k : A -> M B) (Q : A -> Prop) :
  keeps n m ->
  (forall s s1 a, (n <= length s)%nat -> m s = (Return a, s1) -> Q a) ->
  (forall a, Q a -> keeps n (k a)) ->
  keeps n (bind m k).
Proof.
  intros Hm HQ Hk s s' o Hn H. unfold bind in H.
  destruct (m s) as [[a | e] s1] eqn:E.
  - destruct (Hm _ _ _ Hn E) as [Hn1 Ht1].
    destruct (Hk a (HQ _ _ _ Hn E) _ _ _ Hn1 H) as [Hn2 Ht2].
    split; [exact Hn2 | congruence].
  - injection H as _ <-. exact (Hm _ _ _ Hn E).
Qed.

Lemma keeps_bind n {A B} (m : M A) (k : A -> M B) :
  keeps n m -> (forall a, keeps n (k a)) -> keeps n (bind m k).
Proof.
  intros Hm Hk. apply (keeps_bind_post n m k (fun _ => True)); auto.
Qed.

Lemma keeps_mapM n {A B} (f : A -> M B) (l : list A) :
  (forall x, keeps n (f x)) -> keeps n (mapM f l).
Proof.
  intros Hf. induction l as [| x l IH]; cbn [mapM].
  - apply keeps_ret.
  - apply keeps_bind; [apply Hf | intros y].
    apply keeps_bind; [exact IH | intros ys; apply keeps_ret].
Qed.

Lemma keeps_foldM n {A B} (f : B -> A -> M B) (l : list A) (acc : B) :
  (forall b x, keeps n (f b x)) -> keeps n (foldM f acc l).
Proof.
  intros Hf. revert acc. induction l as [| x l IH]; intros acc; cbn [foldM].
  - apply keeps_ret.
  - apply keeps_bind; [apply Hf | intros b; apply IH].
Qed.

Lemma keeps_index n {A} (l : list A) (i : Z) : keeps n (index l i).
Proof.
  unfold index. destruct (_ <? 0); [apply keeps_raise |].
  destruct (l !! _); [apply keeps_ret | apply keeps_raise].
Qed.

Create HintDb keeps discriminated.

#[local] Hint Resolve keeps_ret keeps_raise keeps_lift keeps_deref keeps_alloc
  keeps_index : keeps.

Ltac keeps_step :=
  first [ apply keeps_bind; [| intros ?]
        | apply keeps_mapM; intros ?
        | apply keeps_foldM; intros ? ?
        | solve [auto with keeps] ].

Lemma keeps_Image_width n (r : ref) : keeps n (Image_width r).
Proof. unfold Image_width. repeat keeps_step. Qed.

Lemma keeps_Image_height n (r : ref) : keeps n (Image_height r).
Proof. unfold Image_height. repeat keeps_step. Qed.

Lemma keeps_Image_new n (w h : Z) : keeps n (Image_new w h).
Proof. unfold Image_new. repeat keeps_step. Qed.

Lemma keeps_Image_crop n (r : ref) (b : PIL.box) : keeps n (Image_crop r b).
Proof. unfold Image_crop. repeat keeps_step. Qed.

#[local] Hint Resolve keeps_Image_width keeps_Image_height keeps_Image_new
  keeps_Image_crop : keeps.

(** Pasting changes the canvas and nothing else. *)
Lemma keeps_Image_paste n (c r : ref) (x y : Z) :
  (n <= c)%nat -> keeps n (Image_paste c r x y).
Proof.
  intros Hc. unfold Image_paste. repeat keeps_step. apply keeps_assign, Hc.
Qed.

Lemma keeps_paste_all n (c : ref) (rs : list ref) :
  (n <= c)%nat -> keeps n (gallery_v4.paste_all c rs).
Proof.
  intros Hc. unfold gallery_v4.paste_all. apply keeps_foldM. intros b r.
  apply keeps_bind; [apply keeps_Image_paste, Hc | intros ?].
  repeat keeps_step.
Qed.

Lemma keeps_align_horizon n luma V (r : ref) :
  keeps n (gallery_v4.align_horizon luma V r).
Proof. unfold gallery_v4.align_horizon. repeat keeps_step. Qed.

#[local] Hint Resolve keeps_align_horizon : keeps.

Lemma Image_new_fresh n (w h : Z) (s s1 : store) (c : ref) :
  (n <= length s)%nat -> Image_new w h s = (Return c, s1) -> (n <= c)%nat.
Proof.
  intros Hn H. unfold Image_new in H.
  apply bind_inv in H as (v & s0 & Hl & H).
  unfold lift in Hl. injection Hl as _ <-.
  unfold alloc in H. injection H as <- _. exact Hn.
Qed.

Lemma keeps_process n luma V (r : ref) :
  keeps n (gallery_v4.process_and_split_image luma V r).
Proof.
  unfold gallery_v4.process_and_split_image.
  apply keeps_bind; [auto with keeps | intros w].
  apply keeps_bind; [auto with keeps | intros h].
  destruct (h <? 6); [apply keeps_ret |].
  apply keeps_bind; [repeat keeps_step | intros ap].
  apply keeps_bind; [repeat keeps_step | intros hs].
  apply (keeps_bind_post n _ _ (fun c => (n <= c)%nat)).
  - auto with keeps.
  - intros s s1 c Hn H. exact (Image_new_fresh n _ _ _ _ _ Hn H).
  - intros c Hc. apply keeps_bind; [apply keeps_paste_all, Hc | intros ?].
    repeat keeps_step.
Qed.

Lemma keeps_prefix {A} (m : M A) (s s' : store) (o : outcome A) :
  keeps (length s) m -> m s = (o, s') -> exists t, s' = s ++ t.
Proof.
  intros Hk H. destruct (Hk s s' o (le_n _) H) as [_ Ht].
  exists (drop (length s) s').
  rewrite <- (take_drop (length s) s') at 1. rewrite Ht, firstn_all. reflexivity.
Qed.

(** X7. [process_and_split_image] never changes an object that exists when it
    is called, whether it returns or raises: the store afterwards is the
    store before, followed by the objects created during the call. The
    frame it is given is only read. *)
Theorem process_only_adds_objects luma V (r : ref) (s s' : store)
        (o : outcome ref) :
  gallery_v4.process_and_split_image luma V r s = (o, s') ->
  (exists t, s' = s ++ t) /\
  (forall (r0 : ref) (v : PIL.image), s !! r0 = Some v -> s' !! r0 = Some v).
Proof.
  intros H.
  destruct (keeps_prefix _ _ _ _ (keeps_process _ luma V r) H) as [t ->].
  split; [exists t; reflexivity |].
  intros r0 v Hv. rewrite lookup_app_l; [exact Hv |].
  eapply lookup_lt_Some, Hv.
Qed.

(** ** More on the gallery *)

Lemma combine_gallery_run (s : store) (rs : list ref) (vs : list PIL.image) :
  bound s rs vs -> rs <> [] ->
  gallery_v4.combine_gallery rs s =
  (Return (Some (length s)), s ++ [stacked (gallery_canvas vs) vs 0]).
Proof.
  intros Hb Hne.
  assert (Hvs : widths vs <> []) by (destruct Hb; [congruence | discriminate]).
  destruct (max_spec (widths vs) Hvs) as [Hmax_in _].
  assert (Hw0 : 0 <= Py.max (widths vs)).
  { pose proof (widths_nonneg vs) as Hnn. rewrite Forall_forall in Hnn. apply Hnn, Hmax_in. }
  pose proof (sum_nonneg _ (heights_nonneg vs)) as Hh0.
  unfold gallery_v4.combine_gallery. destruct rs as [| r0 rs0]; [congruence |].
  rewrite (bind_return _ _ _ _ _ (mapM_width_run _ _ _ Hb)).
  rewrite (bind_return _ _ _ _ _ (mapM_height_run _ _ _ Hb)).
  rewrite (bind_return _ _ _ _ _ (Image_new_run _ _ _ Hw0 Hh0)).
  fold (gallery_canvas vs). unfold gallery_v4.paste_all.
  rewrite (bind_return _ _ _ _ _
             (paste_all_run (s ++ [gallery_canvas vs]) (length s) (r0 :: rs0) vs
                (gallery_canvas vs) 0
                (lookup_last s (gallery_canvas vs)) (bound_app_store _ _ _ _ Hb)
                (bound_fresh _ _ _ Hb))).
  unfold ret. rewrite insert_last. reflexivity.
Qed.



Lemma bound_exists (s : store) (rs : list ref) :
  (forall r, r ∈ rs -> (r < length s)%nat) -> exists vs, bound s rs vs.
Proof.
  induction rs as [| r rs IH]; intros H.
  - exists []. constructor.
  - destruct IH as [vs Hvs]; [intros r' Hr'; apply H; right; exact Hr' |].
    destruct (lookup_lt_is_Some_2 s r (H r ltac:(left))) as [v Hv].
    exists (v :: vs). constructor; assumption.
Qed.

Lemma keeps_combine_gallery n (rs : list ref) :
  keeps n (gallery_v4.combine_gallery rs).
Proof.
  unfold gallery_v4.combine_gallery. destruct rs as [| r rs]; [apply keeps_ret |].
  apply keeps_bind; [repeat keeps_step | intros ws].
  apply keeps_bind; [repeat keeps_step | intros hs].
  apply (keeps_bind_post n _ _ (fun c => (n <= c)%nat)).
  - auto with keeps.
  - intros s s1 c Hn H. exact (Image_new_fresh n _ _ _ _ _ Hn H).
  - intros c Hc. apply keeps_bind; [apply keeps_paste_all, Hc | intros ?].
    apply keeps_ret.
Qed.

Section GalleryMore.

Variable luma : PIL.pixel -> Z.
Variable V : gallery_v4.Vision.
Variable F : gallery_v4.Files.

Lemma visit_only_adds (st : gallery_v4.loop_state) (buoy_id : Z) :
  exists t, gallery_v4.heap (gallery_v4.visit luma V F st buoy_id) =
            gallery_v4.heap st ++ t.
Proof.
  unfold gallery_v4.visit.
  destruct (gallery_v4.fetch_buoy_image F buoy_id) as [p |];
    [| exists []; rewrite app_nil_r; reflexivity].
  unfold gallery_v4.Image_open, lift, bind at 1, alloc.
  destruct (gallery_v4.open_file F p) as [v | e];
    [| exists []; rewrite app_nil_r; reflexivity].
  rewrite (bind_return _ _ _ _ _ (deref_run _ _ _ (lookup_last (gallery_v4.heap st) v))).
  unfold ret.
  destruct (gallery_v4.is_blank_image luma v); [exists [v]; reflexivity |].
  destruct (gallery_v4.process_and_split_image luma V (length (gallery_v4.heap st))
              (gallery_v4.heap st ++ [v])) as [[p' | e] s3] eqn:Ep;
    destruct (keeps_prefix _ _ _ _ (keeps_process _ luma V _) Ep) as [t ->];
    exists ([v] ++ t); cbn [gallery_v4.heap]; rewrite <- app_assoc; reflexivity.
Qed.

Lemma collect_only_adds (ids : list Z) (st : gallery_v4.loop_state) :
  exists t, gallery_v4.heap (gallery_v4.collect luma V F ids st) =
            gallery_v4.heap st ++ t.
Proof.
  revert st. induction ids as [| id ids IH]; intros st.
  - exists []. rewrite app_nil_r. reflexivity.
  - unfold gallery_v4.collect. cbn [fold_left].
    destruct (IH (gallery_v4.visit luma V F st id)) as [t2 H2].
    destruct (visit_only_adds st id) as [t1 H1].
    exists (t1 ++ t2). unfold gallery_v4.collect in H2. rewrite H2, H1, app_assoc.
    reflexivity.
Qed.

(** X9. [create_gallery] never raises and never changes an object that exists
    when it starts: whatever the downloads, the decoder and the detectors
    do, the call returns; it returns [None] exactly when the loop has
    collected no image; and the final store is the initial one followed by
    new objects. *)
Theorem create_gallery_always_returns (s : store) :
  let st := gallery_v4.collect luma V F gallery_v4.buoy_ids (gallery_v4.Loop [] s []) in
  exists (o : option ref) (t : store),
    gallery_v4.create_gallery luma V F s = (Return o, s ++ t, gallery_v4.trace st) /\
    (o = None <-> gallery_v4.images st = []).
Proof.
  intros st. unfold gallery_v4.create_gallery. fold st.
  destruct (loop_invariant_collect luma V F gallery_v4.buoy_ids _
              (loop_invariant_start luma F s)) as [Himg _ _ _ _].
  fold st in Himg.
  destruct (collect_only_adds gallery_v4.buoy_ids (gallery_v4.Loop [] s [])) as [t0 Ht0].
  fold st in Ht0. cbn [gallery_v4.heap] in Ht0.
  destruct (gallery_v4.images st) as [| r rs] eqn:Ei.
  - exists None, t0. rewrite Ht0. split; [reflexivity | tauto].
  - destruct (bound_exists _ _ Himg) as [vs Hvs].
    rewrite (combine_gallery_run _ _ _ Hvs ltac:(discriminate)).
    exists (Some (length (gallery_v4.heap st))), (t0 ++ [stacked (gallery_canvas vs) vs 0]).
    rewrite Ht0, <- app_assoc. split; [reflexivity |].
    split; discriminate.
Qed.

End GalleryMore.

(** ** gallery.py: the loop and the gallery *)

Lemma omap_cons {A B} (f : A -> option B) (x : A) (l : list A) :
  omap f (x :: l) =
  match f x with Some y => y :: omap f l | None => omap f l end.
Proof. reflexivity. Qed.

Lemma list_insert_same (s : store) (g : ref) (v : PIL.image) :
  s !! g = Some v -> <[g := v]> s = s.
Proof. apply list_insert_id. Qed.

Lemma paste_step_run (g : ref) (img : gallery.ImageFile) (s : store)
      (canvas : PIL.image) (y : Z) :
  s !! g = Some canvas ->
  (let* _ := gallery.paste g img 0 y in ret (y + gallery.height img)) s =
  match gallery.loaded img with
  | Return v =>
      (Return (y + gallery.height img), <[g := PIL.paste_value canvas v 0 y]> s)
  | Raise e => (Raise e, s)
  end.
Proof.
  intros Hg. unfold gallery.paste, bind, lift, deref, assign, ret.
  destruct (gallery.loaded img); [rewrite Hg |]; reflexivity.
Qed.

Lemma paste_files_run (g : ref) (images : list gallery.ImageFile)
      (s : store) (canvas : PIL.image) (y : Z) :
  s !! g = Some canvas ->
  exists y' : Z,
    foldM (fun y_offset img =>
             let* _ := gallery.paste g img 0 y_offset in
             ret (y_offset + gallery.height img))
          y images s =
    (match snd (loaded_prefix images) with
     | None => Return y'
     | Some e => Raise e
     end,
     <[g := stacked canvas (fst (loaded_prefix images)) y]> s).
Proof.
  revert s canvas y. induction images as [| img images IH]; intros s canvas y Hg.
  - exists y. cbn. unfold ret. rewrite (list_insert_same _ _ _ Hg). reflexivity.
  - cbn [foldM loaded_prefix].
    pose proof (paste_step_run g img s canvas y Hg) as Hstep.
    destruct (gallery.loaded img) as [v | e] eqn:El.
    + rewrite (bind_return _ _ _ _ _ Hstep).
      assert (Hh : gallery.height img = Z.of_N (PIL.height v)).
      { unfold gallery.loaded in El. destruct (gallery.load img); [| discriminate].
        injection El as <-. reflexivity. }
      assert (Hg' : <[g := PIL.paste_value canvas v 0 y]> s !! g =
                    Some (PIL.paste_value canvas v 0 y)).
      { apply list_lookup_insert_eq. eapply lookup_lt_Some, Hg. }
      destruct (IH _ _ (y + gallery.height img) Hg') as [y' Hrun].
      exists y'. rewrite Hrun.
      destruct (loaded_prefix images) as [vs failure]. cbn [fst snd stacked].
      rewrite list_insert_insert_eq, Hh. reflexivity.
    + exists y. rewrite (bind_raise _ _ _ _ _ Hstep).
      cbn [fst snd stacked]. rewrite (list_insert_same _ _ _ Hg). reflexivity.
Qed.

Section GalleryPy.

Variable F : gallery.Files.

Lemma gallery_collect_run (ids : list Z) (images : list gallery.ImageFile) :
  gallery.collect F ids images = images ++ omap (opened_of F) ids.
Proof.
  revert images. induction ids as [| id ids IH]; intros images.
  - cbn. rewrite app_nil_r. reflexivity.
  - unfold gallery.collect. cbn [fold_left].
    fold (gallery.collect F ids (gallery.visit F images id)). rewrite IH, omap_cons.
    unfold gallery.visit, opened_of.
    destruct (gallery.fetch_buoy_image F id) as [p |]; [| reflexivity].
    destruct (gallery.Image_open F p) as [img | e]; [| reflexivity].
    rewrite <- app_assoc. reflexivity.
Qed.

Lemma header_sizes_nonneg (images : list gallery.ImageFile) :
  Forall (fun x => 0 <= x) (map gallery.width images) /\
  Forall (fun x => 0 <= x) (map gallery.height images).
Proof.
  split; induction images as [| img images IH]; cbn [map]; constructor;
    try exact IH; [unfold gallery.width | unfold gallery.height]; lia.
Qed.

(** X10. [create_gallery] of [gallery.py] takes every file that is downloaded
    and that [Image.open] identifies, in the order of the buoy list, without
    a blank test and without processing. With no such file it returns
    [None] and the store is as before. Otherwise it creates one object, the
    gallery, black and of the maximal width and the total height of the
    headers, and pastes the images one under the other as long as they
    load: when all load, it returns the gallery; when one does not, the
    exception of the first such file leaves [create_gallery], with the
    images before it pasted. *)
Theorem gallery_py_create_gallery_outcome (s : store) :
  let images := omap (opened_of F) gallery.buoy_ids in
  gallery.create_gallery F s =
  match images with
  | [] => (Return None, s)
  | _ :: _ =>
      (match snd (loaded_prefix images) with
       | None => Return (Some (length s))
       | Some e => Raise e
       end,
       s ++ [stacked (header_canvas images) (fst (loaded_prefix images)) 0])
  end.
Proof.
  intros images. unfold gallery.create_gallery.
  rewrite gallery_collect_run. cbn [app]. fold images.
  clearbody images. destruct images as [| img0 rest]; [reflexivity |].
  unfold gallery.combine_gallery. cbv iota.
  set (images := img0 :: rest).
  destruct (header_sizes_nonneg images) as [Hws Hhs].
  assert (Hw0 : 0 <= Py.max (map gallery.width images)).
  { destruct (max_spec (map gallery.width images) ltac:(discriminate)) as [Hin _].
    rewrite Forall_forall in Hws. apply Hws, Hin. }
  pose proof (sum_nonneg _ Hhs) as Hh0.
  rewrite (bind_return _ _ _ _ _ (Image_new_run s _ _ Hw0 Hh0)).
  fold (header_canvas images).
  destruct (paste_files_run (length s) images (s ++ [header_canvas images])
              (header_canvas images) 0 (lookup_last s _)) as [y' Hrun].
  unfold bind at 1. rewrite Hrun, insert_last.
  destruct (snd (loaded_prefix images)); reflexivity.
Qed.

End GalleryPy.

(** A file that is cut short makes [create_gallery] of [gallery.py] raise:
    with the files of the examples, the white image of buoy 45007 and the
    cut file of buoy 46011 are opened, the gallery of 3 by 3 is created, the
    first image is pasted and the [paste] of the second raises. *)
Example gallery_py_raises_on_cut_file :
  gallery.create_gallery Samples.lazy_files [] =
  (Raise OSError,
   [PIL.paste_value (PIL.Image 3 3 (fun _ _ => PIL.black))
      (Samples.solid 2 2 Samples.white) 0 0]).
Proof. reflexivity. Qed.

(** ** What gallery_v4.py puts into the gallery *)

Section Content.

Variable luma : PIL.pixel -> Z.
Variable V : gallery_v4.Vision.

Lemma process_short_run (s : store) (r : ref) (img : PIL.image) :
  s !! r = Some img -> Z.of_N (PIL.height img) < 6 ->
  gallery_v4.process_and_split_image luma V r s = (Return r, s).
Proof.
  intros Hr Hh. unfold gallery_v4.process_and_split_image.
  rewrite (bind_return _ _ _ _ _ (Image_width_run _ _ _ Hr)).
  rewrite (bind_return _ _ _ _ _ (Image_height_run _ _ _ Hr)).
  destruct (Z.ltb_spec (Z.of_N (PIL.height img)) 6) as [_ | ?]; [reflexivity | lia].
Qed.

(** Among the first [n] panels either all can be aligned or there is a
    first one that cannot. *)
Lemma first_failure (img : PIL.image) (n : nat) :
  (forall i, 0 <= i < Z.of_nat n ->
     gallery_v4.align_horizon_value luma V (strip img i) = Return (aligned_of luma V img i)) \/
  (exists k e, 0 <= k < Z.of_nat n /\
     (forall i, 0 <= i < k ->
        gallery_v4.align_horizon_value luma V (strip img i) =
        Return (aligned_of luma V img i)) /\
     gallery_v4.align_horizon_value luma V (strip img k) = Raise e).
Proof.
  induction n as [| n IH].
  - left. intros i Hi. lia.
  - destruct IH as [Hall | (k & e & Hk & Hbefore & He)].
    + destruct (gallery_v4.align_horizon_value luma V (strip img (Z.of_nat n))) as [a | e] eqn:E.
      * left. intros i Hi. destruct (Z.eq_dec i (Z.of_nat n)) as [-> | Hne].
        -- unfold aligned_of. rewrite E. reflexivity.
        -- apply Hall. lia.
      * right. exists (Z.of_nat n), e. split; [lia |]. split; [| exact E].
        intros i Hi. apply Hall. lia.
    + right. exists k, e. split; [lia |]. split; assumption.
Qed.

(** The outcome of [process_and_split_image] is decided by the frame alone,
    not by what else is in the store. *)
Lemma process_value_spec (s : store) (r : ref) (v : PIL.image) :
  s !! r = Some v ->
  match processed_value luma V v with
  | Some out =>
      exists r' t, gallery_v4.process_and_split_image luma V r s = (Return r', s ++ t) /\
                   (s ++ t) !! r' = Some out
  | None =>
      exists e t, gallery_v4.process_and_split_image luma V r s = (Raise e, s ++ t)
  end.
Proof.
  intros Hr. unfold processed_value.
  assert (Hv : [v] !! 0%nat = Some v) by reflexivity.
  destruct (Z.lt_ge_cases (Z.of_N (PIL.height v)) 6) as [Hshort | H6].
  { rewrite (process_short_run [v] 0%nat v Hv Hshort). cbn.
    exists r, []. rewrite app_nil_r. split; [exact (process_short_run s r v Hr Hshort) | exact Hr]. }
  destruct (first_failure v 6) as [Hall | (k & e & Hk & Hbefore & He)].
  - destruct (process_run luma V [v] 0%nat v (aligned_of luma V v) Hv ltac:(lia) Hall) as [_ H1].
    destruct (process_run luma V s r v (aligned_of luma V v) Hr ltac:(lia) Hall) as [_ H2].
    rewrite H1. cbn [length Nat.add].
    match goal with
    | |- context [?l !! 14%nat] =>
        assert (Hout : l !! 14%nat = l !! (length [v] + 13)%nat) by reflexivity
    end.
    rewrite H2.
    match type of H2 with
    | _ = (_, s ++ ?objs ++ [?canvas; ?out]) =>
        replace (([v] ++ objs ++ [canvas; out]) !! 14%nat) with (Some out)
          by (symmetry; rewrite app_assoc;
              replace 14%nat with (length ([v] ++ objs) + 1)%nat by reflexivity;
              apply lookup_after; reflexivity);
        exists (length s + 13)%nat, (objs ++ [canvas; out]);
        split; [reflexivity |];
        rewrite app_assoc;
        replace (length s + 13)%nat with (length (s ++ objs) + 1)%nat
          by (rewrite length_app; cbn; lia);
        apply lookup_after; reflexivity
    end.
  - destruct (process_first_failure_run luma V [v] 0%nat v (aligned_of luma V v) k e
                Hv ltac:(lia) ltac:(lia) Hbefore He) as [t0 ->].
    exists e.
    apply (process_first_failure_run luma V s r v (aligned_of luma V v) k e
             Hr ltac:(lia) ltac:(lia) Hbefore He).
Qed.

End Content.

Section GalleryContent.

Variable luma : PIL.pixel -> Z.
Variable V : gallery_v4.Vision.
Variable F : gallery_v4.Files.

Lemma Image_open_run (p : gallery_v4.path F) (s : store) :
  gallery_v4.Image_open F p s =
  match gallery_v4.open_file F p with
  | Return v => (Return (length s), s ++ [v])
  | Raise e => (Raise e, s)
  end.
Proof.
  unfold gallery_v4.Image_open, lift, bind, alloc.
  destruct (gallery_v4.open_file F p); reflexivity.
Qed.

Lemma visit_content (st : gallery_v4.loop_state) (buoy_id : Z) (vs : list PIL.image) :
  bound (gallery_v4.heap st) (gallery_v4.images st) vs ->
  bound (gallery_v4.heap (gallery_v4.visit luma V F st buoy_id))
        (gallery_v4.images (gallery_v4.visit luma V F st buoy_id))
        (vs ++ match contribution luma V F buoy_id with
               | Some c => [c]
               | None => []
               end).
Proof.
  intros Hb. unfold gallery_v4.visit, contribution, frame_of.
  destruct (gallery_v4.fetch_buoy_image F buoy_id) as [p |];
    [| rewrite app_nil_r; exact Hb].
  rewrite Image_open_run.
  destruct (gallery_v4.open_file F p) as [v | e];
    [| rewrite app_nil_r; exact Hb].
  rewrite (bind_return _ _ _ _ _ (deref_run _ _ _ (lookup_last (gallery_v4.heap st) v))).
  unfold ret.
  destruct (gallery_v4.is_blank_image luma v).
  { rewrite app_nil_r. cbn [gallery_v4.heap gallery_v4.images].
    apply bound_app_store, Hb. }
  pose proof (process_value_spec luma V (gallery_v4.heap st ++ [v])
                (length (gallery_v4.heap st)) v (lookup_last _ v)) as Hp.
  destruct (processed_value luma V v) as [out |].
  - destruct Hp as (r' & t & Hp & Hl). rewrite Hp.
    cbn [gallery_v4.heap gallery_v4.images].
    apply Forall2_app.
    + apply bound_app_store, bound_app_store, Hb.
    + constructor; [exact Hl | constructor].
  - destruct Hp as (e & t & Hp). rewrite Hp, app_nil_r.
    cbn [gallery_v4.heap gallery_v4.images].
    apply bound_app_store, bound_app_store, Hb.
Qed.

Lemma collect_content (ids : list Z) (st : gallery_v4.loop_state) (vs : list PIL.image) :
  bound (gallery_v4.heap st) (gallery_v4.images st) vs ->
  bound (gallery_v4.heap (gallery_v4.collect luma V F ids st))
        (gallery_v4.images (gallery_v4.collect luma V F ids st))
        (vs ++ omap (contribution luma V F) ids).
Proof.
  revert st vs. induction ids as [| id ids IH]; intros st vs Hb.
  - cbn. rewrite app_nil_r. exact Hb.
  - unfold gallery_v4.collect. cbn [fold_left].
    fold (gallery_v4.collect luma V F ids (gallery_v4.visit luma V F st id)).
    pose proof (IH _ _ (visit_content st id vs Hb)) as H.
    rewrite omap_cons.
    destruct (contribution luma V F id) as [c |].
    + rewrite <- app_assoc in H. exact H.
    + rewrite app_nil_r in H. exact H.
Qed.

Lemma combine_content (ids : list Z) (s : store) :
  let st := gallery_v4.collect luma V F ids (gallery_v4.Loop [] s []) in
  let cs := omap (contribution luma V F) ids in
  exists t : store,
    gallery_v4.combine_gallery (gallery_v4.images st) (gallery_v4.heap st) =
    match cs with
    | [] => (Return None, s ++ t)
    | _ :: _ =>
        (Return (Some (length (s ++ t))),
         (s ++ t) ++ [stacked (gallery_canvas cs) cs 0])
    end.
Proof.
  intros st cs.
  pose proof (collect_content ids (gallery_v4.Loop [] s []) []
                ltac:(constructor)) as Hb.
  cbn [app] in Hb. fold st cs in Hb.
  destruct (collect_only_adds luma V F ids (gallery_v4.Loop [] s [])) as [t Ht].
  cbn [gallery_v4.heap] in Ht. fold st in Ht.
  clearbody st cs. rewrite Ht in *. exists t.
  destruct cs as [| c cs'].
  - inversion Hb. reflexivity.
  - rewrite (combine_gallery_run _ _ _ Hb); [reflexivity |].
    inversion Hb. discriminate.
Qed.

(** X11. The gallery of [gallery_v4.py] is a function of the frames alone: each
    buoy contributes, in the order of the buoy list, what
    [process_and_split_image] makes of its frame, unless the frame is
    missing, unreadable or blank or its processing fails; the saved gallery
    is the stack of these contributions on a black canvas as wide as the
    widest and as high as all of them together, and there is no gallery
    exactly when there is no contribution. *)
Theorem create_gallery_content (s : store) :
  let cs := omap (contribution luma V F) gallery_v4.buoy_ids in
  exists t : store,
    fst (gallery_v4.create_gallery luma V F s) =
    match cs with
    | [] => (Return None, s ++ t)
    | _ :: _ =>
        (Return (Some (length (s ++ t))),
         (s ++ t) ++ [stacked (gallery_canvas cs) cs 0])
    end.
Proof.
  intros cs. unfold gallery_v4.create_gallery. cbn [fst].
  apply combine_content.
Qed.

End GalleryContent.

(** ** The further properties on concrete frames *)

Lemma process_level_frame_witness :
  ([Samples.gradient 4 13] !! 0%nat = Some (Samples.gradient 4 13) /\
   6 <= Z.of_N (PIL.height (Samples.gradient 4 13)) /\
   forall i, 0 <= i < 6 ->
     gallery_v4.align_horizon_value Samples.luma_601 Samples.quiet
       (strip (Samples.gradient 4 13) i) =
     Return (strip (Samples.gradient 4 13) i)) /\
  exists (out : PIL.image) (s' : store),
    gallery_v4.process_and_split_image Samples.luma_601 Samples.quiet 0%nat
      [Samples.gradient 4 13] = (Return 14%nat, s') /\
    s' !! 14%nat = Some out /\
    PIL.width out = 4%N /\ Z.of_N (PIL.height out) = 12 /\
    (forall x y, 0 <= x < 4 -> 0 <= y < 12 -> PIL.getpixel out x y = (x, y, 0)).
Proof.
  assert (Hr : [Samples.gradient 4 13] !! 0%nat = Some (Samples.gradient 4 13))
    by reflexivity.
  assert (H6 : 6 <= Z.of_N (PIL.height (Samples.gradient 4 13)))
    by (vm_compute; discriminate).
  assert (Ha : forall i, 0 <= i < 6 ->
            gallery_v4.align_horizon_value Samples.luma_601 Samples.quiet
              (strip (Samples.gradient 4 13) i) =
            Return (strip (Samples.gradient 4 13) i))
    by (intros i _; reflexivity).
  split; [split; [exact Hr | split; [exact H6 | exact Ha]] |].
  destruct (process_level_frame Samples.luma_601 Samples.quiet
              [Samples.gradient 4 13] 0%nat (Samples.gradient 4 13) Hr H6 Ha)
    as (out & s' & Hrun & Ho & Hw & Hh & Hpix).
  exists out, s'.
  split; [exact Hrun |]. split; [exact Ho |]. split; [exact Hw |].
  split; [rewrite Hh; reflexivity |].
  intros x y Hx Hy. apply (Hpix x y); [exact Hx | exact Hy].
Defined.

Lemma process_keeps_inner_panels_witness :
  ([Samples.gradient 4 13] !! 0%nat = Some (Samples.gradient 4 13) /\
   6 <= Z.of_N (PIL.height (Samples.gradient 4 13)) /\
   forall i, 0 <= i < 6 ->
     gallery_v4.align_horizon_value Samples.luma_601 Samples.tilted
       (strip (Samples.gradient 4 13) i) =
     Return (Samples.pad (strip (Samples.gradient 4 13) i))) /\
  exists (out : PIL.image) (s' : store),
    gallery_v4.process_and_split_image Samples.luma_601 Samples.tilted 0%nat
      [Samples.gradient 4 13] = (Return 14%nat, s') /\
    s' !! 14%nat = Some out /\
    PIL.getpixel out 1 7 =
    PIL.getpixel (Samples.pad (strip (Samples.gradient 4 13) 2)) 1 1.
Proof.
  assert (Hr : [Samples.gradient 4 13] !! 0%nat = Some (Samples.gradient 4 13))
    by reflexivity.
  assert (H6 : 6 <= Z.of_N (PIL.height (Samples.gradient 4 13)))
    by (vm_compute; discriminate).
  assert (Ha : forall i, 0 <= i < 6 ->
            gallery_v4.align_horizon_value Samples.luma_601 Samples.tilted
              (strip (Samples.gradient 4 13) i) =
            Return (Samples.pad (strip (Samples.gradient 4 13) i)))
    by (intros i _; reflexivity).
  split; [split; [exact Hr | split; [exact H6 | exact Ha]] |].
  destruct (process_keeps_inner_panels Samples.luma_601 Samples.tilted
              [Samples.gradient 4 13] 0%nat (Samples.gradient 4 13)
              (fun i => Samples.pad (strip (Samples.gradient 4 13) i)) Hr H6 Ha)
    as (out & s' & Hrun & Ho & Hin).
  exists out, s'.
  split; [exact Hrun |]. split; [exact Ho |].
  destruct (Hin 2%nat 1 1) as [_ Hp]; [lia | reflexivity | reflexivity |].
  exact Hp.
Defined.

Lemma process_raises_at_first_failure_witness :
  ([Samples.gradient 4 13] !! 0%nat = Some (Samples.gradient 4 13) /\
   6 <= Z.of_N (PIL.height (Samples.gradient 4 13)) /\
   0 <= 2 < 6 /\
   (forall i, 0 <= i < 2 ->
      gallery_v4.align_horizon_value Samples.luma_601 Samples.picky
        (strip (Samples.gradient 4 13) i) =
      Return (strip (Samples.gradient 4 13) i)) /\
   gallery_v4.align_horizon_value Samples.luma_601 Samples.picky
     (strip (Samples.gradient 4 13) 2) = Raise CvError) /\
  gallery_v4.process_and_split_image Samples.luma_601 Samples.picky 0%nat
    [Samples.gradient 4 13] =
  (Raise CvError,
   [Samples.gradient 4 13] ++
   loop_objects (Samples.gradient 4 13) (strip (Samples.gradient 4 13)) [0; 1] ++
   [strip (Samples.gradient 4 13) 2]).
Proof.
  assert (Hr : [Samples.gradient 4 13] !! 0%nat = Some (Samples.gradient 4 13))
    by reflexivity.
  assert (H6 : 6 <= Z.of_N (PIL.height (Samples.gradient 4 13)))
    by (vm_compute; discriminate).
  assert (Hk : 0 <= 2 < 6) by lia.
  assert (Ha : forall i, 0 <= i < 2 ->
            gallery_v4.align_horizon_value Samples.luma_601 Samples.picky
              (strip (Samples.gradient 4 13) i) =
            Return (strip (Samples.gradient 4 13) i)).
  { intros i Hi. assert (Hc : i = 0 \/ i = 1) by lia.
    destruct Hc as [-> | ->]; reflexivity. }
  assert (He : gallery_v4.align_horizon_value Samples.luma_601 Samples.picky
                 (strip (Samples.gradient 4 13) 2) = Raise CvError)
    by reflexivity.
  split; [split; [exact Hr | split; [exact H6 | split; [exact Hk | split; [exact Ha | exact He]]]] |].
  exact (process_raises_at_first_failure Samples.luma_601 Samples.picky
           [Samples.gradient 4 13] 0%nat (Samples.gradient 4 13)
           (strip (Samples.gradient 4 13)) 2 CvError Hr H6 Hk Ha He).
Defined.

Lemma process_only_adds_objects_witness :
  let img := Samples.gradient 4 13 in
  let s' := [img] ++ loop_objects img (strip img) [0; 1] ++ [strip img 2] in
  gallery_v4.process_and_split_image Samples.luma_601 Samples.picky 0%nat [img] =
  (Raise CvError, s') /\
  length s' = 6%nat /\
  (exists t, s' = [img] ++ t) /\
  s' !! 0%nat = Some img.
Proof.
  intros img s'.
  assert (H : gallery_v4.process_and_split_image Samples.luma_601 Samples.picky
                0%nat [img] = (Raise CvError, s')) by reflexivity.
  split; [exact H |]. split; [reflexivity |].
  destruct (process_only_adds_objects Samples.luma_601 Samples.picky 0%nat
              [img] s' (Raise CvError) H) as [Hext Hkeep].
  split; [exact Hext |].
  apply (Hkeep 0%nat img). reflexivity.
Defined.


(** * The downloads *)

Lemma string_app_cons (a : Ascii.ascii) (s t : string) :
  String a s +:+ t = String a (s +:+ t).
Proof. reflexivity. Qed.

Lemma string_app_length (s t : string) :
  String.length (s +:+ t) = (String.length s + String.length t)%nat.
Proof.
  induction s as [| a s IH]; [reflexivity |].
  rewrite string_app_cons. cbn [String.length]. rewrite IH. reflexivity.
Qed.

Lemma string_app_inv_tail (s1 s2 t : string) : s1 +:+ t = s2 +:+ t -> s1 = s2.
Proof.
  revert s2. induction s1 as [| a s1 IH]; intros [| b s2] H.
  - reflexivity.
  - apply (f_equal String.length) in H.
    rewrite string_app_cons in H. change ("" +:+ t) with t in H.
    cbn [String.length] in H. rewrite string_app_length in H. lia.
  - apply (f_equal String.length) in H.
    rewrite string_app_cons in H. change ("" +:+ t) with t in H.
    cbn [String.length] in H. rewrite string_app_length in H. lia.
  - rewrite !string_app_cons in H. injection H as -> H. f_equal. apply IH, H.
Qed.

Lemma os_path_join_output_dir_inj (p1 p2 : string) :
  fetch.os_path_join fetch.output_dir p1 = fetch.os_path_join fetch.output_dir p2 ->
  p1 = p2.
Proof.
  unfold fetch.os_path_join, fetch.output_dir.
  change (String.eqb "./buoy_images" "" || fetch.endswith "/" "./buoy_images")
    with false.
  cbv iota.
  change ("./buoy_images" +:+ "/" +:+ p1) with ("./buoy_images/" +:+ p1).
  change ("./buoy_images" +:+ "/" +:+ p2) with ("./buoy_images/" +:+ p2).
  destruct (String.prefix "/" p1) eqn:E1, (String.prefix "/" p2) eqn:E2; intros H.
  - exact H.
  - subst p1. vm_compute in E1. discriminate.
  - subst p2. vm_compute in E2. discriminate.
  - exact (String.app_inj _ _ _ H).
Qed.

(** Two buoys never share a file. *)
Lemma image_path_of_inj (a b : Z) : image_path_of a = image_path_of b -> a = b.
Proof.
  unfold image_path_of. intros H.
  apply os_path_join_output_dir_inj, string_app_inv_tail in H.
  exact (pretty_Z_inj _ _ H).
Qed.

Section Downloads.

Variable w : requests.web.

Lemma fetch_v4_cases (buoy_id : Z) (d : fetch.disk) :
  fetch.gallery_v4_fetch_buoy_image w buoy_id d = (None, d) \/
  exists response,
    w (url_of buoy_id) = inr response /\
    requests.raise_for_status response = None /\
    fetch.contains "image" (fetch.headers_get_content_type response) = true /\
    fetch.gallery_v4_fetch_buoy_image w buoy_id d =
    (Some (image_path_of buoy_id),
     <[image_path_of buoy_id := requests.content response]> d).
Proof.
  unfold fetch.gallery_v4_fetch_buoy_image. fold (url_of buoy_id).
  fold (image_path_of buoy_id).
  destruct (w (url_of buoy_id)) as [e | response]; [left; reflexivity |].
  destruct (requests.raise_for_status response) as [e |] eqn:Es; [left; reflexivity |].
  destruct (fetch.contains "image" (fetch.headers_get_content_type response)) eqn:Ec;
    [| left; reflexivity].
  right. exists response. repeat split; assumption.
Qed.

Lemma raise_for_status_None (response : requests.Response) :
  requests.raise_for_status response = None <->
  ~ 400 <= requests.status_code response < 600.
Proof.
  unfold requests.raise_for_status.
  destruct (Z.leb_spec 400 (requests.status_code response)) as [Ha | Ha];
    destruct (Z.ltb_spec (requests.status_code response) 600) as [Hb | Hb]; cbn;
    split; intros Hc; try reflexivity; try discriminate; lia.
Qed.

(** X12. A download changes no file but the buoy's own, and changes nothing when
    it returns [None]; when it returns a path, this is the buoy's path, the
    status of the response is outside 400..599, its [Content-Type] contains
    [image], and the file holds the body of the response. *)
Theorem fetch_writes_only_its_own_file (buoy_id : Z) (d d' : fetch.disk)
        (o : option string) :
  fetch.gallery_v4_fetch_buoy_image w buoy_id d = (o, d') ->
  (o = None -> d' = d) /\
  (forall q, q <> image_path_of buoy_id -> d' !! q = d !! q) /\
  (forall p, o = Some p ->
     p = image_path_of buoy_id /\
     exists response,
       w (url_of buoy_id) = inr response /\
       ~ 400 <= requests.status_code response < 600 /\
       fetch.contains "image" (fetch.headers_get_content_type response) = true /\
       d' !! p = Some (requests.content response)).
Proof.
  intros H.
  destruct (fetch_v4_cases buoy_id d) as [Hn | (response & Hw & Hs & Hc & Hf)].
  - rewrite Hn in H. injection H as <- <-.
    split; [reflexivity |]. split; [reflexivity |]. discriminate.
  - rewrite Hf in H. injection H as <- <-.
    split; [discriminate |]. split.
    + intros q Hq. apply lookup_insert_ne. congruence.
    + intros p [= <-]. split; [reflexivity |].
      exists response. split; [exact Hw |].
      split; [apply raise_for_status_None, Hs |]. split; [exact Hc |].
      apply lookup_insert_eq.
Qed.

Lemma fetch_all_keeps (ids : list Z) (d : fetch.disk) (buoy_id : Z)
      (response : requests.Response) :
  w (url_of buoy_id) = inr response ->
  d !! image_path_of buoy_id = Some (requests.content response) ->
  fetch_all w ids d !! image_path_of buoy_id = Some (requests.content response).
Proof.
  intros Hw. revert d. induction ids as [| id ids IH]; intros d Hd; [exact Hd |].
  unfold fetch_all. cbn [fold_left]. fold (fetch_all w ids).
  apply IH.
  destruct (fetch_v4_cases id d) as [Hn | (r & Hw' & _ & _ & Hf)].
  - rewrite Hn. exact Hd.
  - rewrite Hf. cbn [snd].
    destruct (decide (image_path_of id = image_path_of buoy_id)) as [Heq | Hne].
    + apply image_path_of_inj in Heq. subst id.
      rewrite Hw in Hw'. injection Hw' as <-. apply lookup_insert_eq.
    + rewrite lookup_insert_ne by exact Hne. exact Hd.
Qed.

Lemma fetch_v4_success (buoy_id : Z) (d : fetch.disk) (response : requests.Response) :
  w (url_of buoy_id) = inr response ->
  requests.raise_for_status response = None ->
  fetch.contains "image" (fetch.headers_get_content_type response) = true ->
  fetch.gallery_v4_fetch_buoy_image w buoy_id d =
  (Some (image_path_of buoy_id),
   <[image_path_of buoy_id := requests.content response]> d).
Proof.
  intros Hw Hs Hc. unfold fetch.gallery_v4_fetch_buoy_image.
  fold (url_of buoy_id). rewrite Hw, Hs, Hc. reflexivity.
Qed.

(** X13. The file of a buoy survives the downloads of the other buoys: after the
    downloads of a whole list, the file of every buoy of the list whose
    download returns a path holds the body of that buoy's response. *)
Theorem fetched_files_survive_the_loop (ids : list Z) (d : fetch.disk)
        (buoy_id : Z) (p : string) :
  buoy_id ∈ ids ->
  fst (fetch.gallery_v4_fetch_buoy_image w buoy_id d) = Some p ->
  exists response,
    w (url_of buoy_id) = inr response /\
    fetch_all w ids d !! p = Some (requests.content response).
Proof.
  intros Hin Hp.
  destruct (fetch_v4_cases buoy_id d) as [Hn | (response & Hw & Hs & Hc & Hf)];
    [rewrite Hn in Hp; discriminate |].
  rewrite Hf in Hp. injection Hp as <-.
  exists response. split; [exact Hw |].
  clear Hf. revert d. induction ids as [| id ids IH]; intros d.
  - inversion Hin.
  - unfold fetch_all. cbn [fold_left]. fold (fetch_all w ids).
    destruct (decide (buoy_id = id)) as [<- | Hne].
    + apply fetch_all_keeps; [exact Hw |].
      rewrite (fetch_v4_success buoy_id d response Hw Hs Hc). cbn [snd].
      apply lookup_insert_eq.
    + apply IH. apply elem_of_cons in Hin. destruct Hin; [contradiction | assumption].
Qed.

End Downloads.

(** * gallery_v2.py: process_and_split_image *)

Section ProcessV2.

Variable luma : PIL.pixel -> Z.
Variable NP : gallery_v2.Numpy.

Lemma v2_align_horizon_run (s : store) (r : ref) (v a : PIL.image) :
  s !! r = Some v -> gallery_v2.align_horizon_value luma NP v = Return a ->
  gallery_v2.align_horizon luma NP r s = (Return (length s), s ++ [a]).
Proof.
  intros Hr Ha. unfold gallery_v2.align_horizon.
  rewrite (bind_return _ _ _ _ _ (deref_run _ _ _ Hr)).
  unfold lift, bind. rewrite Ha. reflexivity.
Qed.

Lemma v2_split_align_run (r : ref) (img : PIL.image) (aligned : Z -> PIL.image)
      (indices : list Z) (s : store) :
  s !! r = Some img ->
  Forall (fun i => 0 <= i) indices ->
  (forall i, i ∈ indices ->
     gallery_v2.align_horizon_value luma NP (strip img i) = Return (aligned i)) ->
  mapM (fun i =>
          let* panel :=
            Image_crop r (gallery_v4.panel_box (Z.of_N (PIL.width img))
                            (Z.of_N (PIL.height img) / 6) i) in
          gallery_v2.align_horizon luma NP panel)
       indices s =
  (Return (map (fun j => length s + 2 * j + 1)%nat (seq 0 (length indices))),
   s ++ loop_objects img aligned indices).
Proof.
  revert s. induction indices as [| i indices IH]; intros s Hr Hpos Ha.
  - cbn. unfold ret. rewrite app_nil_r. reflexivity.
  - cbn [mapM]. rewrite bind_assoc.
    assert (Hph : 0 <= Z.of_N (PIL.height img) / 6) by (apply Z.div_pos; lia).
    inversion Hpos as [| ? ? Hi Hpos']; subst.
    unfold gallery_v4.panel_box at 1.
    rewrite (bind_return _ _ _ _ _
               (Image_crop_run s r img 0 (i * (Z.of_N (PIL.height img) / 6))
                  (Z.of_N (PIL.width img)) ((i + 1) * (Z.of_N (PIL.height img) / 6))
                  Hr ltac:(lia) ltac:(nia))).
    fold (gallery_v4.panel_box (Z.of_N (PIL.width img)) (Z.of_N (PIL.height img) / 6) i).
    fold (strip img i).
    rewrite (bind_return _ _ _ _ _
               (v2_align_horizon_run (s ++ [strip img i]) (length s) (strip img i)
                  (aligned i) (lookup_last s (strip img i)) (Ha i ltac:(left)))).
    rewrite (bind_return _ _ _ _ _
               (IH ((s ++ [strip img i]) ++ [aligned i])
                  ltac:(rewrite !lookup_app_l;
                        [exact Hr | eapply lookup_lt_Some, Hr
                        | rewrite length_app; apply lookup_lt_Some in Hr; lia])
                  Hpos'
                  ltac:(intros j Hj; apply Ha; right; exact Hj))).
    unfold ret. f_equal.
    + f_equal. rewrite !length_app. cbn [length seq map].
      f_equal; [lia |]. rewrite <- seq_shift, map_map. apply map_ext. intros j. lia.
    + unfold loop_objects. cbn [flat_map]. rewrite <- !app_assoc. reflexivity.
Qed.

Lemma v2_process_run (s : store) (r : ref) (img : PIL.image) (aligned : Z -> PIL.image) :
  s !! r = Some img ->
  (forall i, 0 <= i < 6 ->
     gallery_v2.align_horizon_value luma NP (strip img i) = Return (aligned i)) ->
  let width := Z.of_N (PIL.width img) in
  let panel_height := Z.of_N (PIL.height img) / 6 in
  let panels := map aligned (Py.range 6) in
  let combined_height := Py.sum (heights panels) in
  let trim_top := Z.max 0 (Z.of_N (PIL.height (aligned 0)) - panel_height) in
  let trim_bottom := Z.max 0 (Z.of_N (PIL.height (aligned 5)) - panel_height) in
  let canvas :=
    stacked (PIL.Image (Z.to_N width) (Z.to_N combined_height) (fun _ _ => PIL.black))
      panels 0 in
  trim_top <= combined_height - trim_bottom /\
  gallery_v2.process_and_split_image luma NP r s =
  (Return (length s + 13)%nat,
   s ++ loop_objects img aligned (Py.range 6) ++
     [canvas; PIL.region canvas (0, trim_top, width, combined_height - trim_bottom)]).
Proof.
  intros Hr Ha width panel_height panels combined_height trim_top trim_bottom canvas.
  assert (Hph : 0 <= panel_height).
  { unfold panel_height. apply Z.div_pos; lia. }
  assert (Hcomb : combined_height =
                  Z.of_N (PIL.height (aligned 0)) + Z.of_N (PIL.height (aligned 1)) +
                  Z.of_N (PIL.height (aligned 2)) + Z.of_N (PIL.height (aligned 3)) +
                  Z.of_N (PIL.height (aligned 4)) + Z.of_N (PIL.height (aligned 5))).
  { unfold combined_height, panels, heights.
    change (Py.range 6) with [0; 1; 2; 3; 4; 5]. cbn [map].
    rewrite !sum_cons. change (Py.sum []) with 0. lia. }
  assert (Htrim : trim_top <= combined_height - trim_bottom).
  { rewrite Hcomb. unfold trim_top, trim_bottom. lia. }
  split; [exact Htrim |].
  unfold gallery_v2.process_and_split_image.
  rewrite (bind_return _ _ _ _ _ (Image_width_run _ _ _ Hr)).
  rewrite (bind_return _ _ _ _ _ (Image_height_run _ _ _ Hr)).
  rewrite (bind_return _ _ _ _ _
             (v2_split_align_run r img aligned (Py.range 6) s Hr
                ltac:(apply Forall_forall; intros i Hi; apply range_elem in Hi; lia)
                ltac:(intros i Hi; apply Ha; apply range_elem in Hi; lia))).
  set (s1 := s ++ loop_objects img aligned (Py.range 6)).
  set (refs := map (fun j => length s + 2 * j + 1)%nat (seq 0 (length (Py.range 6)))).
  assert (Hb : bound s1 refs panels).
  { unfold bound, refs, panels, s1, loop_objects.
    change (Py.range 6) with [0; 1; 2; 3; 4; 5].
    cbn [seq map length flat_map app].
    repeat (constructor;
            [rewrite <- Nat.add_assoc; apply lookup_after; reflexivity |]).
    constructor. }
  assert (Hlen1 : length s1 = (length s + 12)%nat).
  { unfold s1. rewrite length_app. reflexivity. }
  rewrite (bind_return _ _ _ _ _ (mapM_height_run _ _ _ Hb)).
  fold combined_height.
  assert (Hc0 : 0 <= combined_height) by (rewrite Hcomb; lia).
  rewrite (bind_return _ _ _ _ _ (Image_new_run s1 width combined_height ltac:(lia) Hc0)).
  set (canvas0 := PIL.Image (Z.to_N width) (Z.to_N combined_height) (fun _ _ => PIL.black)).
  unfold gallery_v4.paste_all.
  rewrite (bind_return _ _ _ _ _
             (paste_all_run (s1 ++ [canvas0]) (length s1) refs panels canvas0 0
                (lookup_last s1 canvas0) (bound_app_store _ _ _ _ Hb)
                (bound_fresh _ _ _ Hb))).
  rewrite insert_last. fold canvas.
  set (s2 := s1 ++ [canvas]).
  assert (Hfirst : s2 !! (length s + 1)%nat = Some (aligned 0)).
  { unfold s2, s1. rewrite <- app_assoc. apply lookup_after. reflexivity. }
  assert (Hlast : s2 !! (length s + 11)%nat = Some (aligned 5)).
  { unfold s2, s1. rewrite <- app_assoc. apply lookup_after. reflexivity. }
  rewrite (bind_return _ _ _ _ _
             (index_run refs 0 (length s + 2 * 0 + 1)%nat _ eq_refl ltac:(cbn; lia))).
  replace (length s + 2 * 0 + 1)%nat with (length s + 1)%nat by lia.
  rewrite (bind_return _ _ _ _ _ (Image_height_run _ _ _ Hfirst)).
  rewrite (bind_return _ _ _ _ _
             (index_run refs (-1) (length s + 2 * 5 + 1)%nat _ eq_refl ltac:(cbn; lia))).
  replace (length s + 2 * 5 + 1)%nat with (length s + 11)%nat by lia.
  rewrite (bind_return _ _ _ _ _ (Image_height_run _ _ _ Hlast)).
  fold panel_height. fold trim_top. fold trim_bottom.
  assert (Hcan : s2 !! length s1 = Some canvas) by apply lookup_last.
  fold width.
  rewrite (Image_crop_run s2 (length s1) canvas 0 trim_top width
             (combined_height - trim_bottom) Hcan ltac:(lia) Htrim).
  f_equal.
  - f_equal. unfold s2. rewrite length_app, Hlen1. cbn. lia.
  - unfold s2, s1. rewrite <- !app_assoc. reflexivity.
Qed.

End ProcessV2.

Section ProcessV2More.

Variable luma : PIL.pixel -> Z.
Variable NP : gallery_v2.Numpy.

Lemma v2_align_horizon_raise (s : store) (r : ref) (v : PIL.image) (e : exn) :
  s !! r = Some v -> gallery_v2.align_horizon_value luma NP v = Raise e ->
  gallery_v2.align_horizon luma NP r s = (Raise e, s).
Proof.
  intros Hr Ha. unfold gallery_v2.align_horizon.
  rewrite (bind_return _ _ _ _ _ (deref_run _ _ _ Hr)).
  unfold lift, bind. rewrite Ha. reflexivity.
Qed.

Lemma convert_L_rows (img : PIL.image) :
  length (PIL.convert_L luma img) = N.to_nat (PIL.height img).
Proof. unfold PIL.convert_L. rewrite length_map. apply range_length. Qed.

(** X14. [gallery_v2.py] has no test on the height and builds a new image for
    every frame, whatever its height, when its six panels can be aligned:
    the frame itself is never returned and stays as it is, and the result
    has the frame's width and the height of the six aligned panels together
    less the two trims. *)
Theorem v2_process_builds_new_image (s : store) (r : ref) (img : PIL.image)
        (aligned : Z -> PIL.image) :
  s !! r = Some img ->
  (forall i, 0 <= i < 6 ->
     gallery_v2.align_horizon_value luma NP (strip img i) = Return (aligned i)) ->
  let panel_height := Z.of_N (PIL.height img) / 6 in
  let combined_height := Py.sum (heights (map aligned (Py.range 6))) in
  let trim_top := Z.max 0 (Z.of_N (PIL.height (aligned 0)) - panel_height) in
  let trim_bottom := Z.max 0 (Z.of_N (PIL.height (aligned 5)) - panel_height) in
  exists (out : PIL.image) (s' : store),
    gallery_v2.process_and_split_image luma NP r s = (Return (length s + 13)%nat, s') /\
    (length s + 13)%nat <> r /\
    s' !! r = Some img /\
    s' !! (length s + 13)%nat = Some out /\
    PIL.width out = PIL.width img /\
    Z.of_N (PIL.height out) = combined_height - trim_top - trim_bottom.
Proof.
  intros Hr Ha panel_height combined_height trim_top trim_bottom.
  destruct (v2_process_run luma NP s r img aligned Hr Ha) as [Htrim Hrun].
  fold panel_height combined_height trim_top trim_bottom in Htrim, Hrun.
  pose proof (lookup_lt_Some _ _ _ Hr) as Hlt.
  eexists. eexists. split; [exact Hrun |].
  split; [lia |]. split; [rewrite lookup_app_l; [exact Hr | exact Hlt] |].
  split.
  { rewrite app_assoc.
    replace (length s + 13)%nat
      with (length (s ++ loop_objects img aligned (Py.range 6)) + 1)%nat
      by (rewrite length_app; cbn; lia).
    apply lookup_after. reflexivity. }
  cbn [PIL.region PIL.width PIL.height]. split; [rewrite Z.sub_0_r; apply N2Z.id | lia].
Qed.

(** X15. When NumPy's [argmin] raises on an edge map without rows, which is what
    a raster of at most one row gives, [gallery_v2.py] cannot process a frame
    of fewer than 12 rows: the first panel has at most one row, its alignment
    raises, and the exception leaves [process_and_split_image] after that
    panel was cut. *)
Theorem v2_rejects_frames_under_12_rows (s : store) (r : ref) (img : PIL.image)
        (e : exn) :
  (forall g : PIL.gray, (length g <= 1)%nat -> gallery_v2.horizon_row NP g = Raise e) ->
  s !! r = Some img ->
  Z.of_N (PIL.height img) < 12 ->
  gallery_v2.process_and_split_image luma NP r s = (Raise e, s ++ [strip img 0]).
Proof.
  intros Hnp Hr H12.
  assert (He : gallery_v2.align_horizon_value luma NP (strip img 0) = Raise e).
  { unfold gallery_v2.align_horizon_value. rewrite Hnp; [reflexivity |].
    rewrite convert_L_rows. destruct (strip_size img 0) as [_ Hh].
    assert (Z.of_N (PIL.height img) / 6 <= 1)
      by (apply Z.lt_succ_r, Z.div_lt_upper_bound; lia).
    lia. }
  unfold gallery_v2.process_and_split_image.
  rewrite (bind_return _ _ _ _ _ (Image_width_run _ _ _ Hr)).
  rewrite (bind_return _ _ _ _ _ (Image_height_run _ _ _ Hr)).
  apply bind_raise.
  change (Py.range 6) with [0; 1; 2; 3; 4; 5]. cbn [mapM]. rewrite bind_assoc.
  assert (Hph : 0 <= Z.of_N (PIL.height img) / 6) by (apply Z.div_pos; lia).
  unfold gallery_v4.panel_box at 1.
  rewrite (bind_return _ _ _ _ _
             (Image_crop_run s r img 0 (0 * (Z.of_N (PIL.height img) / 6))
                (Z.of_N (PIL.width img)) ((0 + 1) * (Z.of_N (PIL.height img) / 6))
                Hr ltac:(lia) ltac:(nia))).
  fold (gallery_v4.panel_box (Z.of_N (PIL.width img)) (Z.of_N (PIL.height img) / 6) 0).
  fold (strip img 0).
  rewrite (bind_raise _ _ _ _ _
             (v2_align_horizon_raise (s ++ [strip img 0]) (length s) (strip img 0)
                e (lookup_last s (strip img 0)) He)).
  reflexivity.
Qed.

Variable V : gallery_v4.Vision.

(** X16. On a frame of six rows or more, [gallery_v2.py] and [gallery_v4.py]
    differ in [align_horizon] only: when the two align the six panels to the
    same images, [process_and_split_image] does the same in both, object by
    object. *)
Theorem v2_process_agrees_with_v4 (s : store) (r : ref) (img : PIL.image)
        (aligned : Z -> PIL.image) :
  s !! r = Some img ->
  6 <= Z.of_N (PIL.height img) ->
  (forall i, 0 <= i < 6 ->
     gallery_v2.align_horizon_value luma NP (strip img i) = Return (aligned i)) ->
  (forall i, 0 <= i < 6 ->
     gallery_v4.align_horizon_value luma V (strip img i) = Return (aligned i)) ->
  gallery_v2.process_and_split_image luma NP r s =
  gallery_v4.process_and_split_image luma V r s.
Proof.
  intros Hr H6 H2 H4.
  destruct (v2_process_run luma NP s r img aligned Hr H2) as [_ ->].
  destruct (process_run luma V s r img aligned Hr H6 H4) as [_ ->].
  reflexivity.
Qed.

End ProcessV2More.

Section FrameOnly.

Variable luma : PIL.pixel -> Z.
Variable V : gallery_v4.Vision.

(** X17. What [process_and_split_image] returns depends on the frame only, not
    on the reference it is given or on what else the store holds: on two
    stores that hold the same frame, both calls raise, or both return and
    the two results are the same image. *)
Theorem process_depends_on_frame_only (s1 s2 : store) (r1 r2 : ref) (v : PIL.image) :
  s1 !! r1 = Some v -> s2 !! r2 = Some v ->
  (exists e1 e2 t1 t2,
     gallery_v4.process_and_split_image luma V r1 s1 = (Raise e1, s1 ++ t1) /\
     gallery_v4.process_and_split_image luma V r2 s2 = (Raise e2, s2 ++ t2)) \/
  (exists out p1 p2 t1 t2,
     gallery_v4.process_and_split_image luma V r1 s1 = (Return p1, s1 ++ t1) /\
     gallery_v4.process_and_split_image luma V r2 s2 = (Return p2, s2 ++ t2) /\
     (s1 ++ t1) !! p1 = Some out /\ (s2 ++ t2) !! p2 = Some out).
Proof.
  intros H1 H2.
  pose proof (process_value_spec luma V s1 r1 v H1) as P1.
  pose proof (process_value_spec luma V s2 r2 v H2) as P2.
  destruct (processed_value luma V v) as [out |].
  - destruct P1 as (p1 & t1 & Hp1 & Hl1). destruct P2 as (p2 & t2 & Hp2 & Hl2).
    right. exists out, p1, p2, t1, t2. repeat split; assumption.
  - destruct P1 as (e1 & t1 & Hp1). destruct P2 as (e2 & t2 & Hp2).
    left. exists e1, e2, t1, t2. split; assumption.
Qed.

End FrameOnly.

Section DownloadsMore.

Variable w : requests.web.

(** X18. The download of [gallery_v4.py] is the one of [gallery_v2.py] and
    [gallery.py] made stricter: whenever it returns a path, theirs returns
    the same path and writes the same file, and whenever theirs returns
    [None], so does it, with the files unchanged. *)
Theorem v4_fetch_is_stricter_than_v2 (buoy_id : Z) (d d' : fetch.disk)
        (o : option string) :
  fetch.gallery_v4_fetch_buoy_image w buoy_id d = (o, d') ->
  (forall p, o = Some p ->
     fetch.gallery_v2_fetch_buoy_image w buoy_id d = (Some p, d')) /\
  (forall d2, fetch.gallery_v2_fetch_buoy_image w buoy_id d = (None, d2) ->
     o = None /\ d' = d /\ d2 = d).
Proof.
  unfold fetch.gallery_v4_fetch_buoy_image, fetch.gallery_v2_fetch_buoy_image.
  destruct (w (fetch.base_url_format (fetch.str buoy_id))) as [e | response].
  { intros [= <- <-]. split; [discriminate |]. intros d2 [= <-]. auto. }
  destruct (requests.raise_for_status response) as [e |].
  { intros [= <- <-]. split; [discriminate |]. intros d2 [= <-]. auto. }
  destruct (fetch.contains "image" (fetch.headers_get_content_type response)); cbn [negb].
  - intros [= <- <-]. split; [intros p [= <-]; reflexivity | discriminate].
  - intros [= <- <-]. split; discriminate.
Qed.

Variable Image_open : list Byte.byte -> outcome PIL.image.

(** X19. Whatever [mvp.py] shows for a station, [gallery.py] and
    [gallery_v2.py] save: when [fetch_buoy_image] of [mvp.py] returns an
    image, their download of the same station returns a path, and the file
    there holds bytes that decode to that image. *)
Theorem mvp_image_is_saved_by_gallery (buoy_id : Z) (d : fetch.disk)
        (img : PIL.image) :
  fetch.mvp_fetch_buoy_image w Image_open (fetch.str buoy_id) =
  inr (Return (Some img)) ->
  exists (d' : fetch.disk) (bytes : list Byte.byte),
    fetch.gallery_v2_fetch_buoy_image w buoy_id d = (Some (image_path_of buoy_id), d') /\
    d' !! image_path_of buoy_id = Some bytes /\
    Image_open bytes = Return img.
Proof.
  unfold fetch.mvp_fetch_buoy_image, fetch.gallery_v2_fetch_buoy_image.
  fold (image_path_of buoy_id).
  destruct (w (fetch.base_url_format (fetch.str buoy_id))) as [e | response];
    [discriminate |].
  destruct (Z.eqb_spec (requests.status_code response) 200) as [E | E];
    [| discriminate].
  destruct (Image_open (requests.content response)) as [img' |] eqn:Ed; [| discriminate].
  intros [= <-].
  unfold requests.raise_for_status. rewrite E. cbn.
  eexists. exists (requests.content response).
  split; [reflexivity |]. split; [apply lookup_insert_eq | exact Ed].
Qed.

End DownloadsMore.

(** ** The properties of gallery_v2.py and of the downloads on concrete inputs *)

Lemma numpy_aligns_gradient (i : Z) :
  0 <= i < 6 ->
  gallery_v2.align_horizon_value Samples.luma_601 Samples.numpy
    (strip (Samples.gradient 4 13) i) =
  Return (strip (Samples.gradient 4 13) i).
Proof.
  intros Hi.
  assert (Hc : i = 0 \/ i = 1 \/ i = 2 \/ i = 3 \/ i = 4 \/ i = 5) by lia.
  destruct Hc as [-> | [-> | [-> | [-> | [-> | ->]]]]]; reflexivity.
Qed.

Lemma numpy_raises_on_one_row (g : PIL.gray) :
  (length g <= 1)%nat -> gallery_v2.horizon_row Samples.numpy g = Raise ValueError.
Proof. destruct g as [| row [| row' g]]; cbn; intros H; [reflexivity | reflexivity | lia]. Qed.

Lemma v2_process_builds_new_image_witness :
  ([Samples.gradient 4 13] !! 0%nat = Some (Samples.gradient 4 13) /\
   forall i, 0 <= i < 6 ->
     gallery_v2.align_horizon_value Samples.luma_601 Samples.numpy
       (strip (Samples.gradient 4 13) i) =
     Return (strip (Samples.gradient 4 13) i)) /\
  exists (out : PIL.image) (s' : store),
    gallery_v2.process_and_split_image Samples.luma_601 Samples.numpy 0%nat
      [Samples.gradient 4 13] = (Return 14%nat, s') /\
    s' !! 0%nat = Some (Samples.gradient 4 13) /\
    s' !! 14%nat = Some out /\
    PIL.width out = 4%N /\ Z.of_N (PIL.height out) = 12.
Proof.
  assert (Hr : [Samples.gradient 4 13] !! 0%nat = Some (Samples.gradient 4 13))
    by reflexivity.
  split; [split; [exact Hr | exact numpy_aligns_gradient] |].
  destruct (v2_process_builds_new_image Samples.luma_601 Samples.numpy
              [Samples.gradient 4 13] 0%nat (Samples.gradient 4 13)
              (strip (Samples.gradient 4 13)) Hr numpy_aligns_gradient)
    as (out & s' & Hrun & _ & Hkeep & Ho & Hw & Hh).
  exists out, s'.
  split; [exact Hrun |]. split; [exact Hkeep |]. split; [exact Ho |].
  split; [exact Hw | rewrite Hh; reflexivity].
Defined.

Lemma v2_rejects_frames_under_12_rows_witness :
  ((forall g : PIL.gray, (length g <= 1)%nat ->
      gallery_v2.horizon_row Samples.numpy g = Raise ValueError) /\
   [Samples.gradient 4 11] !! 0%nat = Some (Samples.gradient 4 11) /\
   Z.of_N (PIL.height (Samples.gradient 4 11)) < 12) /\
  gallery_v2.process_and_split_image Samples.luma_601 Samples.numpy 0%nat
    [Samples.gradient 4 11] =
  (Raise ValueError, [Samples.gradient 4 11] ++ [strip (Samples.gradient 4 11) 0]).
Proof.
  assert (Hr : [Samples.gradient 4 11] !! 0%nat = Some (Samples.gradient 4 11))
    by reflexivity.
  assert (H12 : Z.of_N (PIL.height (Samples.gradient 4 11)) < 12) by reflexivity.
  split; [split; [exact numpy_raises_on_one_row | split; [exact Hr | exact H12]] |].
  exact (v2_rejects_frames_under_12_rows Samples.luma_601 Samples.numpy
           [Samples.gradient 4 11] 0%nat (Samples.gradient 4 11) ValueError
           numpy_raises_on_one_row Hr H12).
Defined.

Lemma v2_process_agrees_with_v4_witness :
  ([Samples.gradient 4 13] !! 0%nat = Some (Samples.gradient 4 13) /\
   6 <= Z.of_N (PIL.height (Samples.gradient 4 13)) /\
   (forall i, 0 <= i < 6 ->
      gallery_v2.align_horizon_value Samples.luma_601 Samples.numpy
        (strip (Samples.gradient 4 13) i) =
      Return (strip (Samples.gradient 4 13) i)) /\
   (forall i, 0 <= i < 6 ->
      gallery_v4.align_horizon_value Samples.luma_601 Samples.quiet
        (strip (Samples.gradient 4 13) i) =
      Return (strip (Samples.gradient 4 13) i))) /\
  gallery_v2.process_and_split_image Samples.luma_601 Samples.numpy 0%nat
    [Samples.gradient 4 13] =
  gallery_v4.process_and_split_image Samples.luma_601 Samples.quiet 0%nat
    [Samples.gradient 4 13].
Proof.
  assert (Hr : [Samples.gradient 4 13] !! 0%nat = Some (Samples.gradient 4 13))
    by reflexivity.
  assert (H6 : 6 <= Z.of_N (PIL.height (Samples.gradient 4 13)))
    by (vm_compute; discriminate).
  assert (H4 : forall i, 0 <= i < 6 ->
            gallery_v4.align_horizon_value Samples.luma_601 Samples.quiet
              (strip (Samples.gradient 4 13) i) =
            Return (strip (Samples.gradient 4 13) i))
    by (intros i _; reflexivity).
  split; [split; [exact Hr | split; [exact H6 | split; [exact numpy_aligns_gradient | exact H4]]] |].
  exact (v2_process_agrees_with_v4 Samples.luma_601 Samples.numpy Samples.quiet
           [Samples.gradient 4 13] 0%nat (Samples.gradient 4 13)
           (strip (Samples.gradient 4 13)) Hr H6 numpy_aligns_gradient H4).
Defined.

Lemma process_depends_on_frame_only_witness :
  let v := Samples.gradient 4 13 in
  let s1 := [v] in
  let s2 := [Samples.solid 2 2 Samples.white; v] in
  (s1 !! 0%nat = Some v /\ s2 !! 1%nat = Some v) /\
  ((exists e1 e2 t1 t2,
      gallery_v4.process_and_split_image Samples.luma_601 Samples.tilted 0%nat s1 =
      (Raise e1, s1 ++ t1) /\
      gallery_v4.process_and_split_image Samples.luma_601 Samples.tilted 1%nat s2 =
      (Raise e2, s2 ++ t2)) \/
   (exists out p1 p2 t1 t2,
      gallery_v4.process_and_split_image Samples.luma_601 Samples.tilted 0%nat s1 =
      (Return p1, s1 ++ t1) /\
      gallery_v4.process_and_split_image Samples.luma_601 Samples.tilted 1%nat s2 =
      (Return p2, s2 ++ t2) /\
      (s1 ++ t1) !! p1 = Some out /\ (s2 ++ t2) !! p2 = Some out)).
Proof.
  intros v s1 s2.
  assert (H1 : s1 !! 0%nat = Some v) by reflexivity.
  assert (H2 : s2 !! 1%nat = Some v) by reflexivity.
  split; [split; [exact H1 | exact H2] |].
  exact (process_depends_on_frame_only Samples.luma_601 Samples.tilted
           s1 s2 0%nat 1%nat v H1 H2).
Defined.

Lemma fetch_writes_only_its_own_file_witness :
  let d' : fetch.disk := <[image_path_of 45007 := [Byte.xff; Byte.xd8]]> ∅ in
  fetch.gallery_v4_fetch_buoy_image Samples.sample_web 45007 ∅ =
  (Some (image_path_of 45007), d') /\
  d' !! image_path_of 45012 = None /\
  d' !! image_path_of 45007 = Some [Byte.xff; Byte.xd8].
Proof.
  intros d'.
  assert (H : fetch.gallery_v4_fetch_buoy_image Samples.sample_web 45007 ∅ =
              (Some (image_path_of 45007), d')) by reflexivity.
  split; [exact H |].
  destruct (fetch_writes_only_its_own_file Samples.sample_web 45007 ∅ d'
              (Some (image_path_of 45007)) H) as (_ & Hother & Hown).
  split.
  - rewrite (Hother (image_path_of 45012)); [reflexivity |].
    intros E. apply image_path_of_inj in E. discriminate.
  - destruct (Hown _ eq_refl) as (_ & response & Hw & _ & _ & Hl).
    injection Hw as <-. exact Hl.
Defined.

Lemma fetched_files_survive_the_loop_witness :
  (45007 ∈ [45007; 45012; 46002] /\
   fst (fetch.gallery_v4_fetch_buoy_image Samples.sample_web 45007 ∅) =
   Some (image_path_of 45007)) /\
  exists response,
    Samples.sample_web (url_of 45007) = inr response /\
    fetch_all Samples.sample_web [45007; 45012; 46002] ∅ !! image_path_of 45007 =
    Some (requests.content response).
Proof.
  assert (Hin : 45007 ∈ [45007; 45012; 46002]) by (apply elem_of_cons; left; reflexivity).
  assert (Hp : fst (fetch.gallery_v4_fetch_buoy_image Samples.sample_web 45007 ∅) =
               Some (image_path_of 45007)) by reflexivity.
  split; [split; [exact Hin | exact Hp] |].
  exact (fetched_files_survive_the_loop Samples.sample_web [45007; 45012; 46002] ∅
           45007 (image_path_of 45007) Hin Hp).
Defined.

Lemma v4_fetch_is_stricter_than_v2_witness :
  let d' : fetch.disk := <[image_path_of 45007 := [Byte.xff; Byte.xd8]]> ∅ in
  fetch.gallery_v4_fetch_buoy_image Samples.sample_web 45007 ∅ =
  (Some (image_path_of 45007), d') /\
  fetch.gallery_v2_fetch_buoy_image Samples.sample_web 45007 ∅ =
  (Some (image_path_of 45007), d').
Proof.
  intros d'.
  assert (H : fetch.gallery_v4_fetch_buoy_image Samples.sample_web 45007 ∅ =
              (Some (image_path_of 45007), d')) by reflexivity.
  split; [exact H |].
  destruct (v4_fetch_is_stricter_than_v2 Samples.sample_web 45007 ∅ d'
              (Some (image_path_of 45007)) H) as [Hsame _].
  exact (Hsame _ eq_refl).
Defined.

Lemma mvp_image_is_saved_by_gallery_witness :
  fetch.mvp_fetch_buoy_image Samples.sample_web Samples.sample_decoder
    (fetch.str 45007) = inr (Return (Some (Samples.solid 1 1 Samples.white))) /\
  exists (d' : fetch.disk) (bytes : list Byte.byte),
    fetch.gallery_v2_fetch_buoy_image Samples.sample_web 45007 ∅ =
    (Some (image_path_of 45007), d') /\
    d' !! image_path_of 45007 = Some bytes /\
    Samples.sample_decoder bytes = Return (Samples.solid 1 1 Samples.white).
Proof.
  assert (H : fetch.mvp_fetch_buoy_image Samples.sample_web Samples.sample_decoder
                (fetch.str 45007) =
              inr (Return (Some (Samples.solid 1 1 Samples.white)))) by reflexivity.
  split; [exact H |].
  exact (mvp_image_is_saved_by_gallery Samples.sample_web Samples.sample_decoder
           45007 ∅ (Samples.solid 1 1 Samples.white) H).
Defined.

(** The header test of [gallery_v4.py] is what makes the difference: the
    page of text that station 45012 answers with is saved by
    [gallery_v2.py] and [gallery.py] and rejected by [gallery_v4.py]; and
    the status test of [mvp.py] is stricter than [raise_for_status]: the
    answer 204 of station 46011 is saved by all three galleries and shown
    by [mvp.py] as nothing. *)
Example fetch_versions_differ :
  fst (fetch.gallery_v4_fetch_buoy_image Samples.sample_web 45012 ∅) = None /\
  fst (fetch.gallery_v2_fetch_buoy_image Samples.sample_web 45012 ∅) =
  Some "./buoy_images/45012.jpg"%string /\
  fst (fetch.gallery_v4_fetch_buoy_image Samples.sample_web 46011 ∅) =
  Some "./buoy_images/46011.jpg"%string /\
  fetch.mvp_fetch_buoy_image Samples.sample_web Samples.sample_decoder "46011" =
  inr (Return None).
Proof. repeat split; reflexivity. Qed.
